(** * win-iso-downloader: the catalog resolver and the heuristic resolver

    A shallow embedding of [download_esd.py] and [download_iso.py].

    Conventions of the embedding.
    - A Python [bytes] value is a [string] (a sequence of 8-bit characters).
      A Python [str] is represented by its UTF-8 encoding, again a [string]:
      [bytes.decode('utf-8')] is then the identity on well-formed input and
      raises [UnicodeDecodeError] otherwise.  The patterns and literals of the
      two scripts are ASCII, so searching and comparing on the encoding agrees
      with searching and comparing on code points.
    - Exceptions are values of [exn]; a computation is a function from a state
      to a state and a [res]ult.  [try]/[except] and [try]/[finally] are
      combinators of that monad.
    - Everything outside the two scripts (the network, the external tools, the
      XML parser, the temporary-name generator, the encoding of the locale,
      the built-in [int] and the table of decimal digits of the interpreter)
      is a field of a [world] record, over which every statement
      quantifies. *)

From Stdlib Require Import ZArith Ascii String List Bool Lia.
From Stdlib Require Import Floats.SpecFloat.
From stdpp Require Import base option list gmap strings.

Local Open Scope Z_scope.

(* ===================================================================== *)
(** * Python values and control flow *)
(* ===================================================================== *)

Module Py.

(** The exceptions that the two scripts can meet. *)
Inductive exn : Type :=
| SystemExit (code : Z)
| FileNotFoundError
| CalledProcessError
| UnicodeDecodeError
| UnicodeEncodeError
| ValueError (msg : string)
| TypeError
| AttributeError
| OverflowError
| ParseError
| RequestException
| URLError
| HTTPError (code : Z)
| TimeoutError.

(** [except Exception] catches every exception except those that derive from
    [BaseException] only; of the ones above that is [SystemExit]. *)
Definition is_Exception (e : exn) : bool :=
  match e with
  | SystemExit _ => false
  | _ => true
  end.

Inductive res (A : Type) : Type :=
| Ok (a : A)
| Raise (e : exn).
Arguments Ok {A} a.
Arguments Raise {A} e.

(** State-and-exception monad. *)
Definition M (S A : Type) : Type := S -> S * res A.

Definition ret {S A} (a : A) : M S A := fun s => (s, Ok a).

Definition raise {S A} (e : exn) : M S A := fun s => (s, Raise e).

Definition bind {S A B} (m : M S A) (k : A -> M S B) : M S B :=
  fun s =>
    match m s with
    | (s', Ok a) => k a s'
    | (s', Raise e) => (s', Raise e)
    end.

Definition lift {S A} (r : res A) : M S A := fun s => (s, r).

(** [try: body  except <classes>: handler]: the handler runs for the
    exceptions selected by [catches]; others propagate. *)
Definition try_except {S A} (body : M S A) (catches : exn -> bool)
    (handler : M S A) : M S A :=
  fun s =>
    match body s with
    | (s', Ok a) => (s', Ok a)
    | (s', Raise e) => if catches e then handler s' else (s', Raise e)
    end.

(** [try: body  finally: fin]: [fin] runs on every exit of [body]; an
    exception of [fin] replaces the outcome of [body]. *)
Definition try_finally {S A} (body : M S A) (fin : M S unit) : M S A :=
  fun s =>
    match body s with
    | (s1, r) =>
        match fin s1 with
        | (s2, Ok _) => (s2, r)
        | (s2, Raise e) => (s2, Raise e)
        end
    end.

Declare Scope py_scope.
Delimit Scope py_scope with py.
Notation "x <- m ;; k" := (bind m (fun x => k))
  (at level 100, m at next level, right associativity) : py_scope.
Notation "m ;;; k" := (bind m (fun _ => k))
  (at level 100, right associativity) : py_scope.

(** [m] takes every state to one related to it by [R], however it ends. *)
Definition preserves {S A} (R : S -> S -> Prop) (m : M S A) : Prop :=
  forall s, R s (fst (m s)).

(** ** Byte strings *)

Fixpoint drop_str (n : nat) (s : string) : string :=
  match n, s with
  | O, _ => s
  | S n', String _ s' => drop_str n' s'
  | S _, EmptyString => EmptyString
  end.

(** Lowest offset, counted from [i], at which [sub] starts in [s]; [-1] when
    there is none. *)
Fixpoint find_here (sub s : string) (i : Z) : Z :=
  if String.prefix sub s then i
  else match s with
       | EmptyString => -1
       | String _ s' => find_here sub s' (i + 1)
       end.

(** [s.find(sub, start)] for [0 <= start]. *)
Definition bytes_find (s sub : string) (start : Z) : Z :=
  if Z.of_nat (String.length s) <? start then -1
  else find_here sub (drop_str (Z.to_nat start) s) start.

(** [sub] starts at offset [n] of [s]. *)
Definition starts_at (sub s : string) (n : nat) : bool :=
  String.prefix sub (drop_str n s).

(** [sub] starts at offset [n] of [s] and at no smaller offset. *)
Definition first_at (sub s : string) (n : nat) : bool :=
  starts_at sub s n && forallb (fun i => negb (starts_at sub s i)) (seq 0 n).

(** [s[a:b]] for [0 <= a] and [0 <= b]. *)
Definition slice (s : string) (a b : Z) : string :=
  String.substring (Z.to_nat a) (Z.to_nat (b - a)) s.

(** [sub in s]. *)
Fixpoint contains (sub s : string) : bool :=
  if String.prefix sub s then true
  else match s with
       | EmptyString => false
       | String _ s' => contains sub s'
       end.

(** ** UTF-8 *)

Definition code (c : ascii) : Z := Z.of_nat (nat_of_ascii c).

Definition in_range (lo hi : Z) (c : ascii) : bool :=
  (lo <=? code c) && (code c <=? hi).

Definition cont (c : ascii) : bool := in_range 128 191 c.

(** Well-formed UTF-8 as the strict decoder accepts it: shortest forms only,
    no surrogates, nothing above U+10FFFF. *)
Fixpoint utf8_valid (s : string) : bool :=
  match s with
  | EmptyString => true
  | String c0 s0 =>
      if code c0 <=? 127 then utf8_valid s0
      else
        match s0 with
        | EmptyString => false
        | String c1 s1 =>
            if in_range 194 223 c0 then cont c1 && utf8_valid s1
            else
              match s1 with
              | EmptyString => false
              | String c2 s2 =>
                  if in_range 224 239 c0 then
                    (if code c0 =? 224 then in_range 160 191 c1
                     else if code c0 =? 237 then in_range 128 159 c1
                     else cont c1)
                    && cont c2 && utf8_valid s2
                  else
                    match s2 with
                    | EmptyString => false
                    | String c3 s3 =>
                        in_range 240 244 c0
                        && (if code c0 =? 240 then in_range 144 191 c1
                            else if code c0 =? 244 then in_range 128 143 c1
                            else cont c1)
                        && cont c2 && cont c3 && utf8_valid s3
                    end
              end
        end
  end.

(** [b.decode('utf-8')]. *)
Definition decode_utf8 (b : string) : res string :=
  if utf8_valid b then Ok b else Raise UnicodeDecodeError.

(** Universal-newline translation of a text-mode read: ["\r\n"] and a lone
    ["\r"] both become ["\n"]. *)
Fixpoint universal_newlines (s : string) : string :=
  match s with
  | EmptyString => EmptyString
  | String c s' =>
      if code c =? 13 then
        match s' with
        | String c' s'' =>
            if code c' =? 10 then String c' (universal_newlines s'')
            else String (ascii_of_nat 10) (universal_newlines s')
        | EmptyString => String (ascii_of_nat 10) EmptyString
        end
      else String c (universal_newlines s')
  end.

(** [open(path, 'r', encoding='utf-8').read()] on a file holding [b]. *)
Definition read_text (b : string) : res string :=
  match decode_utf8 b with
  | Ok s => Ok (universal_newlines s)
  | Raise e => Raise e
  end.

(** Every character is ASCII. *)
Fixpoint is_ascii (s : string) : bool :=
  match s with
  | EmptyString => true
  | String c s' => (code c <? 128) && is_ascii s'
  end.

(** ** Floats *)

(** A Python [float] is an IEEE 754 binary64 number. *)
Definition float : Type := spec_float.

(** [n / 2**k] for an [int] [n]: true division rounds the exact quotient to
    the nearest binary64 value, ties to even, and raises [OverflowError] when
    that is out of range. *)
Definition truediv_pow2 (n : Z) (k : Z) : res float :=
  match binary_normalize 53 1024 n (- k) false with
  | S754_infinity _ => Raise OverflowError
  | x => Ok x
  end.

End Py.

(* ===================================================================== *)
(** * download_esd.py: the catalog resolver *)
(* ===================================================================== *)

Module Esd.
Import Py.
Local Open Scope py_scope.

(** ** The host *)

(** The external programs the script calls. *)
Inductive tool : Type := which | cabextract | tar | sevenzip | wimlib_imagex.

Definition tool_name (t : tool) : string :=
  match t with
  | which => "which"
  | cabextract => "cabextract"
  | tar => "tar"
  | sevenzip => "7z"
  | wimlib_imagex => "wimlib-imagex"
  end.

(** What an installed extraction tool does with the archive: a non-zero exit
    status, or a zero one, after which [products.xml] is in the output
    directory ([Some] of its bytes) or is not ([None]). *)
Inductive run_outcome : Type :=
| ExitNonZero
| ExitZero (products_xml : option string).

(** What [requests.get(url, stream=True)] followed by the chunk loop does:
    the request raises before the target is opened; or the stream breaks after
    [written] has been written; or the whole [body] arrives. *)
Inductive fetch_outcome : Type :=
| FetchRaises
| FetchBreaks (written : string)
| FetchOk (body : string).

(** An [xml.etree.ElementTree.Element]: tag, text and children. *)
#[warnings="-register-all"]
Inductive element : Type :=
| Element (tag : string) (text : option string) (children : list element).

Definition tag (e : element) : string := let 'Element t _ _ := e in t.
Definition text (e : element) : option string := let 'Element _ x _ := e in x.
Definition children (e : element) : list element := let 'Element _ _ c := e in c.

(** What a run of the converter leaves: its return code, the bytes it wrote
    to its standard output and standard error, and the [win.wim] it wrote, if
    any. *)
Record export : Type := {
  returncode : Z;
  stdout : string;
  stderr : string;
  wim : option string
}.

Record world : Type := {
  platform_system : string;
  (** is the program on the search path *)
  installed : tool -> bool;
  (** an installed extraction tool, run on the archive ([None]: no such file) *)
  tool_run : tool -> option string -> run_outcome;
  (** [wimlib-imagex export win.esd all win.wim] on the bytes of [win.esd] *)
  wimlib_export : option string -> export;
  (** [bytes.decode] with the encoding of the locale, which is what
      [subprocess.run] uses under [text=True]; [None] stands for
      [UnicodeDecodeError] *)
  locale_decode : string -> option string;
  (** [int(text)] for a [str]: the number, or the message of the
      [ValueError] *)
  int_str : string -> Z + string;
  http : string -> fetch_outcome;
  (** [tempfile.gettempdir()] and the random parts of the two temporary names *)
  tempdir : string;
  rand_file : string;
  rand_dir : string;
  (** [ET.fromstring]; [None] stands for [ParseError] *)
  fromstring : string -> option element
}.

(** What the script does that can be observed from outside; [HttpGet url into]
    is the request [download_file] makes for [url], to be stored in [into]. *)
Inductive event : Type :=
| Print (line : string)
| PrintFound (size_gb : float)
| Exec (argv : list string)
| HttpGet (url into : string)
| OpenRead (path : string)
| Unlink (path : string).

(** The file system maps a path to the bytes of the file there. *)
Record state : Type := {
  fs : gmap string string;
  log : list event
}.

Definition emit (ev : event) : M state unit :=
  fun s => ({| fs := fs s; log := log s ++ [ev] |}, Ok tt).

Definition print (line : string) : M state unit := emit (Print line).

Definition write_file (path data : string) : M state unit :=
  fun s => ({| fs := <[path := data]> (fs s); log := log s |}, Ok tt).

Definition path_exists (path : string) : M state bool :=
  fun s => (s, Ok (bool_decide (is_Some (fs s !! path)))).

(** [os.unlink]. *)
Definition unlink (path : string) : M state unit :=
  emit (Unlink path);;;
  fun s =>
    match fs s !! path with
    | Some _ => ({| fs := delete path (fs s); log := log s |}, Ok tt)
    | None => (s, Raise FileNotFoundError)
    end.

(** [subprocess.run(argv, ...)]: the program must be on the search path. *)
Definition subprocess_run (w : world) (t : tool) (argv : list string)
  : M state unit :=
  emit (Exec argv);;;
  if installed w t then ret tt else raise FileNotFoundError.

Definition nl : string := String (ascii_of_nat 10) EmptyString.

(** ** [check_tools] *)

(** [subprocess.run(['which', name], capture_output=True).returncode == 0] *)
Definition has_tool (w : world) (t : tool) : M state bool :=
  subprocess_run w which ["which"; tool_name t];;;
  ret (installed w t).

Definition check_tools (w : world) : M state bool :=
  let system := platform_system w in
  has_cabextract <- has_tool w cabextract;;
  has_tar <- has_tool w tar;;
  (if negb has_cabextract && negb has_tar then
     print "❌ Missing CAB extraction tool!";;;
     (if String.eqb system "Darwin"
      then print "Install: brew install cabextract"
      else print "Install: sudo apt install cabextract");;;
     raise (SystemExit 1)
   else ret tt);;;
  has_wimlib <- has_tool w wimlib_imagex;;
  (if negb has_wimlib then
     print "❌ Missing ESD conversion tool (wimlib-imagex)!";;;
     (if String.eqb system "Darwin"
      then print "Install: brew install wimlib"
      else print "Install: sudo apt install wimtools");;;
     raise (SystemExit 1)
   else ret tt);;;
  print "✓ All required tools found";;;
  ret true.

(** ** [download_file] *)

(** The URL is a Python value that may be [None]; [requests.get] refuses it
    before anything is opened.  The progress bar is not modelled. *)
Definition download_file (w : world) (url : option string) (filename : string)
  : M state unit :=
  match url with
  | None => raise RequestException
  | Some u =>
      emit (HttpGet u filename);;;
      match http w u with
      | FetchRaises => raise RequestException
      | FetchBreaks written =>
          write_file filename written;;; raise RequestException
      | FetchOk body => write_file filename body
      end
  end.

(** ** [extract_xml_from_cab] *)

Definition START : string := "<?xml".
Definition END_ : string := "</Products>".

Definition not_run (e : exn) : bool :=
  match e with
  | CalledProcessError | FileNotFoundError => true
  | _ => false
  end.

(** One of the three tool attempts, which differ in the command line only:
    run the tool with [check=True]; if [products.xml] is then in the
    temporary directory, read it as UTF-8 text and return it; a tool that is
    missing or exits with a non-zero status is passed over. The temporary
    directory lives and dies inside [extract_xml_from_cab], so only what is
    read from it is kept. *)
Definition try_tool (w : world) (t : tool) (argv : list string)
    (cab_path : string) : M state (option string) :=
  try_except
    (subprocess_run w t argv;;;
     cab <- (fun s => (s, Ok (fs s !! cab_path)));;
     match tool_run w t cab with
     | ExitNonZero => raise CalledProcessError
     | ExitZero None => ret None
     | ExitZero (Some b) => s <- lift (read_text b);; ret (Some s)
     end)
    not_run
    (ret None).

(** The last resort: the bytes between the two markers of the raw archive.
    [None]: a marker is missing. *)
Definition raw_scan (cab_data : string) : option (res string) :=
  let xml_start := bytes_find cab_data START 0 in
  if negb (xml_start =? -1) then
    let xml_end := bytes_find cab_data END_ xml_start in
    if negb (xml_end =? -1) then
      let xml_end := xml_end + Z.of_nat (String.length END_) in
      Some (decode_utf8 (slice cab_data xml_start xml_end))
    else None
  else None.

Definition not_extractable : string :=
  "Could not extract products.xml - install cabextract: brew install cabextract (macOS) or apt install cabextract (Ubuntu)".

Definition extract_xml_from_cab (w : world) (cab_path : string)
  : M state string :=
  let tmpdir := tempdir w +:+ "/tmp" +:+ rand_dir w in
  r1 <- try_tool w cabextract
          ["cabextract"; "-q"; "-d"; tmpdir; cab_path] cab_path;;
  match r1 with
  | Some xml => ret xml
  | None =>
  r2 <- try_tool w tar ["tar"; "xf"; cab_path; "products.xml"] cab_path;;
  match r2 with
  | Some xml => ret xml
  | None =>
  r3 <- try_tool w sevenzip
          ["7z"; "e"; "-y"; "-o" +:+ tmpdir; cab_path; "products.xml"]
          cab_path;;
  match r3 with
  | Some xml => ret xml
  | None =>
  emit (OpenRead cab_path);;;
  fun s =>
    match fs s !! cab_path with
    | None => (s, Raise FileNotFoundError)
    | Some cab_data =>
        match raw_scan cab_data with
        | Some r => (s, r)
        | None => (s, Raise (ValueError not_extractable))
        end
    end
  end end end.

(** ** The catalog *)

(** [Element.iter()]: the element and its descendants, in document order. *)
Fixpoint iter (e : element) : list element :=
  match e with
  | Element _ _ cs => e :: flat_map iter cs
  end.

(** [root.findall(".//" + name)]: the proper descendants with that tag. *)
Definition findall_desc (name : string) (root : element) : list element :=
  List.filter (fun e => String.eqb (tag e) name) (flat_map iter (children root)).

(** [elem.find(name)]: the first child with that tag. *)
Definition find (name : string) (elem : element) : option element :=
  List.find (fun e => String.eqb (tag e) name) (children elem).

(** [e is not None and e.text == s] *)
Definition text_is (e : option element) (s : string) : bool :=
  match e with
  | Some (Element _ (Some t) _) => String.eqb t s
  | _ => false
  end.

Record query : Type := {
  languageCode : string;
  editionId : string;
  architecture : string
}.

(** The dictionary [found] of [main]. *)
Record found : Type := {
  url : option string;
  size : float
}.

Definition matches (q : query) (file_elem : element) : bool :=
  let lang := find "LanguageCode" file_elem in
  let edition := find "Edition" file_elem in
  let arch := find "Architecture" file_elem in
  text_is lang (languageCode q) && text_is edition (editionId q)
  && text_is arch (architecture q).

(** [{'url': file_elem.find("FilePath").text,
      'size': int(file_elem.find("Size").text) / (1024**3)}];
    [1024**3] is [2**30]. *)
Definition make_found (w : world) (file_elem : element) : res found :=
  match find "FilePath" file_elem with
  | None => Raise AttributeError
  | Some fp =>
      match find "Size" file_elem with
      | None => Raise AttributeError
      | Some sz =>
          match text sz with
          | None => Raise TypeError
          | Some t =>
              match int_str w t with
              | inr msg => Raise (ValueError msg)
              | inl n =>
                  match truediv_pow2 n 30 with
                  | Raise e => Raise e
                  | Ok gb => Ok {| url := text fp; size := gb |}
                  end
              end
          end
      end
  end.

(** The loop of [main] over the [File] elements; the three literals of the
    condition are the fields of [q]. *)
Fixpoint find_edition (w : world) (q : query) (files : list element)
  : res (option found) :=
  match files with
  | [] => Ok None
  | file_elem :: rest =>
      if matches q file_elem then
        match make_found w file_elem with
        | Ok f => Ok (Some f)
        | Raise e => Raise e
        end
      else find_edition w q rest
  end.

Definition enterprise_n : query :=
  {| languageCode := "en-us"; editionId := "EnterpriseN"; architecture := "x64" |}.

(** ** [main] *)

Definition cab_url : string := "https://go.microsoft.com/fwlink/?LinkId=2156292".

(** The name [tempfile.NamedTemporaryFile(suffix='.cab')] gives the file. *)
Definition cab_tmp_name (w : world) : string :=
  tempdir w +:+ "/tmp" +:+ rand_file w +:+ ".cab".

(** What [text=True] does to the bytes captured from the converter: they are
    decoded with the encoding of the locale, strictly, and line ends are
    translated. *)
Definition decode_output (w : world) (b : string) : res string :=
  match locale_decode w b with
  | Some s => Ok (universal_newlines s)
  | None => Raise UnicodeDecodeError
  end.

(** Everything after the catalog has been parsed.  The converter has run to
    its end before its output is decoded, so what it wrote is there also
    when the decoding fails. *)
Definition main_after_parse (w : world) (root : element) : M state unit :=
  print "Finding Enterprise N edition...";;;
  found <- lift (find_edition w enterprise_n (findall_desc "File" root));;
  match found with
  | None =>
      print "Enterprise N not found in catalog";;;
      raise (SystemExit 1)
  | Some found =>
      emit (PrintFound (size found));;;
      ex <- path_exists "win.esd";;
      (if ex then print "✓ win.esd already exists, skipping download"
       else
         print "Downloading ESD...";;;
         download_file w (url found) "win.esd";;;
         print "✓ Downloaded: win.esd");;;
      print (nl +:+ "Converting ESD to WIM...");;;
      print "Exporting images...";;;
      subprocess_run w wimlib_imagex
        ["wimlib-imagex"; "export"; "win.esd"; "all"; "win.wim"];;;
      esd <- (fun s => (s, Ok (fs s !! "win.esd")));;
      let result := wimlib_export w esd in
      match wim result with
      | Some b => write_file "win.wim" b
      | None => ret tt
      end;;;
      _ <- lift (decode_output w (stdout result));;
      result_stderr <- lift (decode_output w (stderr result));;
      if returncode result =? 0 then
        print "✓ Created win.wim";;;
        print (nl +:+ "⚠️  NOTE: This is NOT a bootable ISO!");;;
        print "To make it bootable you need Windows boot files.";;;
        print "See README.md for options."
      else print ("Error converting ESD: " +:+ result_stderr)
  end.

Definition main (w : world) : M state unit :=
  check_tools w;;;
  print (nl +:+ "Fetching Microsoft catalog...");;;
  let tmp_name := cab_tmp_name w in
  write_file tmp_name "";;;
  download_file w (Some cab_url) tmp_name;;;
  let cab_path := tmp_name in
  root <- try_finally
            (xml_content <- extract_xml_from_cab w cab_path;;
             match fromstring w xml_content with
             | Some root => ret root
             | None => raise ParseError
             end)
            (unlink cab_path);;
  main_after_parse w root.

End Esd.

(* ===================================================================== *)
(** * download_iso.py: the heuristic resolver *)
(* ===================================================================== *)

Module Iso.
Import Py.
Local Open Scope py_scope.

(** ** The two regular expressions *)

(** The patterns of the script are sequences of literals and of greedy
    one-or-more repetitions of a character class.  [Plus cls] is a class that
    is decided byte by byte; [PlusDigit nd] is the class [\d] of a [str]
    pattern, the decimal digits of Unicode: the ASCII digits and the
    characters outside ASCII that the table [nd] holds, each given by its
    UTF-8 encoding. *)
Inductive item : Type :=
| Lit (s : string)
| Plus (cls : ascii -> bool)
| PlusDigit (nd : string -> bool).

(** Match the literal [l] at the start of [s]; the rest of [s]. *)
Fixpoint match_lit (l s : string) : option string :=
  match l with
  | EmptyString => Some s
  | String a l' =>
      match s with
      | String b s' => if Ascii.eqb a b then match_lit l' s' else None
      | EmptyString => None
      end
  end.

(** Greedy zero-or-more of [cls] followed by the continuation [k]: take a
    character if possible and give it back only if everything after fails. *)
Fixpoint star (cls : ascii -> bool) (k : string -> option (list string))
    (s : string) : option (string * list string) :=
  match s with
  | String c s' =>
      if cls c then
        match star cls k s' with
        | Some (m, segs) => Some (String c m, segs)
        | None => option_map (pair EmptyString) (k s)
        end
      else option_map (pair EmptyString) (k s)
  | EmptyString => option_map (pair EmptyString) (k s)
  end.

(** The ASCII digits. *)
Definition digit (c : ascii) : bool := in_range 48 57 c.

Definition str1 (c0 : ascii) : string := String c0 EmptyString.
Definition str2 (c0 c1 : ascii) : string := String c0 (str1 c1).
Definition str3 (c0 c1 c2 : ascii) : string := String c0 (str2 c1 c2).
Definition str4 (c0 c1 c2 c3 : ascii) : string := String c0 (str3 c1 c2 c3).

(** The character [ch] has been taken and [r] is what the rest gives: on
    failure the character is given back and [stop] decides. *)
Definition take (ch : string) (r stop : option (string * list string))
  : option (string * list string) :=
  match r with
  | Some (m, segs) => Some (ch +:+ m, segs)
  | None => stop
  end.

(** Greedy zero-or-more of [\d] followed by the continuation [k].  A digit
    outside ASCII is a character of two, three or four bytes, a lead byte and
    its continuation bytes, and is taken or given back as a whole. *)
Fixpoint dstar (nd : string -> bool) (k : string -> option (list string))
    (s : string) : option (string * list string) :=
  let stop := option_map (pair EmptyString) (k s) in
  match s with
  | String c0 s0 =>
      if digit c0 then take (str1 c0) (dstar nd k s0) stop
      else
        match s0 with
        | String c1 s1 =>
            if in_range 194 223 c0 && cont c1 then
              if nd (str2 c0 c1) then take (str2 c0 c1) (dstar nd k s1) stop
              else stop
            else
              match s1 with
              | String c2 s2 =>
                  if in_range 224 239 c0 && cont c1 && cont c2 then
                    if nd (str3 c0 c1 c2)
                    then take (str3 c0 c1 c2) (dstar nd k s2) stop
                    else stop
                  else
                    match s2 with
                    | String c3 s3 =>
                        if in_range 240 244 c0 && cont c1 && cont c2
                           && cont c3 && nd (str4 c0 c1 c2 c3)
                        then take (str4 c0 c1 c2 c3) (dstar nd k s3) stop
                        else stop
                    | EmptyString => stop
                    end
              | EmptyString => stop
              end
        | EmptyString => stop
        end
  | EmptyString => stop
  end.

(** A backtracking match of [items] at the start of [s]: the text each item
    matched, for the first match in the engine's search order. *)
Fixpoint match_items (items : list item) (s : string)
  : option (list string) :=
  match items with
  | [] => Some []
  | Lit l :: rest =>
      match match_lit l s with
      | Some s' => option_map (cons l) (match_items rest s')
      | None => None
      end
  | Plus cls :: rest =>
      match s with
      | String c s' =>
          if cls c then
            match star cls (match_items rest) s' with
            | Some (m, segs) => Some (String c m :: segs)
            | None => None
            end
          else None
      | EmptyString => None
      end
  | PlusDigit nd :: rest =>
      match dstar nd (match_items rest) s with
      | Some (String c m, segs) => Some (String c m :: segs)
      | _ => None
      end
  end.

Definition whole (segs : list string) : string := String.concat "" segs.

(** [re.findall]: scan from the left; after a match, go on behind it.
    [skip] counts the characters of the last match still to be passed.
    Neither pattern matches the empty string. *)
Fixpoint findall_go (items : list item) (pick : list string -> string)
    (s : string) (skip : nat) : list string :=
  match s with
  | EmptyString => []
  | String _ s' =>
      match skip with
      | S n => findall_go items pick s' n
      | O =>
          match match_items items s with
          | Some segs =>
              pick segs
                :: findall_go items pick s' (String.length (whole segs) - 1)
          | None => findall_go items pick s' 0
          end
      end
  end.

Definition findall (items : list item) (pick : list string -> string)
    (s : string) : list string :=
  findall_go items pick s 0.

Definition not_quote (c : ascii) : bool := negb (code c =? 34).

(** The pattern [https://] [[^q]+] [\.iso], where [q] is the double quote. *)
Definition iso_url_re : list item := [Lit "https://"; Plus not_quote; Lit ".iso"].

(** The pattern [LinkID=(\d+)], whose one group is the second item. *)
Definition linkid_re (nd : string -> bool) : list item :=
  [Lit "LinkID="; PlusDigit nd].

Definition group1 (segs : list string) : string := nth 1 segs EmptyString.

(** ** The network *)

(** How a probe can fail. *)
Inductive probe_error : Type :=
| ProbeURLError
| ProbeHTTPError (code : Z)
| ProbeTimeout.

Definition exn_of (e : probe_error) : exn :=
  match e with
  | ProbeURLError => URLError
  | ProbeHTTPError c => HTTPError c
  | ProbeTimeout => TimeoutError
  end.

(** What [urlopen] hands back for a HEAD request: the final location after
    redirects and the status. *)
Record response : Type := {
  resp_url : string;
  status : Z
}.

(** The network, and the one table of the interpreter the script depends
    on. *)
Record net : Type := {
  (** GET with the browser-like headers: the bytes of the body *)
  get : string -> probe_error + string;
  (** HEAD *)
  head : string -> probe_error + response;
  (** the decimal digits outside ASCII in the Unicode database of the
      interpreter, by their UTF-8 encoding *)
  decimal : string -> bool
}.

(** What the resolver does that can be observed: the lines it prints and its
    calls of [urlopen], [Get url] with a GET request for [url] and [Head url]
    with a HEAD request. *)
Inductive event : Type :=
| Print (line : string)
| Get (url : string)
| Head (url : string).

Definition log : Type := list event.

Definition emit (ev : event) : M log unit := fun s => (s ++ [ev], Ok tt).

(** [print(..., file=sys.stderr)] *)
Definition print (line : string) : M log unit := emit (Print line).

(** [urlopen] writes the URL into the request line and encodes that line as
    ASCII before anything is sent: for a URL with a character outside ASCII
    it raises [UnicodeEncodeError] and nothing reaches the network. *)
Definition open_url {A} (send : string -> probe_error + A) (url : string)
  : res A :=
  if is_ascii url then
    match send url with
    | inl e => Raise (exn_of e)
    | inr a => Ok a
    end
  else Raise UnicodeEncodeError.

Definition urlopen_get (n : net) (url : string) : M log string :=
  emit (Get url);;;
  lift (open_url (get n) url).

Definition urlopen_head (n : net) (url : string) : M log response :=
  emit (Head url);;;
  lift (open_url (head n) url).

(** ** [get_windows_iso_url] *)

Definition api_endpoints : list string :=
  [ "https://www.microsoft.com/en-us/evalcenter/api/products/getproducts";
    "https://www.microsoft.com/en-us/api/controls/contentinclude/html?pageId=cfa0e580-a81e-4a4b-a846-7b21bf4e2e5b&host=www.microsoft.com&segments=software-download,windows10ISO";
    "https://www.microsoft.com/en-us/software-download/windows10ISO/ajax" ].

Definition base_urls : list string :=
  [ "https://software-static.download.prss.microsoft.com/sg/download/888969d5-f34g-4e03-ac9d-1f9786c66749/";
    "https://software-static.download.prss.microsoft.com/dbazure/";
    "https://software.download.prss.microsoft.com/sg/" ].

Definition iso_names : list string :=
  [ "19045.2006.220908-0225.22h2_release_svc_refresh_CLIENTENTERPRISEEVAL_OEMRET_x64FRE_en-us.iso";
    "Win10_22H2_EnterpriseEval_x64.iso";
    "Win10_22H2_English_x64.iso";
    "Win10_22H2_English_x64v1.iso";
    "SERVER_EVAL_x64FRE_en-us.iso" ].

Definition fallback_url : string :=
  "https://go.microsoft.com/fwlink/?LinkID=2195280&clcid=0x409&culture=en-us&country=US".

(** [f"https://go.microsoft.com/fwlink/?LinkID={linkid}"] *)
Definition fwlink (linkid : string) : string :=
  "https://go.microsoft.com/fwlink/?LinkID=" +:+ linkid.

Definition any_exn (e : exn) : bool := true.

(** [for linkid in linkids]: [Some] is the [return] of the function, [None]
    the end of the loop. *)
Fixpoint linkid_loop (n : net) (linkids : list string)
  : M log (option string) :=
  match linkids with
  | [] => ret None
  | linkid :: rest =>
      let test_url := fwlink linkid in
      print ("Testing LinkID " +:+ linkid +:+ "...");;;
      r <- try_except
             (resp <- urlopen_head n test_url;;
              if contains ".iso" (resp_url resp) then
                print ("Found working LinkID: " +:+ linkid);;;
                ret (Some test_url)
              else ret None)
             any_exn
             (ret None);;
      match r with
      | Some u => ret (Some u)
      | None => linkid_loop n rest
      end
  end.

(** The body of [for endpoint in api_endpoints]. *)
Definition probe_endpoint (n : net) (endpoint : string)
  : M log (option string) :=
  try_except
    (body <- urlopen_get n endpoint;;
     content <- lift (decode_utf8 body);;
     let iso_urls := findall iso_url_re whole content in
     match iso_urls with
     | u :: _ =>
         print ("Found ISO URL in API: " +:+ u);;;
         ret (Some u)
     | [] =>
         let linkids := findall (linkid_re (decimal n)) group1 content in
         linkid_loop n linkids
     end)
    is_Exception
    (ret None).

Fixpoint endpoint_loop (n : net) (endpoints : list string)
  : M log (option string) :=
  match endpoints with
  | [] => ret None
  | endpoint :: rest =>
      r <- probe_endpoint n endpoint;;
      match r with
      | Some u => ret (Some u)
      | None => endpoint_loop n rest
      end
  end.

(** [for iso in iso_names] for one [base]. *)
Fixpoint iso_loop (n : net) (base : string) (isos : list string)
  : M log (option string) :=
  match isos with
  | [] => ret None
  | iso :: rest =>
      let test_url := base +:+ iso in
      r <- try_except
             (resp <- urlopen_head n test_url;;
              if status resp =? 200 then
                print ("Found working ISO URL: " +:+ test_url);;;
                ret (Some test_url)
              else ret None)
             any_exn
             (ret None);;
      match r with
      | Some u => ret (Some u)
      | None => iso_loop n base rest
      end
  end.

Fixpoint base_loop (n : net) (bases isos : list string)
  : M log (option string) :=
  match bases with
  | [] => ret None
  | base :: rest =>
      r <- iso_loop n base isos;;
      match r with
      | Some u => ret (Some u)
      | None => base_loop n rest isos
      end
  end.

Definition stage1 (n : net) : M log (option string) :=
  endpoint_loop n api_endpoints.

Definition stage2 (n : net) : M log (option string) :=
  base_loop n base_urls iso_names.

Definition get_windows_iso_url (n : net) : M log string :=
  print "Searching for bootable Windows ISOs...";;;
  r1 <- stage1 n;;
  match r1 with
  | Some u => ret u
  | None =>
      print "Checking known CDN patterns...";;;
      r2 <- stage2 n;;
      match r2 with
      | Some u => ret u
      | None =>
          print "Using fallback evaluation ISO link";;;
          ret fallback_url
      end
  end.

End Iso.

(* ===================================================================== *)
(** * Descriptions of the catalog resolver used in the statements *)
(* ===================================================================== *)

Module EsdSpec.
Import Py Esd.

(** The state after the events [evs] have been appended to the log. *)
Definition logged (st : state) (evs : list event) : state :=
  {| fs := fs st; log := log st ++ evs |}.

(** What a tool attempt yields: nothing when the tool is missing, fails or
    leaves no file; the text of the file otherwise, if it decodes. *)
Definition tool_result (w : world) (t : tool) (cab : option string)
  : res (option string) :=
  if installed w t then
    match tool_run w t cab with
    | ExitNonZero | ExitZero None => Ok None
    | ExitZero (Some b) =>
        match read_text b with
        | Ok s => Ok (Some s)
        | Raise e => Raise e
        end
    end
  else Ok None.

Definition tmpdir_of (w : world) : string := tempdir w +:+ "/tmp" +:+ rand_dir w.

Definition argv1 (w : world) (cab_path : string) : list string :=
  ["cabextract"; "-q"; "-d"; tmpdir_of w; cab_path].
Definition argv2 (cab_path : string) : list string :=
  ["tar"; "xf"; cab_path; "products.xml"].
Definition argv3 (w : world) (cab_path : string) : list string :=
  ["7z"; "e"; "-y"; "-o" +:+ tmpdir_of w; cab_path; "products.xml"].

(** The fourth method, on the bytes of the archive. *)
Definition raw_result (cab : option string) : res string :=
  match cab with
  | None => Raise FileNotFoundError
  | Some cab_data =>
      match raw_scan cab_data with
      | Some r => r
      | None => Raise (ValueError not_extractable)
      end
  end.

(** The hint [check_tools] prints when no CAB extraction tool is found. *)
Definition install_hint (w : world) : string :=
  if String.eqb (platform_system w) "Darwin"
  then "Install: brew install cabextract"
  else "Install: sudo apt install cabextract".

(** No file changed and no request was made. *)
Definition quiet (st st' : state) : Prop :=
  fs st' = fs st
  /\ forall u f, In (HttpGet u f) (log st') -> In (HttpGet u f) (log st).

(** The file at [p], or its absence, is as before. *)
Definition same_at (p : string) (st st' : state) : Prop :=
  fs st' !! p = fs st !! p.

(** If [win.esd] was there, it is unchanged and nothing has been requested
    for it since. *)
Definition keeps_esd (st st' : state) : Prop :=
  is_Some (fs st !! "win.esd") ->
  fs st' !! "win.esd" = fs st !! "win.esd"
  /\ forall u f,
       In (HttpGet u f) (log st') -> In (HttpGet u f) (log st) \/ f <> "win.esd".

Definition is_get (ev : event) : bool :=
  match ev with
  | HttpGet _ _ => true
  | _ => false
  end.

(** The match of the specification: each of the three fields is present and
    its text is exactly, character for character, that of the query. *)
Definition exact_match (q : query) (e : element) : Prop :=
  exists l ed a,
    find "LanguageCode" e = Some l /\ text l = Some (languageCode q)
    /\ find "Edition" e = Some ed /\ text ed = Some (editionId q)
    /\ find "Architecture" e = Some a /\ text a = Some (architecture q).

(** A position in the document: the indices of the children to descend into,
    from the root on.  [subtree_at e p] is the element at position [p]. *)
Fixpoint subtree_at (e : element) (p : list nat) : option element :=
  match p with
  | [] => Some e
  | i :: p' =>
      match nth_error (children e) i with
      | Some c => subtree_at c p'
      | None => None
      end
  end.

(** Document order on positions, the order of the opening tags in the text:
    an element comes before everything inside it, and an element with
    everything inside it comes before its later siblings. *)
Fixpoint doc_before (p p' : list nat) : bool :=
  match p, p' with
  | [], [] => false
  | [], _ :: _ => true
  | _ :: _, [] => false
  | i :: r, j :: r' => (i <? j)%nat || ((i =? j)%nat && doc_before r r')
  end.

(** [f], at position [p], is the first entry of the catalog that matches the
    query: a [File] element below the root whose three fields are those of
    the query, while no [File] element at an earlier position is such. *)
Definition first_match_at (q : query) (root : element) (p : list nat)
    (f : element) : Prop :=
  p <> [] /\ subtree_at root p = Some f /\ tag f = "File" /\ exact_match q f
  /\ forall p' e,
       p' <> [] -> doc_before p' p = true -> subtree_at root p' = Some e ->
       tag e = "File" -> ~ exact_match q e.

(** [float(n)] for an [int] within range. *)
Definition float_of_int (n : Z) : float := binary_normalize 53 1024 n 0 false.

End EsdSpec.

(* ===================================================================== *)
(** * Descriptions of the heuristic resolver used in the statements *)
(* ===================================================================== *)

Module IsoSpec.
Import Py Iso.

(** The cartesian product of base paths and file names, base path first. *)
Definition candidates (bases isos : list string) : list string :=
  flat_map (fun base => List.map (fun iso => base +:+ iso) isos) bases.

(** The existence probe of stage 2 succeeds: a response with status 200. *)
Definition probe_ok (n : net) (url : string) : bool :=
  match open_url (head n) url with
  | Ok r => status r =? 200
  | Raise _ => false
  end.

(** What stage 2 logs while it tries the URLs in their order. *)
Fixpoint probe_log (n : net) (urls : list string) : list event :=
  match urls with
  | [] => []
  | u :: rest =>
      Head u ::
      if probe_ok n u then [Print ("Found working ISO URL: " +:+ u)]
      else probe_log n rest
  end.

(** The probe of a link identifier succeeds: its redirect ends at a location
    that contains [.iso]. *)
Definition linkid_ok (n : net) (linkid : string) : bool :=
  match open_url (head n) (fwlink linkid) with
  | Ok r => contains ".iso" (resp_url r)
  | Raise _ => false
  end.

(** What the loop over the link identifiers logs. *)
Fixpoint linkid_log (n : net) (linkids : list string) : list event :=
  match linkids with
  | [] => []
  | linkid :: rest =>
      Print ("Testing LinkID " +:+ linkid +:+ "...") ::
      Head (fwlink linkid) ::
      if linkid_ok n linkid then [Print ("Found working LinkID: " +:+ linkid)]
      else linkid_log n rest
  end.

Fixpoint all_digits (s : string) : bool :=
  match s with
  | EmptyString => true
  | String c s' => digit c && all_digits s'
  end.

(** Every byte is an ASCII digit or a byte of a character outside ASCII. *)
Fixpoint digit_bytes (s : string) : bool :=
  match s with
  | EmptyString => true
  | String c s' => (digit c || (128 <=? code c)) && digit_bytes s'
  end.

(** The lines that announce the stages. *)
Definition searching : event := Print "Searching for bootable Windows ISOs...".
Definition checking : event := Print "Checking known CDN patterns...".
Definition falling_back : event := Print "Using fallback evaluation ISO link".

(** What stage 2 and stage 3 log and return once stage 1 has found nothing. *)
Definition after_stage1 (n : net) : list event * string :=
  let cands := candidates base_urls iso_names in
  match List.find (probe_ok n) cands with
  | Some u => (checking :: probe_log n cands, u)
  | None => (checking :: probe_log n cands ++ [falling_back], fallback_url)
  end.

(** The request to an endpoint fails. *)
Definition get_fails (n : net) (url : string) : Prop :=
  exists e, get n url = inl e.

(** The existence probe of a URL fails with an error or a timeout. *)
Definition head_fails (n : net) (url : string) : Prop :=
  exists e, head n url = inl e.

End IsoSpec.

(* ===================================================================== *)
(** * Concrete hosts, catalogs and networks *)
(* ===================================================================== *)

Module Samples.
Import Py.

(** A byte that no UTF-8 text contains. *)
Definition xFF : string := String (ascii_of_nat 255) EmptyString.

(** An archive with leading and trailing bytes around the document. *)
Definition cab_pre : string := "MSCF....".
Definition cab_mid : string := " version='1.0'?><Products><File/>".
Definition cab_post : string := "</Products> trailing".

(** A locale whose encoding is UTF-8. *)
Definition locale_utf8 (b : string) : option string :=
  if utf8_valid b then Some b else None.

(** The value of a string of ASCII digits, read after [acc]. *)
Fixpoint digits_value (acc : Z) (s : string) : option Z :=
  match s with
  | EmptyString => Some acc
  | String c s' =>
      if in_range 48 57 c then digits_value (10 * acc + (code c - 48)) s'
      else None
  end.

(** [int] on the size texts of the catalogs below, which are strings of
    ASCII digits but for one with a letter in it: the digits are read, and
    the other text is refused with the message [int] has for it. *)
Definition int_plain (t : string) : Z + string :=
  match t with
  | EmptyString => inr "invalid literal for int() with base 10: ''"
  | String _ _ =>
      match digits_value 0 t with
      | Some n => inl n
      | None => inr ("invalid literal for int() with base 10: '" +:+ t +:+ "'")
      end
  end.

(** The decimal digits outside ASCII that the sample bodies use: the
    Arabic-Indic digits U+0660 to U+0669, in UTF-8 the byte 217 followed by
    a byte from 160 to 169. *)
Definition arabic_indic (ch : string) : bool :=
  match ch with
  | String c0 (String c1 EmptyString) => (code c0 =? 217) && in_range 160 169 c1
  | _ => false
  end.

(** A Linux host on which neither of the first two extraction tools is
    installed, while 7z is and would extract the document. *)
Definition doc : string := "<?xml version='1.0'?><Products></Products>".

Definition only_7z (t : Esd.tool) : bool :=
  match t with
  | Esd.which | Esd.sevenzip | Esd.wimlib_imagex => true
  | Esd.cabextract | Esd.tar => false
  end.

Definition host_7z : Esd.world :=
  {| Esd.platform_system := "Linux";
     Esd.installed := only_7z;
     Esd.tool_run := fun _ _ => Esd.ExitZero (Some doc);
     Esd.wimlib_export := fun _ =>
       {| Esd.returncode := 0; Esd.stdout := ""; Esd.stderr := "";
          Esd.wim := Some "wim" |};
     Esd.locale_decode := locale_utf8;
     Esd.int_str := int_plain;
     Esd.http := fun _ => Esd.FetchOk ("MSCF" +:+ doc);
     Esd.tempdir := "/tmp";
     Esd.rand_file := "a1b2c3";
     Esd.rand_dir := "d4e5f6";
     Esd.fromstring := fun _ => Some (Esd.Element "Products" None []) |}.

(** Catalogs. *)
Definition field (name value : string) : Esd.element :=
  Esd.Element name (Some value) [].

Definition file_elem (fields : list Esd.element) : Esd.element :=
  Esd.Element "File" None fields.

Definition catalog (files : list Esd.element) : Esd.element :=
  Esd.Element "MCT" None
    [Esd.Element "Catalogs" None
       [Esd.Element "Catalog" None
          [Esd.Element "PublishedMedia" None
             [Esd.Element "Files" None files]]]].

Definition ident (lang edition arch : string) : list Esd.element :=
  [field "LanguageCode" lang; field "Edition" edition;
   field "Architecture" arch].

(** The record of the end-to-end scenario. *)
Definition scenario_file : Esd.element :=
  file_elem (ident "en-us" "EnterpriseN" "x64"
             ++ [field "FilePath" "https://example/x.esd";
                 field "Size" "4294967296"]).

(** The same product a second time, at another address. *)
Definition duplicate_file : Esd.element :=
  file_elem (ident "en-us" "EnterpriseN" "x64"
             ++ [field "FilePath" "https://example/y.esd";
                 field "Size" "1073741824"]).

(** Near misses: another letter case, another edition. *)
Definition upper_case_file : Esd.element :=
  file_elem (ident "EN-US" "EnterpriseN" "x64"
             ++ [field "FilePath" "https://example/u.esd"; field "Size" "1"]).

Definition professional_file : Esd.element :=
  file_elem (ident "en-us" "Professional" "x64"
             ++ [field "FilePath" "https://example/p.esd"; field "Size" "2"]).

(** A record that matches the query and has no download address. *)
Definition no_url_file : Esd.element :=
  file_elem (ident "en-us" "EnterpriseN" "x64" ++ [field "Size" "4294967296"]).

(** A record without a language. *)
Definition no_lang_file : Esd.element :=
  file_elem [field "Edition" "EnterpriseN"; field "Architecture" "x64";
             field "FilePath" "https://example/n.esd"; field "Size" "3"].

(** A host with every tool, on which the run goes through. *)
Definition host_full : Esd.world :=
  {| Esd.platform_system := "Darwin";
     Esd.installed := fun _ => true;
     Esd.tool_run := fun _ _ => Esd.ExitZero (Some doc);
     Esd.wimlib_export := fun _ =>
       {| Esd.returncode := 0; Esd.stdout := ""; Esd.stderr := "";
          Esd.wim := Some "wim" |};
     Esd.locale_decode := locale_utf8;
     Esd.int_str := int_plain;
     Esd.http := fun _ => Esd.FetchOk ("MSCF" +:+ doc);
     Esd.tempdir := "/tmp";
     Esd.rand_file := "a1b2c3";
     Esd.rand_dir := "d4e5f6";
     Esd.fromstring := fun _ => Some (catalog [scenario_file]) |}.

(** The same host with a catalog whose matching record has no address. *)
Definition host_no_url : Esd.world :=
  {| Esd.platform_system := "Darwin";
     Esd.installed := fun _ => true;
     Esd.tool_run := fun _ _ => Esd.ExitZero (Some doc);
     Esd.wimlib_export := fun _ =>
       {| Esd.returncode := 0; Esd.stdout := ""; Esd.stderr := "";
          Esd.wim := Some "wim" |};
     Esd.locale_decode := locale_utf8;
     Esd.int_str := int_plain;
     Esd.http := fun _ => Esd.FetchOk ("MSCF" +:+ doc);
     Esd.tempdir := "/tmp";
     Esd.rand_file := "a1b2c3";
     Esd.rand_dir := "d4e5f6";
     Esd.fromstring := fun _ => Some (catalog [no_url_file; scenario_file]) |}.

(** A working directory that already holds some [win.esd]. *)
Definition state_with_esd : Esd.state :=
  {| Esd.fs := {[ "win.esd" := "left over from an earlier run" ]};
     Esd.log := [] |}.

(** Networks. *)

(** Nothing answers: every probe times out. *)
Definition dead_net : Iso.net :=
  {| Iso.get := fun _ => inl Iso.ProbeTimeout;
     Iso.head := fun _ => inl Iso.ProbeTimeout;
     Iso.decimal := arabic_indic |}.

Definition second_base_third_name : string :=
  "https://software-static.download.prss.microsoft.com/dbazure/Win10_22H2_English_x64.iso".

(** No endpoint answers; of the guessed paths one exists, and one before it
    answers with a status that is not 200. *)
Definition cdn_net : Iso.net :=
  {| Iso.get := fun _ => inl Iso.ProbeURLError;
     Iso.head := fun u =>
       if String.eqb u second_base_third_name
       then inr {| Iso.resp_url := u; Iso.status := 200 |}
       else if String.eqb u
                 "https://software-static.download.prss.microsoft.com/dbazure/Win10_22H2_EnterpriseEval_x64.iso"
       then inr {| Iso.resp_url := u; Iso.status := 204 |}
       else inl (Iso.ProbeHTTPError 404);
     Iso.decimal := arabic_indic |}.

Definition api_body : string :=
  "{'a': 'fwlink/?LinkID=111', 'b': 'fwlink/?LinkID=2222'}".

Definition final_location : string :=
  "https://software-static.download.prss.microsoft.com/x/eval.iso?t=1".

(** The first endpoint answers with two link identifiers and no direct
    address; the first identifier leads to a page, the second to an image. *)
Definition api_net : Iso.net :=
  {| Iso.get := fun u =>
       if String.eqb u "https://www.microsoft.com/en-us/evalcenter/api/products/getproducts"
       then inr api_body else inl Iso.ProbeTimeout;
     Iso.head := fun u =>
       if String.eqb u "https://go.microsoft.com/fwlink/?LinkID=111"
       then inr {| Iso.resp_url := "https://www.microsoft.com/page.html";
                   Iso.status := 200 |}
       else if String.eqb u "https://go.microsoft.com/fwlink/?LinkID=2222"
       then inr {| Iso.resp_url := final_location; Iso.status := 200 |}
       else inl Iso.ProbeTimeout;
     Iso.decimal := arabic_indic |}.

Definition empty_state : Esd.state := {| Esd.fs := ∅; Esd.log := [] |}.

End Samples.

(* ===================================================================== *)
(** * download_iso.py: the download and the script *)
(* ===================================================================== *)

Module IsoScript.
Import Py Iso.
Local Open Scope py_scope.

(** What the script as a whole shows: the events of the resolver, the lines
    of [download_iso] and the retrieval it starts.  [PrintError e] is the
    line that reports the exception [e] of a failed retrieval. *)
Inductive event : Type :=
| Resolver (ev : Iso.event)
| Print (line : string)
| PrintError (e : exn)
| Retrieve (url filename : string).

Definition emit (ev : event) : M (list event) unit :=
  fun s => (s ++ [ev], Ok tt).

Definition print (line : string) : M (list event) unit := emit (Print line).

(** [urllib.request.urlretrieve(url, filename, reporthook=progress_hook)]:
    [None] when the file has been retrieved, the error otherwise.  The
    progress lines the hook prints while data arrives are not modelled. *)
Definition urlretrieve (fetch : string -> option probe_error)
    (url filename : string) : M (list event) unit :=
  emit (Retrieve url filename);;;
  match fetch url with
  | None => ret tt
  | Some e => raise (exn_of e)
  end.

Definition nl : string := String (ascii_of_nat 10) EmptyString.

(** [download_iso(url, filename)].  The handler of [except Exception as e]
    needs the exception, so the [try] is written out. *)
Definition download_iso (fetch : string -> option probe_error)
    (url filename : string) : M (list event) unit :=
  print ("Downloading " +:+ url);;;
  print ("Saving as: " +:+ filename);;;
  fun s =>
    match (urlretrieve fetch url filename;;;
           print (nl +:+ "✓ Downloaded: " +:+ filename
                  +:+ " (bootable ISO ready for VMs)")) s with
    | (s', Ok a) => (s', Ok a)
    | (s', Raise e) =>
        if is_Exception e then
          (emit (PrintError e);;;
           raise (SystemExit 1)) s'
        else (s', Raise e)
    end.

(** The resolver, run inside the script: its events are taken over. *)
Definition resolve (n : net) : M (list event) string :=
  fun s =>
    let '(l, r) := get_windows_iso_url n [] in
    (s ++ List.map Resolver l, r).

(** The body of [if __name__ == "__main__"]; [filename] has its default. *)
Definition script (n : net) (fetch : string -> option probe_error)
  : M (list event) unit :=
  iso_url <- resolve n;;
  download_iso fetch iso_url "win.iso".

End IsoScript.

(* ===================================================================== *)
(** * Descriptions of whole runs *)
(* ===================================================================== *)

Module EsdRuns.
Import Py Esd EsdSpec.

(** What the chain of the four methods returns for an archive. *)
Definition extraction_result (w : world) (cab : option string) : res string :=
  match tool_result w cabextract cab with
  | Ok (Some xml) => Ok xml
  | Raise e => Raise e
  | Ok None =>
  match tool_result w tar cab with
  | Ok (Some xml) => Ok xml
  | Raise e => Raise e
  | Ok None =>
  match tool_result w sevenzip cab with
  | Ok (Some xml) => Ok xml
  | Raise e => Raise e
  | Ok None => raw_result cab
  end end end.

(** What the chain logs: each method that is tried. *)
Definition extraction_log (w : world) (cab_path : string)
    (cab : option string) : list event :=
  let e1 := Exec (argv1 w cab_path) in
  let e2 := Exec (argv2 cab_path) in
  let e3 := Exec (argv3 w cab_path) in
  match tool_result w cabextract cab with
  | Ok (Some _) | Raise _ => [e1]
  | Ok None =>
  match tool_result w tar cab with
  | Ok (Some _) | Raise _ => [e1; e2]
  | Ok None =>
  match tool_result w sevenzip cab with
  | Ok (Some _) | Raise _ => [e1; e2; e3]
  | Ok None => [e1; e2; e3; OpenRead cab_path]
  end end end.

(** The three tools [check_tools] needs are there. *)
Definition tools_present (w : world) : bool :=
  installed w which && (installed w cabextract || installed w tar)
  && installed w wimlib_imagex.

(** What [check_tools] logs when it passes. *)
Definition tools_found_log : list event :=
  [Exec ["which"; "cabextract"]; Exec ["which"; "tar"];
   Exec ["which"; "wimlib-imagex"]; Print "✓ All required tools found"].

(** The hint [check_tools] prints when the converter is missing. *)
Definition wimlib_hint (w : world) : string :=
  if String.eqb (platform_system w) "Darwin"
  then "Install: brew install wimlib"
  else "Install: sudo apt install wimtools".

Definition all_exec (evs : list event) : bool :=
  forallb (fun ev => match ev with Exec _ => true | _ => false end) evs.

(** The conversion at the end of [main], from the state [s]. *)
Definition conversion (w : world) (s : state) : state * res unit :=
  let s1 := logged s [Print (nl +:+ "Converting ESD to WIM...");
                      Print "Exporting images...";
                      Exec ["wimlib-imagex"; "export"; "win.esd"; "all";
                            "win.wim"]] in
  if installed w wimlib_imagex then
    let result := wimlib_export w (fs s !! "win.esd") in
    let s2 := {| fs := match wim result with
                       | Some b => <["win.wim" := b]> (fs s)
                       | None => fs s
                       end;
                 log := log s1 |} in
    match decode_output w (stdout result) with
    | Raise e => (s2, Raise e)
    | Ok _ =>
        match decode_output w (stderr result) with
        | Raise e => (s2, Raise e)
        | Ok result_stderr =>
            (logged s2
               (if returncode result =? 0 then
                  [Print "✓ Created win.wim";
                   Print (nl +:+ "⚠️  NOTE: This is NOT a bootable ISO!");
                   Print "To make it bootable you need Windows boot files.";
                   Print "See README.md for options."]
                else [Print ("Error converting ESD: " +:+ result_stderr)]),
             Ok tt)
        end
    end
  else (s1, Raise FileNotFoundError).

(** [main] from the parsed catalog on, case by case. *)
Definition after_parse (w : world) (root : element) (st : state)
  : state * res unit :=
  let st1 := logged st [Print "Finding Enterprise N edition..."] in
  match find_edition w enterprise_n (findall_desc "File" root) with
  | Raise e => (st1, Raise e)
  | Ok None =>
      (logged st1 [Print "Enterprise N not found in catalog"],
       Raise (SystemExit 1))
  | Ok (Some fd) =>
      let st2 := logged st1 [PrintFound (size fd)] in
      match fs st !! "win.esd" with
      | Some _ =>
          conversion w
            (logged st2 [Print "✓ win.esd already exists, skipping download"])
      | None =>
          let st3 := logged st2 [Print "Downloading ESD..."] in
          match url fd with
          | None => (st3, Raise RequestException)
          | Some u =>
              let st4 := logged st3 [HttpGet u "win.esd"] in
              match http w u with
              | FetchRaises => (st4, Raise RequestException)
              | FetchBreaks written =>
                  ({| fs := <["win.esd" := written]> (fs st4);
                      log := log st4 |},
                   Raise RequestException)
              | FetchOk body =>
                  conversion w
                    {| fs := <["win.esd" := body]> (fs st4);
                       log := log st4 ++ [Print "✓ Downloaded: win.esd"] |}
              end
          end
      end
  end.

(** The run gets as far as a parsed catalog: the tools are there, the archive
    [cab] arrives, a method extracts a document and the parser accepts it. *)
Definition reaches_parse (w : world) (cab : string) (root : element) : Prop :=
  tools_present w = true
  /\ http w cab_url = FetchOk cab
  /\ exists xml, extraction_result w (Some cab) = Ok xml
                 /\ fromstring w xml = Some root.

(** The state in which the catalog is parsed: the temporary archive has come
    and gone. *)
Definition parsed_state (w : world) (st : state) (cab : string) : state :=
  {| fs := delete (cab_tmp_name w) (fs st);
     log := log st ++ tools_found_log
            ++ [Print (nl +:+ "Fetching Microsoft catalog...");
                HttpGet cab_url (cab_tmp_name w)]
            ++ extraction_log w (cab_tmp_name w) (Some cab)
            ++ [Unlink (cab_tmp_name w)] |}.

End EsdRuns.

Module IsoRuns.
Import Py Iso IsoSpec.

(** What the body of the endpoint loop yields for one endpoint. *)
Definition endpoint_yield (n : net) (endpoint : string) : option string :=
  match open_url (get n) endpoint with
  | Raise _ => None
  | Ok body =>
      if utf8_valid body then
        match findall iso_url_re whole body with
        | u :: _ => Some u
        | [] =>
            option_map fwlink
              (List.find (linkid_ok n)
                 (findall (linkid_re (decimal n)) group1 body))
        end
      else None
  end.

(** The first endpoint, in the order of the list, that yields a URL. *)
Fixpoint first_yield (n : net) (endpoints : list string) : option string :=
  match endpoints with
  | [] => None
  | endpoint :: rest =>
      match endpoint_yield n endpoint with
      | Some u => Some u
      | None => first_yield n rest
      end
  end.

(** The URL of the three stages, as a function of the network alone. *)
Definition resolved (n : net) : string :=
  match first_yield n api_endpoints with
  | Some u => u
  | None =>
      match List.find (probe_ok n) (candidates base_urls iso_names) with
      | Some u => u
      | None => fallback_url
      end
  end.

Fixpoint no_quote (s : string) : bool :=
  match s with
  | EmptyString => true
  | String c s' => not_quote c && no_quote s'
  end.

(** A direct address as the first pattern finds it. *)
Definition direct_shape (u : string) : Prop :=
  exists mid, u = "https://" +:+ mid +:+ ".iso"
              /\ mid <> EmptyString /\ no_quote mid = true.

(** What the resolver returns is of one of four kinds. *)
Definition known_kind (u : string) : Prop :=
  direct_shape u
  \/ (exists linkid, all_digits linkid = true /\ u = fwlink linkid)
  \/ In u (candidates base_urls iso_names)
  \/ u = fallback_url.

(** The retrievals among the events of the script. *)
Fixpoint retrievals (evs : list IsoScript.event) : list (string * string) :=
  match evs with
  | [] => []
  | IsoScript.Retrieve u f :: rest => (u, f) :: retrievals rest
  | _ :: rest => retrievals rest
  end.

End IsoRuns.

Module MoreSamples.
Import Py.

(** The first tool leaves a file that is not UTF-8. *)
Definition host_garbled : Esd.world :=
  {| Esd.platform_system := "Linux";
     Esd.installed := fun _ => true;
     Esd.tool_run := fun _ _ => Esd.ExitZero (Some Samples.xFF);
     Esd.wimlib_export := fun _ =>
       {| Esd.returncode := 0; Esd.stdout := ""; Esd.stderr := "";
          Esd.wim := Some "wim" |};
     Esd.locale_decode := Samples.locale_utf8;
     Esd.int_str := Samples.int_plain;
     Esd.http := fun _ => Esd.FetchOk "MSCF";
     Esd.tempdir := "/tmp";
     Esd.rand_file := "a1b2c3";
     Esd.rand_dir := "d4e5f6";
     Esd.fromstring := fun _ => None |}.

(** The first tool leaves an empty file. *)
Definition host_empty_output : Esd.world :=
  {| Esd.platform_system := "Linux";
     Esd.installed := fun _ => true;
     Esd.tool_run := fun _ _ => Esd.ExitZero (Some "");
     Esd.wimlib_export := fun _ =>
       {| Esd.returncode := 0; Esd.stdout := ""; Esd.stderr := "";
          Esd.wim := Some "wim" |};
     Esd.locale_decode := Samples.locale_utf8;
     Esd.int_str := Samples.int_plain;
     Esd.http := fun _ => Esd.FetchOk "MSCF";
     Esd.tempdir := "/tmp";
     Esd.rand_file := "a1b2c3";
     Esd.rand_dir := "d4e5f6";
     Esd.fromstring := fun _ => None |}.

(** Everything but the converter is installed. *)
Definition no_wimlib (t : Esd.tool) : bool :=
  match t with
  | Esd.wimlib_imagex => false
  | _ => true
  end.

Definition host_no_wimlib : Esd.world :=
  {| Esd.platform_system := "Darwin";
     Esd.installed := no_wimlib;
     Esd.tool_run := fun _ _ => Esd.ExitZero (Some Samples.doc);
     Esd.wimlib_export := fun _ =>
       {| Esd.returncode := 0; Esd.stdout := ""; Esd.stderr := "";
          Esd.wim := Some "wim" |};
     Esd.locale_decode := Samples.locale_utf8;
     Esd.int_str := Samples.int_plain;
     Esd.http := fun _ => Esd.FetchOk "MSCF";
     Esd.tempdir := "/tmp";
     Esd.rand_file := "a1b2c3";
     Esd.rand_dir := "d4e5f6";
     Esd.fromstring := fun _ => Some (Samples.catalog [Samples.scenario_file]) |}.

(** What the failing converter writes to its standard error: two lines, the
    first ended by a carriage return and a line feed. *)
Definition diagnostic : string :=
  "not a WIM file" +:+ String (ascii_of_nat 13) (String (ascii_of_nat 10) "exiting").

(** The converter fails. *)
Definition host_bad_convert : Esd.world :=
  {| Esd.platform_system := "Linux";
     Esd.installed := fun _ => true;
     Esd.tool_run := fun _ _ => Esd.ExitZero (Some Samples.doc);
     Esd.wimlib_export := fun _ =>
       {| Esd.returncode := 2; Esd.stdout := ""; Esd.stderr := diagnostic;
          Esd.wim := None |};
     Esd.locale_decode := Samples.locale_utf8;
     Esd.int_str := Samples.int_plain;
     Esd.http := fun _ => Esd.FetchOk "MSCF";
     Esd.tempdir := "/tmp";
     Esd.rand_file := "a1b2c3";
     Esd.rand_dir := "d4e5f6";
     Esd.fromstring := fun _ => Some (Samples.catalog [Samples.scenario_file]) |}.

(** The converter succeeds and warns with a byte that is not UTF-8, on a
    host whose locale is UTF-8. *)
Definition host_garbled_convert : Esd.world :=
  {| Esd.platform_system := "Linux";
     Esd.installed := fun _ => true;
     Esd.tool_run := fun _ _ => Esd.ExitZero (Some Samples.doc);
     Esd.wimlib_export := fun _ =>
       {| Esd.returncode := 0; Esd.stdout := "";
          Esd.stderr := "warning: " +:+ Samples.xFF; Esd.wim := Some "wim" |};
     Esd.locale_decode := Samples.locale_utf8;
     Esd.int_str := Samples.int_plain;
     Esd.http := fun _ => Esd.FetchOk "MSCF";
     Esd.tempdir := "/tmp";
     Esd.rand_file := "a1b2c3";
     Esd.rand_dir := "d4e5f6";
     Esd.fromstring := fun _ => Some (Samples.catalog [Samples.scenario_file]) |}.

(** The image download breaks off after some bytes. *)
Definition host_broken_esd : Esd.world :=
  {| Esd.platform_system := "Linux";
     Esd.installed := fun _ => true;
     Esd.tool_run := fun _ _ => Esd.ExitZero (Some Samples.doc);
     Esd.wimlib_export := fun _ =>
       {| Esd.returncode := 0; Esd.stdout := ""; Esd.stderr := "";
          Esd.wim := Some "wim" |};
     Esd.locale_decode := Samples.locale_utf8;
     Esd.int_str := Samples.int_plain;
     Esd.http := fun u =>
       if String.eqb u "https://example/x.esd"
       then Esd.FetchBreaks "first bytes" else Esd.FetchOk "MSCF";
     Esd.tempdir := "/tmp";
     Esd.rand_file := "a1b2c3";
     Esd.rand_dir := "d4e5f6";
     Esd.fromstring := fun _ => Some (Samples.catalog [Samples.scenario_file]) |}.

(** The catalog lists other products only. *)
Definition host_no_match : Esd.world :=
  {| Esd.platform_system := "Linux";
     Esd.installed := fun _ => true;
     Esd.tool_run := fun _ _ => Esd.ExitZero (Some Samples.doc);
     Esd.wimlib_export := fun _ =>
       {| Esd.returncode := 0; Esd.stdout := ""; Esd.stderr := "";
          Esd.wim := Some "wim" |};
     Esd.locale_decode := Samples.locale_utf8;
     Esd.int_str := Samples.int_plain;
     Esd.http := fun _ => Esd.FetchOk "MSCF";
     Esd.tempdir := "/tmp";
     Esd.rand_file := "a1b2c3";
     Esd.rand_dir := "d4e5f6";
     Esd.fromstring := fun _ =>
       Some (Samples.catalog [Samples.upper_case_file;
                              Samples.professional_file]) |}.

(** A record whose size is not a number. *)
Definition bad_size_file : Esd.element :=
  Samples.file_elem (Samples.ident "en-us" "EnterpriseN" "x64"
                     ++ [Samples.field "FilePath" "https://example/b.esd";
                         Samples.field "Size" "4 GB"]).

(** The first endpoint answers with a direct address, and a link identifier
    after it. *)
Definition direct_body : string :=
  "<a href='https://cdn.example/eval/win.iso'>x</a> LinkID=999".

Definition direct_net : Iso.net :=
  {| Iso.get := fun u =>
       if String.eqb u "https://www.microsoft.com/en-us/evalcenter/api/products/getproducts"
       then inr direct_body else inl Iso.ProbeTimeout;
     Iso.head := fun _ => inl Iso.ProbeTimeout;
     Iso.decimal := Samples.arabic_indic |}.

(** The first endpoint answers with bytes that are not UTF-8. *)
Definition garbled_net : Iso.net :=
  {| Iso.get := fun _ => inr Samples.xFF;
     Iso.head := fun _ => inl Iso.ProbeTimeout;
     Iso.decimal := Samples.arabic_indic |}.

(** No endpoint answers, and every guessed path answers with a status that
    is a success of another kind than 200. *)
Definition no_content_net : Iso.net :=
  {| Iso.get := fun _ => inl Iso.ProbeURLError;
     Iso.head := fun u => inr {| Iso.resp_url := u; Iso.status := 204 |};
     Iso.decimal := Samples.arabic_indic |}.

(** The first endpoint answers with a page that holds nothing of use.  The
    second answers with three link identifiers: one written with an
    Arabic-Indic digit, whose URL cannot be requested, one that leads to a
    page, and one that leads to an image. *)
Definition mixed_body : string :=
  "LinkID=12٣ x LinkID=111 y LinkID=2222".

Definition mixed_net : Iso.net :=
  {| Iso.get := fun u =>
       if String.eqb u "https://www.microsoft.com/en-us/evalcenter/api/products/getproducts"
       then inr "<html>moved</html>"
       else if String.eqb u "https://www.microsoft.com/en-us/api/controls/contentinclude/html?pageId=cfa0e580-a81e-4a4b-a846-7b21bf4e2e5b&host=www.microsoft.com&segments=software-download,windows10ISO"
       then inr mixed_body
       else inl Iso.ProbeTimeout;
     Iso.head := fun u =>
       if String.eqb u "https://go.microsoft.com/fwlink/?LinkID=111"
       then inr {| Iso.resp_url := "https://www.microsoft.com/page.html";
                   Iso.status := 200 |}
       else if String.eqb u "https://go.microsoft.com/fwlink/?LinkID=2222"
       then inr {| Iso.resp_url := Samples.final_location; Iso.status := 200 |}
       else inl Iso.ProbeTimeout;
     Iso.decimal := Samples.arabic_indic |}.

(** A working directory with a file of the user's. *)
Definition state_with_notes : Esd.state :=
  {| Esd.fs := {[ "notes.txt" := "mine" ]}; Esd.log := [] |}.

(** A host with the converter and none of the three extraction tools, and a
    state that holds an archive without the markers. *)
Definition no_extractors (t : Esd.tool) : bool :=
  match t with
  | Esd.which | Esd.wimlib_imagex => true
  | _ => false
  end.

Definition host_no_extractors : Esd.world :=
  {| Esd.platform_system := "Linux";
     Esd.installed := no_extractors;
     Esd.tool_run := fun _ _ => Esd.ExitNonZero;
     Esd.wimlib_export := fun _ =>
       {| Esd.returncode := 0; Esd.stdout := ""; Esd.stderr := "";
          Esd.wim := Some "wim" |};
     Esd.locale_decode := Samples.locale_utf8;
     Esd.int_str := Samples.int_plain;
     Esd.http := fun _ => Esd.FetchOk "MSCF";
     Esd.tempdir := "/tmp";
     Esd.rand_file := "a1b2c3";
     Esd.rand_dir := "d4e5f6";
     Esd.fromstring := fun _ => None |}.

Definition state_with_packed_cab : Esd.state :=
  {| Esd.fs := {[ "/tmp/c.cab" := "MSCF packed bytes </Products>" ]};
     Esd.log := [] |}.

(** The download of the catalog breaks off. *)
Definition host_broken_catalog : Esd.world :=
  {| Esd.platform_system := "Linux";
     Esd.installed := fun _ => true;
     Esd.tool_run := fun _ _ => Esd.ExitZero (Some Samples.doc);
     Esd.wimlib_export := fun _ =>
       {| Esd.returncode := 0; Esd.stdout := ""; Esd.stderr := "";
          Esd.wim := Some "wim" |};
     Esd.locale_decode := Samples.locale_utf8;
     Esd.int_str := Samples.int_plain;
     Esd.http := fun _ => Esd.FetchBreaks "MS";
     Esd.tempdir := "/tmp";
     Esd.rand_file := "a1b2c3";
     Esd.rand_dir := "d4e5f6";
     Esd.fromstring := fun _ => None |}.

End MoreSamples.

(* ===================================================================== *)
(** * Facts about byte strings *)
(* ===================================================================== *)

Section Bytes.
Import Py.

Lemma app_cons (c : ascii) (s t : string) :
  String c s +:+ t = String c (s +:+ t).
Proof. reflexivity. Qed.

Lemma app_nil_l (s : string) : EmptyString +:+ s = s.
Proof. reflexivity. Qed.

Lemma length_app (s t : string) :
  String.length (s +:+ t) = (String.length s + String.length t)%nat.
Proof.
  induction s as [|c s IH]; [reflexivity|].
  rewrite app_cons. simpl. now rewrite IH.
Qed.

Lemma app_assoc_str (s t u : string) : (s +:+ t) +:+ u = s +:+ (t +:+ u).
Proof.
  induction s as [|c s IH]; [reflexivity|].
  rewrite !app_cons. now rewrite IH.
Qed.

Lemma drop_str_app (pre s : string) :
  drop_str (String.length pre) (pre +:+ s) = s.
Proof.
  induction pre as [|c pre IH]; [now destruct s|].
  rewrite app_cons. exact IH.
Qed.

Lemma substring_prefix_app (x post : string) :
  String.substring 0 (String.length x) (x +:+ post) = x.
Proof.
  induction x as [|c x IH]; [now destruct post|].
  rewrite app_cons. simpl. now rewrite IH.
Qed.

Lemma substring_app_mid (pre x post : string) :
  String.substring (String.length pre) (String.length x) (pre +:+ x +:+ post) = x.
Proof.
  induction pre as [|c pre IH]; [exact (substring_prefix_app x post)|].
  rewrite app_cons. exact IH.
Qed.

Lemma prefix_app (sub r : string) : String.prefix sub (sub +:+ r) = true.
Proof.
  induction sub as [|c sub IH]; [now destruct r|].
  rewrite app_cons. simpl.
  destruct (ascii_dec c c) as [_|N]; [exact IH | now destruct N].
Qed.

Lemma find_here_unfold (sub s : string) (i : Z) :
  find_here sub s i =
  if String.prefix sub s then i
  else match s with
       | EmptyString => -1
       | String _ s' => find_here sub s' (i + 1)
       end.
Proof. now destruct s. Qed.

Lemma forallb_seq_shift (f : nat -> bool) (n : nat) :
  forall a, forallb f (seq (S a) n) = forallb (fun i => f (S i)) (seq a n).
Proof.
  induction n as [|n IH]; intros a; simpl; [reflexivity | now rewrite IH].
Qed.

Lemma forallb_seq_S (f : nat -> bool) (n : nat) :
  forallb f (seq 0 (S n)) = f 0%nat && forallb (fun i => f (S i)) (seq 0 n).
Proof. simpl. now rewrite forallb_seq_shift. Qed.

(** The search finds the first offset at which the pattern starts. *)
Lemma find_here_first (sub : string) (n : nat) :
  forall (s : string) (i : Z),
    first_at sub s n = true -> find_here sub s i = i + Z.of_nat n.
Proof.
  induction n as [|n IH]; intros s i H; unfold first_at in H;
    apply andb_true_iff in H as [Hn Hlt]; rewrite find_here_unfold.
  - unfold starts_at in Hn. simpl in Hn. rewrite Hn. lia.
  - rewrite forallb_seq_S in Hlt. apply andb_true_iff in Hlt as [H0 Hlt].
    unfold starts_at in H0. simpl in H0. apply negb_true_iff in H0.
    rewrite H0. destruct s as [|c s].
    + unfold starts_at in Hn. change (drop_str (S n) EmptyString) with EmptyString in Hn.
      congruence.
    + rewrite (IH s (i + 1)); [lia|].
      unfold first_at. apply andb_true_iff. split; [exact Hn | exact Hlt].
Qed.

End Bytes.

(* ===================================================================== *)
(** * The raw byte scan *)
(* ===================================================================== *)

Section RawScan.
Import Py Esd.

(** The end marker cannot start inside the start marker. *)
Lemma find_END_skips_START (rest : string) (i : Z) :
  find_here END_ (START +:+ rest) i = find_here END_ rest (i + 5).
Proof.
  unfold START. rewrite !app_cons, app_nil_l.
  do 5 (rewrite find_here_unfold;
        match goal with
        | |- context [String.prefix ?a ?b] =>
            replace (String.prefix a b) with false by reflexivity
        end).
  f_equal. lia.
Qed.

Lemma bytes_find_first (sub s : string) (n : nat) :
  first_at sub s n = true -> bytes_find s sub 0 = Z.of_nat n.
Proof.
  intros H. unfold bytes_find.
  replace (Z.of_nat (String.length s) <? 0) with false
    by (symmetry; apply Z.ltb_ge; lia).
  change (drop_str (Z.to_nat 0) s) with s.
  now rewrite (find_here_first sub n s 0 H).
Qed.

(** C8 (amended): the raw scan takes the bytes from the first start marker
    through the first end marker after it, and nothing before or after them;
    it returns exactly those bytes, as text, when they are well-formed UTF-8,
    and raises [UnicodeDecodeError] when they are not. *)
Theorem raw_scan_returns_marked_text (pre mid post : string) :
  first_at START (pre +:+ START +:+ mid +:+ END_ +:+ post)
           (String.length pre) = true ->
  first_at END_ (mid +:+ END_ +:+ post) (String.length mid) = true ->
  raw_scan (pre +:+ START +:+ mid +:+ END_ +:+ post)
  = Some (if utf8_valid (START +:+ mid +:+ END_)
          then Ok (START +:+ mid +:+ END_)
          else Raise UnicodeDecodeError).
Proof.
  intros Hs He. unfold raw_scan.
  rewrite (bytes_find_first _ _ _ Hs).
  replace (Z.of_nat (String.length pre) =? -1) with false
    by (symmetry; apply Z.eqb_neq; lia).
  cbn [negb]. unfold bytes_find.
  replace (Z.of_nat (String.length (pre +:+ START +:+ mid +:+ END_ +:+ post))
           <? Z.of_nat (String.length pre)) with false
    by (symmetry; apply Z.ltb_ge; rewrite length_app; lia).
  rewrite Nat2Z.id, drop_str_app, find_END_skips_START.
  rewrite (find_here_first END_ _ _ _ He).
  match goal with
  | |- context [?x =? -1] =>
      replace (x =? -1) with false by (symmetry; apply Z.eqb_neq; lia)
  end.
  cbn [negb]. unfold slice, decode_utf8.
  replace (Z.to_nat (Z.of_nat (String.length pre) + 5
                     + Z.of_nat (String.length mid)
                     + Z.of_nat (String.length END_)
                     - Z.of_nat (String.length pre)))
    with (String.length (START +:+ mid +:+ END_))
    by (rewrite !length_app; simpl; lia).
  rewrite Nat2Z.id.
  replace (pre +:+ START +:+ mid +:+ END_ +:+ post)
    with (pre +:+ (START +:+ mid +:+ END_) +:+ post)
    by (now rewrite !app_assoc_str).
  rewrite substring_app_mid. reflexivity.
Qed.

Lemma raw_scan_returns_marked_text_witness :
  raw_scan (Samples.cab_pre +:+ START +:+ Samples.cab_mid +:+ END_
            +:+ Samples.cab_post)
  = Some (Ok (START +:+ Samples.cab_mid +:+ END_)).
Proof.
  rewrite (raw_scan_returns_marked_text
             Samples.cab_pre Samples.cab_mid Samples.cab_post);
    vm_compute; reflexivity.
Defined.

(** C8, as stated, fails: the markers are there, with one byte that is not
    UTF-8 between them, and the scan raises instead of returning the bytes. *)
Lemma raw_scan_invalid_utf8_raises :
  first_at START (START +:+ Samples.xFF +:+ END_) 0 = true
  /\ first_at END_ (Samples.xFF +:+ END_) 1 = true
  /\ raw_scan (START +:+ Samples.xFF +:+ END_) = Some (Raise UnicodeDecodeError)
  /\ raw_scan (START +:+ Samples.xFF +:+ END_)
     <> Some (Ok (START +:+ Samples.xFF +:+ END_)).
Proof.
  repeat split; try (vm_compute; reflexivity).
  vm_compute. discriminate.
Qed.

End RawScan.

(* ===================================================================== *)
(** * The chain of extraction methods *)
(* ===================================================================== *)

Section Extraction.
Import Py Esd EsdSpec.

Lemma logged_logged (st : state) (e1 e2 : list event) :
  logged (logged st e1) e2 = logged st (e1 ++ e2).
Proof. unfold logged. simpl. now rewrite <- app_assoc. Qed.

Lemma try_tool_spec (w : world) (t : tool) (argv : list string)
    (cab_path : string) (st : state) :
  try_tool w t argv cab_path st
  = (logged st [Exec argv], tool_result w t (fs st !! cab_path)).
Proof.
  unfold try_tool, try_except, subprocess_run, bind, emit, raise, ret, lift,
    tool_result, logged, read_text, decode_utf8.
  destruct (installed w t); simpl; [|reflexivity].
  destruct (tool_run w t (fs st !! cab_path)) as [|[b|]]; simpl;
    try reflexivity.
  destruct (utf8_valid b); reflexivity.
Qed.

(** A tool attempt can only raise the decoding error of the text read. *)
Lemma tool_result_raise (w : world) (t : tool) (cab : option string) (e : exn) :
  tool_result w t cab = Raise e -> e = UnicodeDecodeError.
Proof.
  unfold tool_result, read_text, decode_utf8.
  destruct (installed w t); [|discriminate].
  destruct (tool_run w t cab) as [|[b|]]; try discriminate.
  destruct (utf8_valid b); [discriminate|]. now intros [= <-].
Qed.

(** The function is the four methods in their order: each is tried when the
    ones before it yielded nothing. *)
Lemma extract_spec (w : world) (cab_path : string) (st : state) :
  extract_xml_from_cab w cab_path st
  = let cab := fs st !! cab_path in
    let e1 := Exec (argv1 w cab_path) in
    let e2 := Exec (argv2 cab_path) in
    let e3 := Exec (argv3 w cab_path) in
    match tool_result w cabextract cab with
    | Ok (Some xml) => (logged st [e1], Ok xml)
    | Raise e => (logged st [e1], Raise e)
    | Ok None =>
    match tool_result w tar cab with
    | Ok (Some xml) => (logged st [e1; e2], Ok xml)
    | Raise e => (logged st [e1; e2], Raise e)
    | Ok None =>
    match tool_result w sevenzip cab with
    | Ok (Some xml) => (logged st [e1; e2; e3], Ok xml)
    | Raise e => (logged st [e1; e2; e3], Raise e)
    | Ok None => (logged st [e1; e2; e3; OpenRead cab_path], raw_result cab)
    end end end.
Proof.
  unfold extract_xml_from_cab. cbv zeta.
  unfold bind at 1. rewrite try_tool_spec.
  destruct (tool_result w cabextract (fs st !! cab_path)) as [[xml|]|e];
    try reflexivity.
  unfold bind at 1. rewrite try_tool_spec, logged_logged. simpl fs.
  destruct (tool_result w tar (fs st !! cab_path)) as [[xml|]|e];
    try reflexivity.
  unfold bind at 1. rewrite try_tool_spec, logged_logged. simpl fs.
  destruct (tool_result w sevenzip (fs st !! cab_path)) as [[xml|]|e];
    try reflexivity.
  unfold bind, emit, raw_result, logged. simpl.
  rewrite <- !app_assoc. simpl.
  destruct (fs st !! cab_path) as [cab_data|]; [|reflexivity].
  destruct (raw_scan cab_data); reflexivity.
Qed.

Lemma raw_scan_raise (cab_data : string) (e : exn) :
  raw_scan cab_data = Some (Raise e) -> e = UnicodeDecodeError.
Proof.
  unfold raw_scan, decode_utf8.
  repeat match goal with
         | |- context [if ?b then _ else _] => destruct b
         end; try discriminate.
  now intros [= <-].
Qed.

(** The error of the exhausted chain is raised only after the raw scan, the
    last method, has been tried, on any host. *)
Lemma not_extractable_after_all_four (w : world) (cab_path : string)
    (st : state) :
  snd (extract_xml_from_cab w cab_path st) = Raise (ValueError not_extractable) ->
  log (fst (extract_xml_from_cab w cab_path st))
  = log st ++ [Exec (argv1 w cab_path); Exec (argv2 cab_path);
               Exec (argv3 w cab_path); OpenRead cab_path].
Proof.
  rewrite extract_spec. cbv zeta.
  destruct (tool_result w cabextract (fs st !! cab_path)) as [[xml|]|e] eqn:E1;
    simpl; try discriminate;
    [|intros [= ->]; now apply tool_result_raise in E1].
  destruct (tool_result w tar (fs st !! cab_path)) as [[xml|]|e] eqn:E2;
    simpl; try discriminate;
    [|intros [= ->]; now apply tool_result_raise in E2].
  destruct (tool_result w sevenzip (fs st !! cab_path)) as [[xml|]|e] eqn:E3;
    simpl; try discriminate;
    [|intros [= ->]; now apply tool_result_raise in E3].
  reflexivity.
Qed.

(** [check_tools], the first step of [main]: with neither of the first two
    tools on the search path the program stops before it fetches or extracts
    anything. *)
Lemma check_tools_stops (w : world) (st : state) :
  installed w cabextract = false ->
  installed w tar = false ->
  check_tools w st
  = if installed w which then
      (logged st [Exec ["which"; "cabextract"]; Exec ["which"; "tar"];
                  Print "❌ Missing CAB extraction tool!";
                  Print (install_hint w)],
       Raise (SystemExit 1))
    else (logged st [Exec ["which"; "cabextract"]], Raise FileNotFoundError).
Proof.
  intros H1 H2.
  unfold check_tools, has_tool, subprocess_run, bind, emit, raise, ret, print,
    logged, install_hint.
  destruct (installed w which); simpl; [|reflexivity].
  rewrite H1, H2. simpl.
  destruct (String.eqb (platform_system w) "Darwin"); simpl;
    rewrite <- !app_assoc; reflexivity.
Qed.

(** C1 (amended): with the first two extraction tools unavailable,
    [extract_xml_from_cab] still runs the third method and, when that yields
    nothing, the raw scan, and raises its error only after all four; [main],
    however, never gets there on such a host, because [check_tools] stops the
    program first. *)
Theorem extraction_chain_without_first_two (w : world) (cab_path : string)
    (st : state) :
  installed w cabextract = false ->
  installed w tar = false ->
  let tried3 := [Exec (argv1 w cab_path); Exec (argv2 cab_path);
                 Exec (argv3 w cab_path)] in
  let out := extract_xml_from_cab w cab_path st in
  (exists rest, log (fst out) = log st ++ tried3 ++ rest)
  /\ (tool_result w sevenzip (fs st !! cab_path) = Ok None ->
      log (fst out) = log st ++ tried3 ++ [OpenRead cab_path]
      /\ snd out = raw_result (fs st !! cab_path))
  /\ (snd out = Raise (ValueError not_extractable) ->
      log (fst out) = log st ++ tried3 ++ [OpenRead cab_path])
  /\ snd (main w st)
     = Raise (if installed w which then SystemExit 1 else FileNotFoundError)
  /\ (forall argv, In (Exec argv) (log (fst (main w st))) ->
      In (Exec argv) (log st) \/ exists t, argv = ["which"; t]).
Proof.
  intros H1 H2 tried3 out.
  assert (Hout : out
    = match tool_result w sevenzip (fs st !! cab_path) with
      | Ok (Some xml) => (logged st tried3, Ok xml)
      | Raise e => (logged st tried3, Raise e)
      | Ok None => (logged st (tried3 ++ [OpenRead cab_path]),
                    raw_result (fs st !! cab_path))
      end).
  { subst out. rewrite extract_spec. cbv zeta. unfold tool_result at 1.
    rewrite H1. unfold tool_result at 1. rewrite H2. reflexivity. }
  split; [|split; [|split; [|split]]].
  - rewrite Hout.
    destruct (tool_result w sevenzip (fs st !! cab_path)) as [[xml|]|e];
      simpl.
    + exists []. subst tried3. simpl. reflexivity.
    + exists [OpenRead cab_path]. reflexivity.
    + exists []. subst tried3. simpl. reflexivity.
  - intros E. rewrite Hout, E. simpl. split; reflexivity.
  - intros E. subst out.
    rewrite (not_extractable_after_all_four w cab_path st E). reflexivity.
  - unfold main. unfold bind at 1. rewrite (check_tools_stops w st H1 H2).
    destruct (installed w which); reflexivity.
  - intros argv. unfold main. unfold bind at 1.
    rewrite (check_tools_stops w st H1 H2).
    destruct (installed w which); simpl; rewrite in_app_iff; simpl;
      intros [H|H]; auto; right.
    + destruct H as [[= <-]|[[= <-]|[[=]|[[=]|[]]]]]; eauto.
    + destruct H as [[= <-]|[]]; eauto.
Qed.

Lemma extraction_chain_without_first_two_witness :
  let out := extract_xml_from_cab Samples.host_7z "/tmp/c.cab"
               Samples.empty_state in
  (exists rest, log (fst out)
     = log Samples.empty_state
       ++ [Exec (argv1 Samples.host_7z "/tmp/c.cab"); Exec (argv2 "/tmp/c.cab");
           Exec (argv3 Samples.host_7z "/tmp/c.cab")] ++ rest)
  /\ snd (main Samples.host_7z Samples.empty_state) = Raise (SystemExit 1).
Proof.
  pose proof (extraction_chain_without_first_two Samples.host_7z "/tmp/c.cab"
                Samples.empty_state eq_refl eq_refl) as H.
  cbv zeta in H. destruct H as (Ha & _ & _ & Hb & _).
  split; [exact Ha | exact Hb].
Defined.

(** C1, as stated, fails: on a host that has 7z but neither cabextract nor
    tar, the catalog resolver reports a fatal error and exits with status 1
    although the third and the fourth method were never tried. *)
Lemma check_tools_exits_with_methods_untried :
  Esd.installed Samples.host_7z cabextract = false
  /\ Esd.installed Samples.host_7z tar = false
  /\ Esd.installed Samples.host_7z sevenzip = true
  /\ snd (main Samples.host_7z Samples.empty_state) = Raise (SystemExit 1)
  /\ log (fst (main Samples.host_7z Samples.empty_state))
     = [Exec ["which"; "cabextract"]; Exec ["which"; "tar"];
        Print "❌ Missing CAB extraction tool!";
        Print "Install: sudo apt install cabextract"].
Proof. repeat split; vm_compute; reflexivity. Qed.

End Extraction.

(* ===================================================================== *)
(** * Matching the catalog *)
(* ===================================================================== *)

Section Matching.
Import Py Esd EsdSpec.

Lemma text_is_spec (o : option element) (s : string) :
  text_is o s = true <-> exists e, o = Some e /\ text e = Some s.
Proof.
  unfold text_is. split.
  - destruct o as [[tg [t|] cs]|]; try discriminate.
    intros H. apply String.eqb_eq in H. subst. eexists. split; reflexivity.
  - intros ([tg tx cs] & -> & H). simpl in H. subst tx.
    apply String.eqb_refl.
Qed.

(** The condition of the loop is the exact match of the specification. *)
Lemma matches_exact (q : query) (e : element) :
  matches q e = true <-> exact_match q e.
Proof.
  unfold matches, exact_match. rewrite !andb_true_iff, !text_is_spec. split.
  - intros [[(l & Hl & Tl) (ed & He & Te)] (a & Ha & Ta)].
    exists l, ed, a. repeat split; assumption.
  - intros (l & ed & a & Hl & Tl & He & Te & Ha & Ta).
    repeat split; eexists; split; eassumption.
Qed.

Lemma matches_not_exact (q : query) (e : element) :
  matches q e = false <-> ~ exact_match q e.
Proof.
  rewrite <- matches_exact. destruct (matches q e); split; intros H;
    try reflexivity; try discriminate; try (intros H'; discriminate).
  now destruct H.
Qed.

(** Entries that do not match are passed over without any effect. *)
Lemma find_edition_skips (w : world) (q : query) (pre rest : list element) :
  Forall (fun e => ~ exact_match q e) pre ->
  find_edition w q (pre ++ rest) = find_edition w q rest.
Proof.
  induction 1 as [|e pre He _ IH]; [reflexivity|].
  simpl. apply matches_not_exact in He. now rewrite He.
Qed.

(** An entry that lacks one of the three fields of the query is passed over
    in silence, whatever else it holds. *)
Lemma missing_query_field_skipped (w : world) (q : query) (f : element)
    (rest : list element) :
  find "LanguageCode" f = None \/ find "Edition" f = None
  \/ find "Architecture" f = None ->
  find_edition w q (f :: rest) = find_edition w q rest.
Proof.
  intros H. change (f :: rest) with ([f] ++ rest).
  apply find_edition_skips. constructor; [|constructor].
  intros (l & ed & a & Hl & _ & He & _ & Ha & _).
  destruct H as [H|[H|H]]; congruence.
Qed.

(** Induction on a tree, with the hypothesis for every child. *)
Lemma element_nested_ind (P : element -> Prop) :
  (forall t x cs, Forall P cs -> P (Element t x cs)) ->
  forall e, P e.
Proof.
  intros H. fix IH 1. intros [t x cs]. apply H.
  induction cs as [|c cs IHcs]; constructor; [apply IH | exact IHcs].
Qed.

(** What [iter] lists is in the tree. *)
Lemma iter_at (e x : element) :
  In x (iter e) -> exists r, subtree_at e r = Some x.
Proof.
  revert x. induction e as [t tx cs IH] using element_nested_ind.
  intros x [<-|Hin]; [exists []; reflexivity|].
  apply in_flat_map in Hin as (c & Hc & Hx).
  rewrite List.Forall_forall in IH. destruct (IH c Hc x Hx) as [r Hr].
  apply In_nth_error in Hc as [i Hi].
  exists (i :: r). simpl. now rewrite Hi.
Qed.

(** In the listing of a sequence of siblings, what stands before an element
    is at an earlier position. *)
Lemma forest_split (cs : list element) :
  forall (i : nat) (c : element) (r : list nat) (f : element),
  nth_error cs i = Some c ->
  (exists b a, iter c = b ++ f :: a
     /\ forall x, In x b ->
          exists r', doc_before r' r = true /\ subtree_at c r' = Some x) ->
  exists b a, flat_map iter cs = b ++ f :: a
     /\ forall x, In x b ->
          exists j r' c', doc_before (j :: r') (i :: r) = true
                          /\ nth_error cs j = Some c'
                          /\ subtree_at c' r' = Some x.
Proof.
  induction cs as [|c0 cs IH]; intros [|i] c r f Hc Hs; try discriminate.
  - injection Hc as ->. destruct Hs as (b & a & E & Hb).
    exists b, (a ++ flat_map iter cs). split.
    + simpl. rewrite E, <- List.app_assoc. reflexivity.
    + intros x Hx. destruct (Hb x Hx) as (r' & Hr & Hx').
      exists O, r', c. repeat split; assumption.
  - destruct (IH i c r f Hc Hs) as (b & a & E & Hb).
    exists (iter c0 ++ b), a. split.
    + simpl. rewrite E, <- List.app_assoc. reflexivity.
    + intros x Hx. apply in_app_or in Hx as [Hx|Hx].
      * destruct (iter_at c0 x Hx) as [r' Hr'].
        exists O, r', c0. repeat split; solve [reflexivity | assumption].
      * destruct (Hb x Hx) as (j & r' & c' & Hr & Hj & Hx').
        exists (S j), r', c'. repeat split; assumption.
Qed.

(** [iter] lists the tree in document order. *)
Lemma iter_split (r : list nat) :
  forall (e f : element),
  subtree_at e r = Some f ->
  exists b a, iter e = b ++ f :: a
     /\ forall x, In x b ->
          exists r', doc_before r' r = true /\ subtree_at e r' = Some x.
Proof.
  induction r as [|i r IH]; intros [t tx cs] f H.
  - injection H as <-. exists [], (flat_map iter cs). split; [reflexivity|].
    intros x [].
  - simpl in H. destruct (nth_error cs i) as [c|] eqn:Hc; [|discriminate].
    destruct (forest_split cs i c r f Hc (IH c f H)) as (b & a & E & Hb).
    exists (Element t tx cs :: b), a. split.
    + simpl. now rewrite E.
    + intros x [<-|Hx]; [exists []; split; reflexivity|].
      destruct (Hb x Hx) as (j & r' & c' & Hr & Hj & Hx').
      exists (j :: r'). split; [exact Hr|]. simpl. now rewrite Hj.
Qed.

(** The traversal of the loop meets the first matching entry of the document
    after entries that do not match only. *)
Lemma first_match_split (q : query) (root : element) (p : list nat)
    (f : element) :
  first_match_at q root p f ->
  exists pre post,
    findall_desc "File" root = pre ++ f :: post
    /\ Forall (fun e => ~ exact_match q e) pre.
Proof.
  intros (Hp & Hs & Ht & _ & Hfirst).
  destruct p as [|i r]; [congruence|]. simpl in Hs.
  destruct (nth_error (children root) i) as [c|] eqn:Hc; [|discriminate].
  destruct (forest_split (children root) i c r f Hc (iter_split r c f Hs))
    as (b & a & E & Hb).
  set (is_file := fun e : element => String.eqb (tag e) "File").
  exists (List.filter is_file b), (List.filter is_file a). split.
  - unfold findall_desc. fold is_file. rewrite E, List.filter_app. simpl.
    unfold is_file at 2. rewrite Ht. reflexivity.
  - apply List.Forall_forall. intros x Hx.
    apply List.filter_In in Hx as [Hx Hfile]. apply String.eqb_eq in Hfile.
    destruct (Hb x Hx) as (j & r' & c' & Hr & Hj & Hx').
    apply (Hfirst (j :: r') x); try assumption; [discriminate|].
    simpl. now rewrite Hj.
Qed.

(** What is in the tree is listed by [iter]. *)
Lemma at_iter (r : list nat) :
  forall (e x : element), subtree_at e r = Some x -> In x (iter e).
Proof.
  induction r as [|i r IH]; intros [t tx cs] x H.
  - injection H as <-. now left.
  - simpl in H. destruct (nth_error cs i) as [c|] eqn:Hc; [|discriminate].
    right. apply in_flat_map. exists c.
    split; [exact (nth_error_In _ _ Hc) | exact (IH c x H)].
Qed.

Lemma app_eq_split {A} (l1 l2 b a : list A) (f : A) :
  l1 ++ l2 = b ++ f :: a ->
  (exists a1, l1 = b ++ f :: a1) \/ (exists b2, b = l1 ++ b2 /\ l2 = b2 ++ f :: a).
Proof.
  revert b. induction l1 as [|x l1 IH]; intros b E.
  - right. exists b. split; [reflexivity | exact E].
  - destruct b as [|y b]; simpl in E; injection E as -> E.
    + left. exists l1. reflexivity.
    + destruct (IH b E) as [[a1 ->]|(b2 & -> & ->)].
      * left. exists a1. reflexivity.
      * right. exists b2. split; reflexivity.
Qed.

Lemma filter_split {A} (P : A -> bool) (l : list A) :
  forall (pre post : list A) (f : A),
  List.filter P l = pre ++ f :: post ->
  exists b a, l = b ++ f :: a /\ List.filter P b = pre /\ P f = true.
Proof.
  induction l as [|x l IH]; intros pre post f E.
  - destruct pre; discriminate.
  - simpl in E. destruct (P x) eqn:Px.
    + destruct pre as [|y pre]; simpl in E; injection E as -> E.
      * exists [], l. repeat split. exact Px.
      * destruct (IH pre post f E) as (b & a & -> & Hb & Pf).
        exists (y :: b), a. repeat split; [|exact Pf].
        simpl. now rewrite Px, Hb.
    + destruct (IH pre post f E) as (b & a & -> & Hb & Pf).
      exists (x :: b), a. repeat split; [|exact Pf].
      simpl. now rewrite Px, Hb.
Qed.

(** Every place in the listing of a sequence of siblings is a position, and
    what is at an earlier position stands before it in the listing. *)
Lemma forest_position (cs : list element) :
  Forall (fun c => forall b f a, iter c = b ++ f :: a ->
            exists r, subtree_at c r = Some f
              /\ forall r' x, doc_before r' r = true ->
                              subtree_at c r' = Some x -> In x b) cs ->
  forall b f a, flat_map iter cs = b ++ f :: a ->
  exists i r c, nth_error cs i = Some c /\ subtree_at c r = Some f
    /\ forall j r' c' x, doc_before (j :: r') (i :: r) = true ->
          nth_error cs j = Some c' -> subtree_at c' r' = Some x -> In x b.
Proof.
  induction 1 as [|c0 cs H0 _ IH]; intros b f a E.
  - destruct b; discriminate.
  - simpl in E. apply app_eq_split in E as [[a1 E1]|(b2 & -> & E2)].
    + destruct (H0 _ _ _ E1) as (r & Hr & Hb).
      exists O, r, c0. split; [reflexivity | split; [exact Hr|]].
      intros [|j] r' c' x Hd Hj Hx; [|discriminate].
      injection Hj as <-. exact (Hb r' x Hd Hx).
    + destruct (IH _ _ _ E2) as (i & r & c & Hi & Hr & Hb).
      exists (S i), r, c. split; [exact Hi | split; [exact Hr|]].
      intros [|j] r' c' x Hd Hj Hx; apply in_or_app.
      * injection Hj as <-. left. exact (at_iter r' c0 x Hx).
      * right. exact (Hb j r' c' x Hd Hj Hx).
Qed.

Lemma iter_position (e : element) :
  forall b f a, iter e = b ++ f :: a ->
  exists r, subtree_at e r = Some f
    /\ forall r' x, doc_before r' r = true ->
                    subtree_at e r' = Some x -> In x b.
Proof.
  induction e as [t tx cs IH] using element_nested_ind. intros b f a E.
  destruct b as [|y b]; simpl in E; injection E as <- E.
  - exists []. split; [reflexivity|]. intros [|? ?] x Hd; discriminate.
  - destruct (forest_position cs IH b f a E) as (i & r & c & Hi & Hr & Hb).
    exists (i :: r). split; [simpl; now rewrite Hi|].
    intros [|j r'] x Hd Hx.
    + injection Hx as <-. now left.
    + right. simpl in Hx.
      destruct (nth_error cs j) as [c'|] eqn:Hj; [|discriminate].
      exact (Hb j r' c' x Hd Hj Hx).
Qed.

(** A search that returns a record has met a first matching entry. *)
Lemma find_edition_found (w : world) (q : query) (files : list element)
    (fd : found) :
  find_edition w q files = Ok (Some fd) ->
  exists pre f post,
    files = pre ++ f :: post
    /\ Forall (fun e => ~ exact_match q e) pre
    /\ exact_match q f /\ make_found w f = Ok fd.
Proof.
  induction files as [|f files IH]; [discriminate|].
  simpl. destruct (matches q f) eqn:Hm.
  - destruct (make_found w f) as [fd'|] eqn:Hf; [|discriminate].
    intros [= <-]. exists [], f, files.
    repeat split; [constructor | now apply matches_exact | exact Hf].
  - intros H. destruct (IH H) as (pre & f' & post & -> & Hpre & Hrest).
    exists (f :: pre), f', post. split; [reflexivity|].
    split; [|exact Hrest]. constructor; [now apply matches_not_exact | exact Hpre].
Qed.

(** The record the loop returns is made from the first matching entry of the
    document. *)
Lemma first_match_exists (w : world) (q : query) (root : element)
    (fd : found) :
  find_edition w q (findall_desc "File" root) = Ok (Some fd) ->
  exists p f, first_match_at q root p f /\ make_found w f = Ok fd.
Proof.
  intros H.
  destruct (find_edition_found _ _ _ _ H) as (pre & f & post & E & Hpre & Hf & Hfd).
  unfold findall_desc in E.
  apply filter_split in E as (b & a & E & Hb & Ht).
  apply String.eqb_eq in Ht.
  assert (Hall : Forall (fun c => forall b f a, iter c = b ++ f :: a ->
                    exists r, subtree_at c r = Some f
                      /\ forall r' x, doc_before r' r = true ->
                            subtree_at c r' = Some x -> In x b)
                   (children root))
    by (apply List.Forall_forall; intros c _; apply iter_position).
  destruct (forest_position _ Hall b f a E) as (i & r & c & Hi & Hr & Hbefore).
  exists (i :: r), f. split; [|exact Hfd].
  split; [discriminate|]. split; [simpl; now rewrite Hi|].
  split; [exact Ht|]. split; [exact Hf|].
  intros [|j r'] e Hne Hd He Hte; [congruence|].
  simpl in He. destruct (nth_error (children root) j) as [c'|] eqn:Hj;
    [|discriminate].
  pose proof (Hbefore j r' c' e Hd Hj He) as Hin.
  rewrite List.Forall_forall in Hpre. apply Hpre. rewrite <- Hb.
  apply List.filter_In. split; [exact Hin | now apply String.eqb_eq].
Qed.

(** Walk through the positions of a given tree. *)
Ltac walk_positions :=
  repeat match goal with
         | H : None = Some _ |- _ => discriminate H
         | H : false = true |- _ => discriminate H
         | H : Some _ = Some _ |- _ => injection H as <-
         | H : subtree_at _ ?p = Some _ |- _ =>
             is_var p; destruct p as [|? ?]; cbn in H
         | H : match nth_error _ ?i with _ => _ end = Some _ |- _ =>
             is_var i; destruct i as [|?]; cbn in H
         | H : match subtree_at _ ?p with _ => _ end = Some _ |- _ =>
             is_var p; destruct p as [|? ?]; cbn in H
         end.

(** C7 (amended): the first entry in document order whose three fields equal
    the query character for character decides the result: when it carries an
    address and a size that [int] reads and the division keeps finite, the
    record made from it is returned, whatever stands after it. *)
Theorem first_match_in_document_order (w : world) (q : query)
    (root : element) (p : list nat) (f fp sz : element) (t : string) (n : Z)
    (gb : float) :
  first_match_at q root p f ->
  find "FilePath" f = Some fp ->
  find "Size" f = Some sz ->
  text sz = Some t ->
  int_str w t = inl n ->
  truediv_pow2 n 30 = Ok gb ->
  find_edition w q (findall_desc "File" root)
  = Ok (Some {| url := text fp; size := gb |}).
Proof.
  intros Hfirst Hfp Hsz Ht Hn Hgb.
  destruct (first_match_split q root p f Hfirst) as (pre & post & -> & Hpre).
  destruct Hfirst as (_ & _ & _ & Hf & _).
  rewrite find_edition_skips by exact Hpre.
  simpl. apply matches_exact in Hf. rewrite Hf.
  unfold make_found. now rewrite Hfp, Hsz, Ht, Hn, Hgb.
Qed.

Lemma first_match_in_document_order_witness :
  find_edition Samples.host_full enterprise_n
    (findall_desc "File"
       (Samples.catalog [Samples.upper_case_file; Samples.professional_file;
                         Samples.scenario_file; Samples.duplicate_file]))
  = Ok (Some {| url := Some "https://example/x.esd";
                size := float_of_int 4 |}).
Proof.
  apply (first_match_in_document_order Samples.host_full enterprise_n
           (Samples.catalog [Samples.upper_case_file;
                             Samples.professional_file;
                             Samples.scenario_file; Samples.duplicate_file])
           [0; 0; 0; 0; 2]%nat Samples.scenario_file
           (Samples.field "FilePath" "https://example/x.esd")
           (Samples.field "Size" "4294967296") "4294967296" 4294967296).
  - repeat split; try (vm_compute; reflexivity); try discriminate.
    + apply matches_exact. vm_compute. reflexivity.
    + intros p' e Hne Hb Hs Ht.
      unfold Samples.catalog in Hs. walk_positions;
        try congruence; try discriminate;
        apply matches_not_exact; vm_compute; reflexivity.
  - reflexivity.
  - reflexivity.
  - reflexivity.
  - reflexivity.
  - vm_compute. reflexivity.
Defined.

(** C7, as stated, fails: the first entry that equals the query has a size
    that is not a number, and the resolver raises instead of returning it,
    although a complete entry for the same product follows. *)
Lemma first_match_with_bad_size_raises :
  first_match_at enterprise_n
    (Samples.catalog [MoreSamples.bad_size_file; Samples.scenario_file])
    [0; 0; 0; 0; 0]%nat MoreSamples.bad_size_file
  /\ exact_match enterprise_n Samples.scenario_file
  /\ find_edition Samples.host_full enterprise_n
       (findall_desc "File"
          (Samples.catalog [MoreSamples.bad_size_file; Samples.scenario_file]))
     = Raise (ValueError "invalid literal for int() with base 10: '4 GB'").
Proof.
  split; [|split].
  - repeat split; try (vm_compute; reflexivity); try discriminate.
    + apply matches_exact. vm_compute. reflexivity.
    + intros p' e Hne Hb Hs Ht.
      unfold Samples.catalog in Hs. walk_positions;
        try congruence; try discriminate;
        apply matches_not_exact; vm_compute; reflexivity.
  - apply matches_exact. vm_compute. reflexivity.
  - vm_compute. reflexivity.
Qed.

(** C2 (amended): a record the resolver returns is made from the first
    matching entry of the document, and the size it holds is the declared
    number of bytes of that entry divided by [1024**3], as a float: the
    division is part of the match, and the number of bytes is not kept. *)
Theorem found_size_is_scaled (w : world) (q : query) (root : element)
    (fd : found) :
  find_edition w q (findall_desc "File" root) = Ok (Some fd) ->
  exists p f fp sz t n,
    first_match_at q root p f
    /\ find "FilePath" f = Some fp /\ url fd = text fp
    /\ find "Size" f = Some sz /\ text sz = Some t /\ int_str w t = inl n
    /\ size fd = binary_normalize 53 1024 n (-30) false.
Proof.
  intros H. destruct (first_match_exists w q root fd H) as (p & f & Hfirst & Hfd).
  exists p, f. revert Hfd. unfold make_found, truediv_pow2.
  destruct (find "FilePath" f) as [fp|]; [|discriminate].
  destruct (find "Size" f) as [sz|]; [|discriminate].
  destruct (text sz) as [t|] eqn:Ht; [|discriminate].
  destruct (int_str w t) as [n|msg] eqn:Hn; [|discriminate].
  intros Hfd. exists fp, sz, t, n.
  change (- (30)) with (-30) in Hfd.
  destruct (binary_normalize 53 1024 n (-30) false); try discriminate;
    injection Hfd as <-; repeat split; try assumption; apply Hfirst.
Qed.

Lemma found_size_is_scaled_witness :
  exists p f fp sz t n,
    first_match_at enterprise_n
      (Samples.catalog [Samples.professional_file; Samples.scenario_file;
                        Samples.duplicate_file]) p f
    /\ find "FilePath" f = Some fp
    /\ Some "https://example/x.esd" = text fp
    /\ find "Size" f = Some sz /\ text sz = Some t
    /\ int_str Samples.host_full t = inl n
    /\ float_of_int 4 = binary_normalize 53 1024 n (-30) false.
Proof.
  apply (found_size_is_scaled Samples.host_full enterprise_n
           (Samples.catalog [Samples.professional_file; Samples.scenario_file;
                             Samples.duplicate_file])
           {| url := Some "https://example/x.esd"; size := float_of_int 4 |}).
  vm_compute. reflexivity.
Defined.

(** C2, as stated, fails: for the catalog of the end-to-end scenario the
    resolver keeps the size 4.0 and not 4294967296. *)
Lemma scenario_size_is_scaled :
  find_edition Samples.host_full enterprise_n
    (findall_desc "File" (Samples.catalog [Samples.scenario_file]))
  = Ok (Some {| url := Some "https://example/x.esd";
                size := float_of_int 4 |})
  /\ float_of_int 4 <> float_of_int 4294967296.
Proof. split; [vm_compute; reflexivity | vm_compute; discriminate]. Qed.

(** C3: a record that matches the query and lacks the download address is
    not passed over: reading its address raises [AttributeError], also when a
    complete record follows, and the exception ends [main]. *)
Theorem missing_url_raises :
  find "FilePath" Samples.no_url_file = None
  /\ exact_match enterprise_n Samples.no_url_file
  /\ find_edition Samples.host_no_url enterprise_n
       (findall_desc "File"
          (Samples.catalog [Samples.no_url_file; Samples.scenario_file]))
     = Raise AttributeError
  /\ snd (main Samples.host_no_url Samples.empty_state) = Raise AttributeError.
Proof.
  repeat split; try (vm_compute; reflexivity).
  apply matches_exact. vm_compute. reflexivity.
Qed.

End Matching.

(* ===================================================================== *)
(** * Relations kept by a computation *)
(* ===================================================================== *)

Section Preserves.
Import Py.
Context {S : Type} (R : S -> S -> Prop).
Hypothesis R_refl : forall s, R s s.
Hypothesis R_trans : forall a b c, R a b -> R b c -> R a c.

Lemma preserves_ret {A} (a : A) : preserves R (ret a).
Proof. intros s. apply R_refl. Qed.

Lemma preserves_raise {A} (e : exn) : preserves R (@raise S A e).
Proof. intros s. apply R_refl. Qed.

Lemma preserves_lift {A} (r : res A) : preserves R (lift r).
Proof. intros s. apply R_refl. Qed.

Lemma preserves_read {A} (f : S -> res A) : preserves R (fun s => (s, f s)).
Proof. intros s. apply R_refl. Qed.

(** The continuation needs to keep [R] only from the states it is run in. *)
Lemma bind_keeps {A B} (m : M S A) (k : A -> M S B) (s : S) :
  R s (fst (m s)) ->
  (forall a, snd (m s) = Ok a -> R (fst (m s)) (fst (k a (fst (m s))))) ->
  R s (fst (bind m k s)).
Proof.
  unfold bind. destruct (m s) as [s' [a|e]]; simpl; intros H1 H2.
  - eapply R_trans; [exact H1 | now apply H2].
  - exact H1.
Qed.

Lemma preserves_bind {A B} (m : M S A) (k : A -> M S B) :
  preserves R m -> (forall a, preserves R (k a)) -> preserves R (bind m k).
Proof. intros Hm Hk s. apply bind_keeps; [apply Hm | intros a _; apply Hk]. Qed.

Lemma preserves_try_except {A} (body handler : M S A) (c : exn -> bool) :
  preserves R body -> preserves R handler ->
  preserves R (try_except body c handler).
Proof.
  intros Hb Hh s. unfold try_except. specialize (Hb s).
  destruct (body s) as [s' [a|e]]; simpl in *; [exact Hb|].
  destruct (c e); [|exact Hb].
  eapply R_trans; [exact Hb | apply Hh].
Qed.

Lemma preserves_try_finally {A} (body : M S A) (fin : M S unit) :
  preserves R body -> preserves R fin -> preserves R (try_finally body fin).
Proof.
  intros Hb Hf s. unfold try_finally. specialize (Hb s).
  destruct (body s) as [s1 r]. specialize (Hf s1). simpl in *.
  destruct (fin s1) as [s2 [[]|e]]; simpl in *; eapply R_trans; eassumption.
Qed.

End Preserves.

Lemma preserves_weaken {S A} (R R' : S -> S -> Prop) (m : Py.M S A) :
  (forall s s', R s s' -> R' s s') -> Py.preserves R m -> Py.preserves R' m.
Proof. intros H Hm s. apply H, Hm. Qed.

(** The final state of [try]/[finally] is the one its [finally] block left. *)
Lemma try_finally_state {S A} (body : Py.M S A) (fin : Py.M S unit) (s : S) :
  fst (Py.try_finally body fin s) = fst (fin (fst (body s))).
Proof.
  unfold Py.try_finally. destruct (body s) as [s1 r]. simpl.
  destruct (fin s1) as [s2 [[]|e]]; reflexivity.
Qed.

(* ===================================================================== *)
(** * What [main] does to the file system *)
(* ===================================================================== *)

Section Files.
Import Py Esd EsdSpec.

Ltac keep_step rf tr :=
  lazymatch goal with
  | |- preserves _ (bind _ _) => apply (preserves_bind _ tr); [|intros ?]
  | |- preserves _ (ret _) => apply (preserves_ret _ rf)
  | |- preserves _ (raise _) => apply (preserves_raise _ rf)
  | |- preserves _ (lift _) => apply (preserves_lift _ rf)
  | |- preserves _ (try_except _ _ _) => apply (preserves_try_except _ tr)
  | |- preserves _ (try_finally _ _) => apply (preserves_try_finally _ tr)
  | |- preserves _ (if ?b then _ else _) => destruct b
  | |- preserves _ (match ?x with _ => _ end) => destruct x
  end.

(** ** [quiet] *)

Lemma quiet_refl (st : state) : quiet st st.
Proof. split; [reflexivity | auto]. Qed.

Lemma quiet_trans (a b c : state) : quiet a b -> quiet b c -> quiet a c.
Proof. intros [F1 L1] [F2 L2]. split; [congruence | auto]. Qed.

Lemma quiet_logged (st : state) (evs : list event) :
  forallb (fun ev => negb (is_get ev)) evs = true -> quiet st (logged st evs).
Proof.
  intros H. split; [reflexivity|]. simpl. intros u f Hin.
  apply in_app_iff in Hin as [Hin|Hin]; [exact Hin|].
  rewrite forallb_forall in H. specialize (H _ Hin). discriminate.
Qed.

Lemma quiet_emit (ev : event) : is_get ev = false -> preserves quiet (emit ev).
Proof.
  intros H st. apply (quiet_logged st [ev]). simpl. now rewrite H.
Qed.

Lemma quiet_print (line : string) : preserves quiet (print line).
Proof. now apply quiet_emit. Qed.

Lemma quiet_subprocess_run (w : world) (t : tool) (argv : list string) :
  preserves quiet (subprocess_run w t argv).
Proof.
  unfold subprocess_run. keep_step quiet_refl quiet_trans.
  - now apply quiet_emit.
  - repeat keep_step quiet_refl quiet_trans.
Qed.

Lemma quiet_check_tools (w : world) : preserves quiet (check_tools w).
Proof.
  unfold check_tools, has_tool.
  repeat (keep_step quiet_refl quiet_trans);
    auto using quiet_subprocess_run, quiet_print.
Qed.

Lemma quiet_extract (w : world) (cab_path : string) :
  preserves quiet (extract_xml_from_cab w cab_path).
Proof.
  intros st. rewrite extract_spec. cbv zeta.
  repeat match goal with
         | |- context [match ?x with _ => _ end] => destruct x
         end; apply quiet_logged; reflexivity.
Qed.

(** ** [same_at] *)

Lemma same_at_refl (p : string) (st : state) : same_at p st st.
Proof. reflexivity. Qed.

Lemma same_at_trans (p : string) (a b c : state) :
  same_at p a b -> same_at p b c -> same_at p a c.
Proof. unfold same_at. congruence. Qed.

Lemma quiet_same_at (p : string) (st st' : state) :
  quiet st st' -> same_at p st st'.
Proof. intros [F _]. unfold same_at. now rewrite F. Qed.

Lemma same_at_write (p path data : string) :
  p <> path -> preserves (same_at p) (write_file path data).
Proof. intros H st. unfold same_at. simpl. now rewrite lookup_insert_ne. Qed.

Lemma same_at_emit (p : string) (ev : event) :
  preserves (same_at p) (emit ev).
Proof. intros st. reflexivity. Qed.

Lemma same_at_download (w : world) (p : string) (url : option string)
    (filename : string) :
  p <> filename -> preserves (same_at p) (download_file w url filename).
Proof.
  intros H. unfold download_file.
  repeat (keep_step (same_at_refl p) (same_at_trans p));
    auto using same_at_write, same_at_emit.
Qed.

(** ** [keeps_esd] *)

Lemma keeps_esd_refl (st : state) : keeps_esd st st.
Proof. intros _. split; [reflexivity | auto]. Qed.

Lemma keeps_esd_trans (a b c : state) :
  keeps_esd a b -> keeps_esd b c -> keeps_esd a c.
Proof.
  intros H1 H2 Ha. destruct (H1 Ha) as [F1 L1].
  assert (Hb : is_Some (fs b !! "win.esd")) by now rewrite F1.
  destruct (H2 Hb) as [F2 L2]. split; [congruence|].
  intros u f Hu. destruct (L2 u f Hu) as [H|H]; auto.
Qed.

Lemma quiet_keeps_esd (st st' : state) : quiet st st' -> keeps_esd st st'.
Proof. intros [F L] _. split; [now rewrite F | auto]. Qed.

Lemma keeps_esd_write (path data : string) :
  path <> "win.esd" -> preserves keeps_esd (write_file path data).
Proof.
  intros H st _. simpl. split; [now rewrite lookup_insert_ne | auto].
Qed.

Lemma keeps_esd_get (u filename : string) :
  filename <> "win.esd" -> preserves keeps_esd (emit (HttpGet u filename)).
Proof.
  intros H st _. simpl. split; [reflexivity|].
  intros u' f Hu. apply in_app_iff in Hu as [Hu|[[= <- <-]|[]]]; auto.
Qed.

Lemma keeps_esd_download (w : world) (url : option string)
    (filename : string) :
  filename <> "win.esd" ->
  preserves keeps_esd (download_file w url filename).
Proof.
  intros H. unfold download_file.
  repeat (keep_step keeps_esd_refl keeps_esd_trans);
    auto using keeps_esd_write, keeps_esd_get.
Qed.

(** ** [unlink] *)

Lemma unlink_absent (path : string) (st : state) :
  fs (fst (unlink path st)) !! path = None.
Proof.
  unfold unlink, bind, emit. simpl.
  destruct (fs st !! path) eqn:E; simpl; [apply lookup_delete_eq | exact E].
Qed.

Lemma same_at_unlink (p path : string) :
  p <> path -> preserves (same_at p) (unlink path).
Proof.
  intros H st. unfold same_at, unlink, bind, emit. simpl.
  destruct (fs st !! path); simpl; [now rewrite lookup_delete_ne | reflexivity].
Qed.

Lemma keeps_esd_unlink (path : string) :
  path <> "win.esd" -> preserves keeps_esd (unlink path).
Proof.
  intros H st _. unfold unlink, bind, emit. simpl.
  assert (L : forall u f, In (HttpGet u f) (log st ++ [Unlink path]) ->
                          In (HttpGet u f) (log st) \/ f <> "win.esd").
  { intros u f Hu. apply in_app_iff in Hu as [Hu|[[=]|[]]]. auto. }
  destruct (fs st !! path); simpl; split; auto.
  now rewrite lookup_delete_ne.
Qed.

(** ** The temporary name *)

Lemma cab_tmp_name_length (w : world) :
  (8 <= String.length (cab_tmp_name w))%nat.
Proof. unfold cab_tmp_name. rewrite !length_app. simpl. lia. Qed.

Lemma cab_tmp_name_not_esd (w : world) : cab_tmp_name w <> "win.esd".
Proof.
  intros H. pose proof (cab_tmp_name_length w) as L. rewrite H in L.
  simpl in L. lia.
Qed.

Lemma cab_tmp_name_not_wim (w : world) : cab_tmp_name w <> "win.wim".
Proof.
  intros H. pose proof (cab_tmp_name_length w) as L. rewrite H in L.
  simpl in L. lia.
Qed.

(** ** After the catalog has been parsed *)

Lemma same_at_after_parse (w : world) (root : element) (p : string) :
  p <> "win.esd" -> p <> "win.wim" ->
  preserves (same_at p) (main_after_parse w root).
Proof.
  intros H1 H2. unfold main_after_parse, path_exists, subprocess_run, print.
  repeat (keep_step (same_at_refl p) (same_at_trans p));
    auto using same_at_write, same_at_emit, same_at_download;
    try apply (preserves_read _ (same_at_refl p)).
Qed.

Lemma keeps_esd_emit (ev : event) :
  is_get ev = false -> preserves keeps_esd (emit ev).
Proof.
  intros H. apply (preserves_weaken quiet); [apply quiet_keeps_esd|].
  now apply quiet_emit.
Qed.

Lemma keeps_esd_after_parse (w : world) (root : element) :
  preserves keeps_esd (main_after_parse w root).
Proof.
  unfold main_after_parse, print.
  do 2 (keep_step keeps_esd_refl keeps_esd_trans;
        [first [now apply keeps_esd_emit
               | apply (preserves_lift _ keeps_esd_refl)]|]).
  keep_step keeps_esd_refl keeps_esd_trans.
  2:{ repeat (keep_step keeps_esd_refl keeps_esd_trans);
        now apply keeps_esd_emit. }
  keep_step keeps_esd_refl keeps_esd_trans; [now apply keeps_esd_emit|].
  match goal with
  | |- preserves _ (bind _ ?k) => assert (Hk : preserves keeps_esd (k true))
  end.
  { cbv beta. unfold subprocess_run.
    repeat (keep_step keeps_esd_refl keeps_esd_trans);
      try (now apply keeps_esd_emit);
      try apply (preserves_read _ keeps_esd_refl).
    apply keeps_esd_write. discriminate. }
  intros st.
  match goal with
  | |- keeps_esd _ (fst (bind ?m ?k _)) =>
      assert (E : is_Some (fs st !! "win.esd") -> bind m k st = k true st)
  end.
  { intros Hs. unfold bind at 1, path_exists. cbv beta iota.
    now rewrite bool_decide_eq_true_2. }
  intros Hsome. rewrite (E Hsome). exact (Hk st Hsome).
Qed.

(** ** The whole of [main] *)

Lemma keeps_esd_main (w : world) : preserves keeps_esd (main w).
Proof.
  pose proof (cab_tmp_name_not_esd w) as Hne.
  unfold main, print.
  repeat (keep_step keeps_esd_refl keeps_esd_trans);
    auto using keeps_esd_write, keeps_esd_download, keeps_esd_unlink,
      keeps_esd_after_parse;
    try (now apply keeps_esd_emit);
    apply (preserves_weaken quiet); try apply quiet_keeps_esd;
    auto using quiet_check_tools, quiet_extract.
Qed.

(** C9: when [win.esd] is there at the start, whatever it holds, the program
    requests nothing to be stored in it and leaves its contents as they were,
    however the run ends. *)
Theorem existing_esd_is_kept (w : world) (st : state) (c : string) :
  fs st !! "win.esd" = Some c ->
  fs (fst (main w st)) !! "win.esd" = Some c
  /\ forall u, In (HttpGet u "win.esd") (log (fst (main w st))) ->
                In (HttpGet u "win.esd") (log st).
Proof.
  intros H. destruct (keeps_esd_main w st) as [F L]; [rewrite H; eauto|].
  split; [now rewrite F|].
  intros u Hu. destruct (L _ _ Hu) as [Hin|Hne]; [exact Hin | now destruct Hne].
Qed.

Lemma existing_esd_is_kept_witness :
  fs (fst (main Samples.host_full Samples.state_with_esd)) !! "win.esd"
  = Some "left over from an earlier run"
  /\ forall u,
       In (HttpGet u "win.esd")
          (log (fst (main Samples.host_full Samples.state_with_esd))) ->
       In (HttpGet u "win.esd") (log Samples.state_with_esd).
Proof.
  apply (existing_esd_is_kept Samples.host_full Samples.state_with_esd).
  vm_compute. reflexivity.
Defined.

(** ** The temporary archive *)

Lemma bind_ok {S A B} (m : M S A) (k : A -> M S B) (s s' : S) (a : A) :
  m s = (s', Ok a) -> bind m k s = k a s'.
Proof. intros H. unfold bind. now rewrite H. Qed.

Lemma check_tools_passes (w : world) (st : state) :
  installed w which = true ->
  installed w cabextract || installed w tar = true ->
  installed w wimlib_imagex = true ->
  snd (check_tools w st) = Ok true.
Proof.
  intros Hw Hc Hi.
  unfold check_tools, has_tool, subprocess_run, bind, emit, ret, raise, print.
  rewrite Hw. simpl. rewrite Hi.
  destruct (installed w cabextract), (installed w tar);
    try discriminate; reflexivity.
Qed.

(** Whatever the protected block and the rest of the program do, the file
    that the [finally] block unlinks is gone at the end. *)
Lemma gone_after_finally {A B} (body : M state A) (k : A -> M state B)
    (p : string) (s : state) :
  (forall a, preserves (same_at p) (k a)) ->
  fs (fst (bind (try_finally body (unlink p)) k s)) !! p = None.
Proof.
  intros Hk. unfold bind.
  pose proof (try_finally_state body (unlink p) s) as E.
  pose proof (unlink_absent p (fst (body s))) as U. rewrite <- E in U.
  destruct (try_finally body (unlink p) s) as [s' [a|e]]; simpl in *;
    [|exact U].
  rewrite <- U. apply Hk.
Qed.

(** C4: once [check_tools] has passed and the catalog archive has been
    downloaded, the temporary archive is gone when [main] ends, however it
    ends: with a converted image, without a match, or with an exception of
    the extraction, of the parser or of anything after them. *)
Theorem catalog_archive_is_removed (w : world) (st : state) (body : string) :
  installed w which = true ->
  installed w cabextract || installed w tar = true ->
  installed w wimlib_imagex = true ->
  http w cab_url = FetchOk body ->
  fs (fst (main w st)) !! cab_tmp_name w = None.
Proof.
  intros Hw Hc Hi Hget. unfold main.
  pose proof (check_tools_passes w st Hw Hc Hi) as Hck.
  destruct (check_tools w st) as [s1 r1] eqn:E1. simpl in Hck. subst r1.
  rewrite (bind_ok _ _ _ _ _ E1).
  erewrite bind_ok by reflexivity.
  erewrite bind_ok by reflexivity.
  erewrite bind_ok
    by (unfold download_file, bind, emit; rewrite Hget; reflexivity).
  apply gone_after_finally. intros root.
  apply same_at_after_parse;
    [apply cab_tmp_name_not_esd | apply cab_tmp_name_not_wim].
Qed.

(** A download that breaks off is outside the protected block: what was
    written of the archive stays behind. *)
Lemma broken_download_leaves_archive (w : world) (st : state)
    (written : string) :
  installed w which = true ->
  installed w cabextract || installed w tar = true ->
  installed w wimlib_imagex = true ->
  http w cab_url = FetchBreaks written ->
  snd (main w st) = Raise RequestException
  /\ fs (fst (main w st)) !! cab_tmp_name w = Some written.
Proof.
  intros Hw Hc Hi Hget. unfold main.
  pose proof (check_tools_passes w st Hw Hc Hi) as Hck.
  destruct (check_tools w st) as [s1 r1] eqn:E1. simpl in Hck. subst r1.
  rewrite (bind_ok _ _ _ _ _ E1).
  erewrite bind_ok by reflexivity.
  erewrite bind_ok by reflexivity.
  unfold bind at 1. unfold download_file, bind, emit, write_file, raise.
  rewrite Hget. simpl. split; [reflexivity|]. apply lookup_insert_eq.
Qed.

Lemma catalog_archive_is_removed_witness :
  fs (fst (main Samples.host_full Samples.empty_state))
    !! cab_tmp_name Samples.host_full = None.
Proof.
  apply (catalog_archive_is_removed Samples.host_full Samples.empty_state
           ("MSCF" +:+ Samples.doc)); reflexivity.
Defined.

End Files.

(* ===================================================================== *)
(** * The heuristic resolver *)
(* ===================================================================== *)

Section Heuristic.
Import Py Iso IsoSpec.

(** ** Opening a URL *)

Lemma open_url_ascii {A} (send : string -> probe_error + A) (url : string) :
  is_ascii url = true ->
  open_url send url
  = match send url with
    | inl e => Raise (exn_of e)
    | inr a => Ok a
    end.
Proof. intros H. unfold open_url. now rewrite H. Qed.

Lemma exn_of_is_Exception (e : probe_error) : is_Exception (exn_of e) = true.
Proof. now destruct e. Qed.

(** What [urlopen] raises is caught by [except Exception]. *)
Lemma open_url_is_Exception {A} (send : string -> probe_error + A)
    (url : string) (e : exn) :
  open_url send url = Raise e -> is_Exception e = true.
Proof.
  unfold open_url. destruct (is_ascii url); [|now intros [= <-]].
  destruct (send url) as [pe|a]; [|discriminate].
  intros [= <-]. apply exn_of_is_Exception.
Qed.

Lemma open_url_fails {A} (send : string -> probe_error + A) (url : string) :
  (exists e, send url = inl e) -> exists e, open_url send url = Raise e.
Proof.
  intros [e He]. unfold open_url. rewrite He.
  destruct (is_ascii url); eauto.
Qed.

Lemma open_url_Ok {A} (send : string -> probe_error + A) (url : string)
    (a : A) :
  open_url send url = Ok a -> is_ascii url = true /\ send url = inr a.
Proof.
  unfold open_url. destruct (is_ascii url); [|discriminate].
  destruct (send url); [discriminate|]. now intros [= <-].
Qed.

Lemma is_ascii_app (a b : string) :
  is_ascii (a +:+ b) = is_ascii a && is_ascii b.
Proof.
  induction a as [|c a IH]; [reflexivity|].
  rewrite app_cons. simpl. rewrite IH. now rewrite andb_assoc.
Qed.

(** The addresses the script has in it are ASCII. *)
Lemma api_endpoints_ascii (endpoint : string) :
  In endpoint api_endpoints -> is_ascii endpoint = true.
Proof.
  assert (H : forallb is_ascii api_endpoints = true) by (vm_compute; reflexivity).
  rewrite forallb_forall in H. apply H.
Qed.

Lemma candidates_ascii (u : string) :
  In u (candidates base_urls iso_names) -> is_ascii u = true.
Proof.
  assert (H : forallb is_ascii (candidates base_urls iso_names) = true)
    by (vm_compute; reflexivity).
  rewrite forallb_forall in H. apply H.
Qed.

(** ** Stage 1 *)

Lemma linkid_loop_spec (n : net) (linkids : list string) :
  forall l,
    linkid_loop n linkids l
    = (l ++ linkid_log n linkids,
       Ok (option_map fwlink (List.find (linkid_ok n) linkids))).
Proof.
  induction linkids as [|linkid rest IH]; intros l.
  - simpl. unfold ret. now rewrite app_nil_r.
  - cbn [linkid_loop linkid_log List.find].
    assert (Hok : linkid_ok n linkid
                  = match open_url (head n) (fwlink linkid) with
                    | Ok r => contains ".iso" (resp_url r)
                    | Raise _ => false
                    end) by reflexivity.
    unfold try_except, urlopen_head, print, bind, emit, raise, ret, lift,
      any_exn.
    destruct (open_url (head n) (fwlink linkid)) as [r|e]; rewrite Hok;
      cbv beta iota.
    + destruct (contains ".iso" (resp_url r)); cbv beta iota.
      * cbn [option_map]. rewrite <- !app_assoc. reflexivity.
      * rewrite IH, <- !app_assoc. reflexivity.
    + rewrite IH, <- !app_assoc. reflexivity.
Qed.

(** An endpoint whose request fails yields nothing and costs one request. *)
Lemma probe_endpoint_get_fails (n : net) (endpoint : string) (l : log) :
  get_fails n endpoint ->
  probe_endpoint n endpoint l = (l ++ [Get endpoint], Ok None).
Proof.
  intros He. destruct (open_url_fails _ _ He) as [e Hr].
  pose proof (open_url_is_Exception _ _ _ Hr) as Hx.
  unfold probe_endpoint, try_except, urlopen_get.
  unfold bind at 1. unfold bind at 1. unfold bind at 1, emit, lift.
  rewrite Hr. cbv beta iota. now rewrite Hx.
Qed.

(** An endpoint whose body holds no direct address is searched for link
    identifiers, which are then probed in their order. *)
Lemma probe_endpoint_linkids (n : net) (endpoint body : string) (l : log) :
  open_url (get n) endpoint = Ok body ->
  utf8_valid body = true ->
  findall iso_url_re whole body = [] ->
  probe_endpoint n endpoint l
  = linkid_loop n (findall (linkid_re (decimal n)) group1 body)
      (l ++ [Get endpoint]).
Proof.
  intros Hg Hu Hi. unfold probe_endpoint, try_except, urlopen_get.
  unfold bind at 1. unfold bind at 1. unfold bind at 1, emit, lift.
  rewrite Hg. cbv beta iota. unfold bind at 1, decode_utf8.
  rewrite Hu, Hi.
  now rewrite linkid_loop_spec.
Qed.

(** The body of the endpoint loop never raises. *)
Lemma probe_endpoint_total (n : net) (endpoint : string) (l : log) :
  exists r, snd (probe_endpoint n endpoint l) = Ok r.
Proof.
  unfold probe_endpoint, try_except, urlopen_get.
  unfold bind at 1. unfold bind at 1. unfold bind at 1, emit, lift.
  destruct (open_url (get n) endpoint) as [body|e] eqn:Hr; cbv beta iota.
  - unfold bind at 1, decode_utf8.
    destruct (utf8_valid body); cbv beta iota; [|simpl; eauto].
    destruct (findall iso_url_re whole body) as [|u us].
    + rewrite linkid_loop_spec. simpl. eauto.
    + unfold bind, print, emit, ret. simpl. eauto.
  - rewrite (open_url_is_Exception _ _ _ Hr). simpl. eauto.
Qed.

Lemma endpoint_loop_total (n : net) (endpoints : list string) :
  forall l, exists r, snd (endpoint_loop n endpoints l) = Ok r.
Proof.
  induction endpoints as [|e es IH]; intros l; simpl.
  - unfold ret. simpl. eauto.
  - unfold bind. destruct (probe_endpoint_total n e l) as [r Hr].
    destruct (probe_endpoint n e l) as [l' r']. simpl in Hr. subst r'.
    destruct r as [u|]; [unfold ret; simpl; eauto | apply IH].
Qed.

Lemma endpoint_loop_skips_failed (n : net) (pre rest : list string) :
  Forall (get_fails n) pre ->
  forall l,
    endpoint_loop n (pre ++ rest) l
    = endpoint_loop n rest (l ++ List.map Get pre).
Proof.
  induction 1 as [|e pre He _ IH]; intros l; simpl.
  - now rewrite app_nil_r.
  - unfold bind at 1. rewrite (probe_endpoint_get_fails n e l He).
    rewrite IH, <- app_assoc. reflexivity.
Qed.

(** Endpoints that yield nothing, for whatever reason, are passed over: the
    loop goes on with the next one. *)
Lemma endpoint_loop_skips_useless (n : net) (pre rest : list string) :
  Forall (fun e => forall l, snd (probe_endpoint n e l) = Ok None) pre ->
  forall l, exists l',
    endpoint_loop n (pre ++ rest) l = endpoint_loop n rest l'.
Proof.
  induction 1 as [|e pre He _ IH]; intros l; [now exists l|].
  simpl. unfold bind at 1. specialize (He l).
  destruct (probe_endpoint n e l) as [l1 r]. simpl in He. subst r.
  apply IH.
Qed.

(** ** Stage 2 *)

Lemma iso_loop_spec (n : net) (base : string) (isos : list string) :
  forall l,
    iso_loop n base isos l
    = (l ++ probe_log n (List.map (fun iso => base +:+ iso) isos),
       Ok (List.find (probe_ok n) (List.map (fun iso => base +:+ iso) isos))).
Proof.
  induction isos as [|iso rest IH]; intros l.
  - simpl. unfold ret. now rewrite app_nil_r.
  - cbn [iso_loop probe_log List.find List.map].
    assert (Hok : probe_ok n (base +:+ iso)
                  = match open_url (head n) (base +:+ iso) with
                    | Ok r => status r =? 200
                    | Raise _ => false
                    end) by reflexivity.
    unfold try_except, urlopen_head, print, bind, emit, raise, ret, lift,
      any_exn.
    destruct (open_url (head n) (base +:+ iso)) as [r|e]; rewrite Hok;
      cbv beta iota.
    + destruct (status r =? 200); cbv beta iota.
      * rewrite <- !app_assoc. reflexivity.
      * rewrite IH, <- !app_assoc. reflexivity.
    + rewrite IH, <- !app_assoc. reflexivity.
Qed.

Lemma find_app_str (f : string -> bool) (a b : list string) :
  List.find f (a ++ b)
  = match List.find f a with
    | Some x => Some x
    | None => List.find f b
    end.
Proof.
  induction a as [|x a IH]; simpl; [reflexivity|]. now destruct (f x).
Qed.

Lemma probe_log_app (n : net) (a b : list string) :
  probe_log n (a ++ b)
  = probe_log n a
    ++ match List.find (probe_ok n) a with
       | Some _ => []
       | None => probe_log n b
       end.
Proof.
  induction a as [|x a IH]; simpl; [reflexivity|].
  destruct (probe_ok n x); simpl; [reflexivity | now rewrite IH].
Qed.

(** The two nested loops are one pass over the cartesian product. *)
Lemma base_loop_spec (n : net) (bases isos : list string) :
  forall l,
    base_loop n bases isos l
    = (l ++ probe_log n (candidates bases isos),
       Ok (List.find (probe_ok n) (candidates bases isos))).
Proof.
  induction bases as [|base rest IH]; intros l.
  - simpl. unfold ret. now rewrite app_nil_r.
  - simpl. unfold bind. rewrite iso_loop_spec.
    fold (candidates rest isos). rewrite find_app_str, probe_log_app.
    destruct (List.find (probe_ok n) (List.map (fun iso => base +:+ iso) isos)).
    + unfold ret. now rewrite app_nil_r.
    + rewrite IH, <- app_assoc. reflexivity.
Qed.

Lemma probe_log_first (n : net) (pre post : list string) (u : string) :
  forallb (fun x => negb (probe_ok n x)) pre = true ->
  probe_ok n u = true ->
  probe_log n (pre ++ u :: post)
  = List.map Head pre ++ [Head u; Print ("Found working ISO URL: " +:+ u)]
  /\ List.find (probe_ok n) (pre ++ u :: post) = Some u.
Proof.
  intros Hpre Hu. induction pre as [|x pre IH]; simpl in *.
  - now rewrite Hu.
  - apply andb_true_iff in Hpre as [Hx Hpre]. apply negb_true_iff in Hx.
    rewrite Hx. destruct (IH Hpre) as [-> ->]. split; reflexivity.
Qed.

Lemma probe_log_none (n : net) (urls : list string) :
  Forall (head_fails n) urls ->
  probe_log n urls = List.map Head urls
  /\ List.find (probe_ok n) urls = None.
Proof.
  induction 1 as [|u urls He _ [IH1 IH2]]; [split; reflexivity|].
  assert (Hu : probe_ok n u = false).
  { unfold probe_ok. destruct (open_url_fails _ _ He) as [e ->]. reflexivity. }
  cbn [probe_log List.find List.map]. rewrite Hu, IH1, IH2.
  split; reflexivity.
Qed.

(** A probe that is answered with another status than 200 is a miss. *)
Lemma probe_ok_other_status (n : net) (u : string) :
  (forall r, head n u = inr r -> status r <> 200) -> probe_ok n u = false.
Proof.
  intros H. unfold probe_ok.
  destruct (open_url (head n) u) as [r|e] eqn:E; [|reflexivity].
  apply open_url_Ok in E as [_ E]. apply Z.eqb_neq. exact (H r E).
Qed.

(** ** The three stages together *)

Lemma resolver_spec (n : net) (l : log) :
  get_windows_iso_url n l
  = match stage1 n (l ++ [searching]) with
    | (l1, Ok (Some u)) => (l1, Ok u)
    | (l1, Ok None) =>
        (l1 ++ fst (after_stage1 n), Ok (snd (after_stage1 n)))
    | (l1, Raise e) => (l1, Raise e)
    end.
Proof.
  unfold get_windows_iso_url. unfold bind at 1, print, emit. unfold bind at 1.
  fold searching.
  destruct (stage1 n (l ++ [searching])) as [l1 [[u|]|e]]; try reflexivity.
  unfold bind at 1, emit. unfold bind at 1, stage2.
  rewrite base_loop_spec. unfold after_stage1, checking, falling_back.
  destruct (List.find (probe_ok n) (candidates base_urls iso_names)); simpl.
  - unfold ret. rewrite <- app_assoc. reflexivity.
  - unfold bind, emit, ret. simpl. rewrite <- !app_assoc. reflexivity.
Qed.

(** C5: the heuristic resolver returns a URL for every behaviour of the
    network and never raises; when every request of stage 1 and every probe
    of stage 2 fails or times out, the URL is the fixed fallback. *)
Theorem resolver_is_total (n : net) (l : log) :
  (exists u, snd (get_windows_iso_url n l) = Ok u)
  /\ (Forall (get_fails n) api_endpoints ->
      Forall (head_fails n) (candidates base_urls iso_names) ->
      get_windows_iso_url n l
      = (l ++ searching :: List.map Get api_endpoints
           ++ checking :: List.map Head (candidates base_urls iso_names)
           ++ [falling_back],
         Ok fallback_url)).
Proof.
  split.
  - rewrite resolver_spec.
    destruct (endpoint_loop_total n api_endpoints (l ++ [searching])) as [r Hr].
    unfold stage1. destruct (endpoint_loop n api_endpoints (l ++ [searching]))
      as [l1 r1]. simpl in Hr. subst r1.
    destruct r as [u|]; simpl; eauto.
  - intros Hg Hh. rewrite resolver_spec. unfold stage1.
    rewrite <- (app_nil_r api_endpoints) at 1.
    rewrite (endpoint_loop_skips_failed n api_endpoints [] Hg).
    cbn [endpoint_loop]. unfold ret.
    destruct (probe_log_none n _ Hh) as [Hlog Hfind].
    unfold after_stage1. rewrite Hfind, Hlog. cbn [fst snd].
    rewrite <- !app_assoc. reflexivity.
Qed.

Lemma resolver_is_total_witness :
  (exists u, snd (get_windows_iso_url Samples.dead_net []) = Ok u)
  /\ snd (get_windows_iso_url Samples.dead_net []) = Ok fallback_url.
Proof.
  destruct (resolver_is_total Samples.dead_net []) as [H1 H2].
  split; [exact H1|].
  rewrite H2; [reflexivity | |];
    repeat constructor; exists ProbeTimeout; reflexivity.
Defined.

(** C6 (amended): when stage 1 yields nothing, stage 2 probes the cartesian
    product of base paths and file names, base path first, with HEAD requests
    in that order, and returns the first URL whose probe is answered with
    status 200; a probe that fails or is answered with any other status, a
    success status other than 200 among them, is a miss.  Nothing is probed
    after the hit and the fallback of stage 3 is not reached. *)
Theorem stage2_returns_first_hit (n : net) (l l1 : log)
    (pre post : list string) (u : string) (r : response) :
  stage1 n (l ++ [searching]) = (l1, Ok None) ->
  candidates base_urls iso_names = pre ++ u :: post ->
  Forall (fun x => forall rx, head n x = inr rx -> status rx <> 200) pre ->
  head n u = inr r ->
  status r = 200 ->
  let evs := checking :: List.map Head pre
             ++ [Head u; Print ("Found working ISO URL: " +:+ u)] in
  get_windows_iso_url n l = (l1 ++ evs, Ok u)
  /\ ~ In falling_back evs.
Proof.
  intros H1 Hc Hpre Hu Hs evs. split.
  - rewrite resolver_spec, H1. unfold after_stage1. rewrite Hc.
    assert (Hpre' : forallb (fun x => negb (probe_ok n x)) pre = true).
    { apply forallb_forall. intros x Hx. rewrite List.Forall_forall in Hpre.
      now rewrite (probe_ok_other_status n x (Hpre x Hx)). }
    assert (Hu' : probe_ok n u = true).
    { unfold probe_ok. rewrite open_url_ascii, Hu; [now apply Z.eqb_eq|].
      apply candidates_ascii. rewrite Hc. apply in_elt. }
    destruct (probe_log_first n pre post u Hpre' Hu') as [-> ->]. reflexivity.
  - subst evs. unfold falling_back, checking. intros [H|H]; [discriminate|].
    apply in_app_iff in H as [H|[H|[H|[]]]]; try discriminate.
    apply in_map_iff in H as (x & Hx & _). discriminate.
Qed.

Lemma stage2_returns_first_hit_witness :
  get_windows_iso_url Samples.cdn_net []
  = ([searching] ++ List.map Get api_endpoints
       ++ checking :: List.map Head (firstn 7 (candidates base_urls iso_names))
       ++ [Head Samples.second_base_third_name;
           Print ("Found working ISO URL: " +:+ Samples.second_base_third_name)],
     Ok Samples.second_base_third_name)
  /\ ~ In falling_back
        (checking :: List.map Head (firstn 7 (candidates base_urls iso_names))
         ++ [Head Samples.second_base_third_name;
             Print ("Found working ISO URL: "
                    +:+ Samples.second_base_third_name)]).
Proof.
  pose proof (stage2_returns_first_hit Samples.cdn_net []
                ([searching] ++ List.map Get api_endpoints)
                (firstn 7 (candidates base_urls iso_names))
                (skipn 8 (candidates base_urls iso_names))
                Samples.second_base_third_name
                {| resp_url := Samples.second_base_third_name;
                   status := 200 |}) as H.
  cbv zeta in H. rewrite app_assoc.
  apply H; try (vm_compute; reflexivity).
  repeat constructor; intros rx Hrx; vm_compute in Hrx;
    try discriminate; injection Hrx as <-; vm_compute; discriminate.
Defined.

(** C6, as stated, fails: no endpoint answers and every one of the fifteen
    guesses is answered with 204, a success status; stage 2 returns none of
    them and the resolver ends at the fallback of stage 3. *)
Lemma success_other_than_200_is_passed_over :
  stage1 MoreSamples.no_content_net [searching]
  = ([searching] ++ List.map Get api_endpoints, Ok None)
  /\ Forall (fun u => exists r, head MoreSamples.no_content_net u = inr r
                                /\ 200 <= status r < 300)
       (candidates base_urls iso_names)
  /\ get_windows_iso_url MoreSamples.no_content_net []
     = ([searching] ++ List.map Get api_endpoints
          ++ checking :: List.map Head (candidates base_urls iso_names)
          ++ [falling_back],
        Ok fallback_url).
Proof.
  split; [vm_compute; reflexivity|]. split; [|vm_compute; reflexivity].
  repeat constructor; eexists; (split; [reflexivity|]); cbn; lia.
Qed.

(** ** Link identifiers *)

Lemma digit_bytes_app (a b : string) :
  digit_bytes a = true -> digit_bytes b = true -> digit_bytes (a +:+ b) = true.
Proof.
  intros Ha Hb. induction a as [|c a IH]; [exact Hb|].
  rewrite app_cons. simpl in *. apply andb_true_iff in Ha as [Hc Ha].
  now rewrite Hc, IH.
Qed.

Lemma take_digit_bytes (ch : string) (r stop : option (string * list string))
    (m : string) (segs : list string) :
  digit_bytes ch = true ->
  (forall m' segs', r = Some (m', segs') -> digit_bytes m' = true) ->
  (forall m' segs', stop = Some (m', segs') -> digit_bytes m' = true) ->
  take ch r stop = Some (m, segs) -> digit_bytes m = true.
Proof.
  intros Hch Hr Hstop. unfold take. destruct r as [[m' segs']|].
  - intros [= <- _]. apply digit_bytes_app; [exact Hch | now apply (Hr m' segs')].
  - apply Hstop.
Qed.

Lemma in_range_high (lo hi : Z) (c : ascii) :
  128 <= lo -> in_range lo hi c = true -> (128 <=? code c) = true.
Proof.
  unfold in_range. intros Hlo H. apply andb_true_iff in H as [H _].
  apply Z.leb_le in H. apply Z.leb_le. lia.
Qed.

(** What the repetition of [\d] takes is made of ASCII digits and of
    characters outside ASCII. *)
Lemma dstar_digit_bytes (nd : string -> bool)
    (k : string -> option (list string)) (len : nat) :
  forall s m segs,
    (String.length s <= len)%nat ->
    dstar nd k s = Some (m, segs) -> digit_bytes m = true.
Proof.
  assert (Hstop : forall s m' segs',
            option_map (pair EmptyString) (k s) = Some (m', segs') ->
            digit_bytes m' = true).
  { intros s m' segs'. destruct (k s); [|discriminate]. now intros [= <- _]. }
  induction len as [|len IH]; intros s m segs Hlen.
  - destruct s; [|simpl in Hlen; lia]. apply Hstop.
  - destruct s as [|c0 s0]; [apply Hstop|]. cbn [dstar]. simpl in Hlen.
    destruct (digit c0) eqn:H0.
    { apply take_digit_bytes; [simpl; now rewrite H0 | | apply Hstop].
      intros m' segs'. apply IH. lia. }
    destruct s0 as [|c1 s1]; [apply Hstop|]. simpl in Hlen.
    destruct (in_range 194 223 c0 && cont c1) eqn:H1.
    { apply andb_true_iff in H1 as [Ha Hb].
      destruct (nd (str2 c0 c1)); [|apply Hstop].
      apply take_digit_bytes; [| | apply Hstop].
      - simpl. unfold cont in Hb.
        rewrite (in_range_high 194 223 _ ltac:(lia) Ha),
                (in_range_high 128 191 _ ltac:(lia) Hb), !orb_true_r.
        reflexivity.
      - intros m' segs'. apply IH. lia. }
    destruct s1 as [|c2 s2]; [apply Hstop|]. simpl in Hlen.
    destruct (in_range 224 239 c0 && cont c1 && cont c2) eqn:H2.
    { apply andb_true_iff in H2 as [H2 Hc]. apply andb_true_iff in H2 as [Ha Hb].
      destruct (nd (str3 c0 c1 c2)); [|apply Hstop].
      apply take_digit_bytes; [| | apply Hstop].
      - simpl. unfold cont in Hb, Hc.
        rewrite (in_range_high 224 239 _ ltac:(lia) Ha),
                (in_range_high 128 191 _ ltac:(lia) Hb),
                (in_range_high 128 191 _ ltac:(lia) Hc), !orb_true_r.
        reflexivity.
      - intros m' segs'. apply IH. lia. }
    destruct s2 as [|c3 s3]; [apply Hstop|]. simpl in Hlen.
    destruct (in_range 240 244 c0 && cont c1 && cont c2 && cont c3
              && nd (str4 c0 c1 c2 c3)) eqn:H3; [|apply Hstop].
    apply andb_true_iff in H3 as [H3 _]. apply andb_true_iff in H3 as [H3 Hd].
    apply andb_true_iff in H3 as [H3 Hc]. apply andb_true_iff in H3 as [Ha Hb].
    apply take_digit_bytes; [| | apply Hstop].
    + simpl. unfold cont in Hb, Hc, Hd.
      rewrite (in_range_high 240 244 _ ltac:(lia) Ha),
              (in_range_high 128 191 _ ltac:(lia) Hb),
              (in_range_high 128 191 _ ltac:(lia) Hc),
              (in_range_high 128 191 _ ltac:(lia) Hd), !orb_true_r.
      reflexivity.
    + intros m' segs'. apply IH. lia.
Qed.

(** What the group of the second pattern captures. *)
Lemma match_linkid_digits (nd : string -> bool) (s : string)
    (segs : list string) :
  match_items (linkid_re nd) s = Some segs ->
  digit_bytes (group1 segs) = true.
Proof.
  unfold linkid_re. cbn [match_items].
  destruct (match_lit "LinkID=" s) as [s'|]; [|discriminate].
  destruct (dstar nd (fun _ => Some []) s') as [[[|c m] segs']|] eqn:Hs;
    unfold option_map; cbv beta iota; try discriminate.
  intros [= <-]. unfold group1. cbn [nth].
  exact (dstar_digit_bytes _ _ _ _ _ _ (le_n _) Hs).
Qed.

Lemma findall_linkid_digits (nd : string -> bool) (s : string) :
  forall skip,
    Forall (fun id => digit_bytes id = true)
      (findall_go (linkid_re nd) group1 s skip).
Proof.
  induction s as [|c s IH]; intros skip; [constructor|].
  cbn [findall_go]. destruct skip as [|k]; [|apply IH].
  destruct (match_items (linkid_re nd) (String c s)) as [segs|] eqn:E;
    [|apply IH].
  constructor; [exact (match_linkid_digits _ _ _ E) | apply IH].
Qed.

(** An identifier that is ASCII is a string of the digits 0 to 9. *)
Lemma ascii_digit_bytes (s : string) :
  digit_bytes s = true -> is_ascii s = true -> all_digits s = true.
Proof.
  induction s as [|c s IH]; [reflexivity|]. simpl.
  intros H1 H2. apply andb_true_iff in H1 as [Hc H1].
  apply andb_true_iff in H2 as [Ha H2]. rewrite (IH H1 H2), andb_true_r.
  apply orb_true_iff in Hc as [Hc|Hc]; [exact Hc|].
  apply Z.leb_le in Hc. apply Z.ltb_lt in Ha. lia.
Qed.

(** An identifier whose probe can be sent is a string of the digits 0 to 9. *)
Lemma requested_linkid_digits (nd : string -> bool) (body linkid : string) :
  In linkid (findall (linkid_re nd) group1 body) ->
  is_ascii (fwlink linkid) = true ->
  all_digits linkid = true.
Proof.
  intros Hin Ha. apply ascii_digit_bytes.
  - pose proof (findall_linkid_digits nd body 0) as F.
    rewrite List.Forall_forall in F. exact (F linkid Hin).
  - unfold fwlink in Ha. rewrite is_ascii_app in Ha.
    now apply andb_true_iff in Ha as [_ Ha].
Qed.

Lemma contains_unfold (sub s : string) :
  contains sub s =
  if String.prefix sub s then true
  else match s with
       | EmptyString => false
       | String _ s' => contains sub s'
       end.
Proof. now destruct s. Qed.

Lemma digits_have_no_iso (d : string) :
  all_digits d = true -> contains ".iso" d = false.
Proof.
  induction d as [|c d IH]; [reflexivity|].
  simpl all_digits. intros H. apply andb_true_iff in H as [Hc Hd].
  rewrite contains_unfold.
  replace (String.prefix ".iso" (String c d)) with false; [exact (IH Hd)|].
  cbn [String.prefix].
  destruct (ascii_dec "." c) as [<-|_]; [discriminate | reflexivity].
Qed.

(** The redirect URL built from a link identifier never contains [.iso]. *)
Lemma fwlink_has_no_iso (d : string) :
  all_digits d = true -> contains ".iso" (fwlink d) = false.
Proof.
  intros H. unfold fwlink. rewrite !app_cons, app_nil_l.
  repeat (rewrite contains_unfold;
          match goal with
          | |- context [String.prefix ?a (String ?c ?b)] =>
              replace (String.prefix a (String c b)) with false by reflexivity
          end).
  exact (digits_have_no_iso d H).
Qed.

(** C10: when an endpoint of stage 1, reached after endpoints that yielded
    nothing, answers with a body that holds no direct address but link
    identifiers, and the HEAD probe of one of them, the first such, ends at a
    location that contains [.iso], the resolver returns the redirect URL
    built from that identifier, which is never the location the probe ended
    at.  The identifiers are what [\d+] matches, digits outside ASCII
    included; the probe of the identifier is [urlopen] on the redirect
    URL. *)
Theorem linkid_hit_returns_redirect_url (n : net) (l : log)
    (pre post : list string) (endpoint body : string)
    (ids_pre ids_post : list string) (linkid : string) (resp : response) :
  api_endpoints = pre ++ endpoint :: post ->
  Forall (fun e => forall l', snd (probe_endpoint n e l') = Ok None) pre ->
  get n endpoint = inr body ->
  utf8_valid body = true ->
  findall iso_url_re whole body = [] ->
  findall (linkid_re (decimal n)) group1 body
  = ids_pre ++ linkid :: ids_post ->
  forallb (fun x => negb (linkid_ok n x)) ids_pre = true ->
  open_url (head n) (fwlink linkid) = Ok resp ->
  contains ".iso" (resp_url resp) = true ->
  snd (get_windows_iso_url n l)
  = Ok ("https://go.microsoft.com/fwlink/?LinkID=" +:+ linkid)
  /\ "https://go.microsoft.com/fwlink/?LinkID=" +:+ linkid <> resp_url resp.
Proof.
  intros He Hpre Hg Hu Hi Hids Hskip Hh Hc. split.
  - rewrite resolver_spec. unfold stage1. rewrite He.
    destruct (endpoint_loop_skips_useless n pre (endpoint :: post) Hpre
                (l ++ [searching])) as [l' ->].
    cbn [endpoint_loop]. unfold bind at 1.
    assert (Hg' : open_url (get n) endpoint = Ok body).
    { rewrite open_url_ascii, Hg; [reflexivity|].
      apply api_endpoints_ascii. rewrite He. apply in_elt. }
    rewrite (probe_endpoint_linkids n endpoint body _ Hg' Hu Hi).
    rewrite linkid_loop_spec, Hids, find_app_str.
    assert (Hnone : List.find (linkid_ok n) ids_pre = None).
    { clear -Hskip. induction ids_pre as [|x xs IH]; [reflexivity|].
      simpl in *. apply andb_true_iff in Hskip as [Hx Hxs].
      apply negb_true_iff in Hx. rewrite Hx. exact (IH Hxs). }
    rewrite Hnone. cbn [List.find].
    assert (Hok : linkid_ok n linkid = true)
      by (unfold linkid_ok; now rewrite Hh).
    rewrite Hok. reflexivity.
  - intros E.
    assert (Hd : all_digits linkid = true).
    { apply (requested_linkid_digits (decimal n) body).
      - rewrite Hids. apply in_elt.
      - now apply open_url_Ok in Hh as [Hh _]. }
    pose proof (fwlink_has_no_iso linkid Hd) as Hno.
    unfold fwlink in Hno. rewrite E in Hno. congruence.
Qed.

Lemma linkid_hit_returns_redirect_url_witness :
  snd (get_windows_iso_url MoreSamples.mixed_net [])
  = Ok ("https://go.microsoft.com/fwlink/?LinkID=" +:+ "2222")
  /\ "https://go.microsoft.com/fwlink/?LinkID=" +:+ "2222"
     <> Samples.final_location.
Proof.
  apply (linkid_hit_returns_redirect_url MoreSamples.mixed_net []
           (firstn 1 api_endpoints) (skipn 2 api_endpoints)
           "https://www.microsoft.com/en-us/api/controls/contentinclude/html?pageId=cfa0e580-a81e-4a4b-a846-7b21bf4e2e5b&host=www.microsoft.com&segments=software-download,windows10ISO"
           MoreSamples.mixed_body ["12٣"; "111"] [] "2222"
           {| resp_url := Samples.final_location; status := 200 |});
    try (vm_compute; reflexivity).
  constructor; [|constructor].
  intros l'. vm_compute. reflexivity.
Defined.

End Heuristic.

(* ===================================================================== *)
(** * More about the tool check and the extraction *)
(* ===================================================================== *)

Section MoreExtraction.
Import Py Esd EsdSpec EsdRuns.

Lemma check_tools_run_ok (w : world) (st : state) :
  tools_present w = true ->
  check_tools w st = (logged st tools_found_log, Ok true).
Proof.
  unfold tools_present. rewrite !andb_true_iff. intros [[Hw Hc] Hi].
  unfold check_tools, has_tool, subprocess_run, bind, emit, ret, raise, print,
    logged, tools_found_log.
  rewrite Hw. simpl. rewrite Hi.
  destruct (installed w cabextract), (installed w tar); try discriminate;
    simpl; rewrite <- !app_assoc; reflexivity.
Qed.

(** [check_tools] returns [True] exactly when [which], one of cabextract and
    tar, and wimlib-imagex are on the search path; otherwise it ends the
    program with status 1, or with [FileNotFoundError] when [which] itself is
    missing. *)
Theorem check_tools_outcome (w : world) (st : state) :
  snd (check_tools w st)
  = if installed w which then
      if (installed w cabextract || installed w tar)
         && installed w wimlib_imagex
      then Ok true else Raise (SystemExit 1)
    else Raise FileNotFoundError.
Proof.
  unfold check_tools, has_tool, subprocess_run, bind, emit, ret, raise, print.
  destruct (installed w which); simpl; [|reflexivity].
  destruct (installed w cabextract), (installed w tar),
    (installed w wimlib_imagex), (String.eqb (platform_system w) "Darwin");
    reflexivity.
Qed.

(** A missing converter is found out before anything is fetched: [main]
    prints the hint for the platform and exits with status 1, and no file is
    created or changed. *)
Theorem missing_converter_stops_main (w : world) (st : state) :
  installed w which = true ->
  installed w cabextract || installed w tar = true ->
  installed w wimlib_imagex = false ->
  main w st
  = (logged st [Exec ["which"; "cabextract"]; Exec ["which"; "tar"];
                Exec ["which"; "wimlib-imagex"];
                Print "❌ Missing ESD conversion tool (wimlib-imagex)!";
                Print (wimlib_hint w)],
     Raise (SystemExit 1)).
Proof.
  intros Hw Hc Hi.
  unfold main, check_tools, has_tool, subprocess_run, bind, emit, ret, raise,
    print, logged, wimlib_hint.
  rewrite Hw. simpl. rewrite Hi.
  destruct (installed w cabextract), (installed w tar); try discriminate;
    destruct (String.eqb (platform_system w) "Darwin"); simpl;
    rewrite <- !app_assoc; reflexivity.
Qed.

Lemma missing_converter_stops_main_witness :
  main MoreSamples.host_no_wimlib Samples.empty_state
  = (logged Samples.empty_state
       [Exec ["which"; "cabextract"]; Exec ["which"; "tar"];
        Exec ["which"; "wimlib-imagex"];
        Print "❌ Missing ESD conversion tool (wimlib-imagex)!";
        Print "Install: brew install wimlib"],
     Raise (SystemExit 1)).
Proof.
  apply (missing_converter_stops_main MoreSamples.host_no_wimlib
           Samples.empty_state); reflexivity.
Defined.

(** The function as a whole: the methods tried and what the chain returns. *)
Lemma extract_run (w : world) (cab_path : string) (st : state) :
  extract_xml_from_cab w cab_path st
  = (logged st (extraction_log w cab_path (fs st !! cab_path)),
     extraction_result w (fs st !! cab_path)).
Proof.
  rewrite extract_spec. cbv zeta. unfold extraction_log, extraction_result.
  destruct (tool_result w cabextract (fs st !! cab_path)) as [[?|]|?];
    try reflexivity.
  destruct (tool_result w tar (fs st !! cab_path)) as [[?|]|?];
    try reflexivity.
  destruct (tool_result w sevenzip (fs st !! cab_path)) as [[?|]|?];
    reflexivity.
Qed.

(** The first method that produces the document wins: when cabextract is
    installed and leaves a [products.xml] that is UTF-8, its text, with line
    ends translated, is returned, and neither another tool is run nor the
    archive read. *)
Theorem first_tool_wins (w : world) (cab_path : string) (st : state)
    (b : string) :
  installed w cabextract = true ->
  tool_run w cabextract (fs st !! cab_path) = ExitZero (Some b) ->
  utf8_valid b = true ->
  extract_xml_from_cab w cab_path st
  = (logged st [Exec (argv1 w cab_path)], Ok (universal_newlines b)).
Proof.
  intros Hi Hr Hu. rewrite extract_spec. cbv zeta.
  unfold tool_result at 1, read_text, decode_utf8. rewrite Hi, Hr, Hu.
  reflexivity.
Qed.

Lemma first_tool_wins_witness :
  extract_xml_from_cab Samples.host_full "/tmp/c.cab" Samples.empty_state
  = (logged Samples.empty_state [Exec (argv1 Samples.host_full "/tmp/c.cab")],
     Ok (universal_newlines Samples.doc)).
Proof.
  apply (first_tool_wins Samples.host_full "/tmp/c.cab" Samples.empty_state
           Samples.doc); reflexivity.
Defined.

(** A tool that leaves a [products.xml] that is not UTF-8 ends the whole
    extraction with [UnicodeDecodeError]: the tools after it and the raw scan
    are not tried. *)
Theorem undecodable_output_aborts (w : world) (cab_path : string) (st : state)
    (b : string) :
  installed w cabextract = true ->
  tool_run w cabextract (fs st !! cab_path) = ExitZero (Some b) ->
  utf8_valid b = false ->
  extract_xml_from_cab w cab_path st
  = (logged st [Exec (argv1 w cab_path)], Raise UnicodeDecodeError).
Proof.
  intros Hi Hr Hu. rewrite extract_spec. cbv zeta.
  unfold tool_result at 1, read_text, decode_utf8. rewrite Hi, Hr, Hu.
  reflexivity.
Qed.

Lemma undecodable_output_aborts_witness :
  extract_xml_from_cab MoreSamples.host_garbled "/tmp/c.cab"
    Samples.empty_state
  = (logged Samples.empty_state
       [Exec (argv1 MoreSamples.host_garbled "/tmp/c.cab")],
     Raise UnicodeDecodeError).
Proof.
  apply (undecodable_output_aborts MoreSamples.host_garbled "/tmp/c.cab"
           Samples.empty_state Samples.xFF); reflexivity.
Defined.

(** A tool that leaves an empty [products.xml] is not passed over: the empty
    text is what the extraction returns, whatever the later methods would
    have found. *)
Theorem empty_output_is_returned (w : world) (cab_path : string) (st : state) :
  installed w cabextract = true ->
  tool_run w cabextract (fs st !! cab_path) = ExitZero (Some EmptyString) ->
  snd (extract_xml_from_cab w cab_path st) = Ok EmptyString.
Proof.
  intros Hi Hr. rewrite extract_spec. cbv zeta.
  unfold tool_result at 1, read_text, decode_utf8. rewrite Hi, Hr.
  reflexivity.
Qed.

Lemma empty_output_is_returned_witness :
  snd (extract_xml_from_cab MoreSamples.host_empty_output "/tmp/c.cab"
         Samples.empty_state) = Ok EmptyString.
Proof.
  apply (empty_output_is_returned MoreSamples.host_empty_output "/tmp/c.cab"
           Samples.empty_state); reflexivity.
Defined.

(** The extraction changes no file and logs nothing but the commands it runs
    and, at most once and last, the reading of the archive. *)
Theorem extraction_leaves_files_alone (w : world) (cab_path : string)
    (st : state) :
  fs (fst (extract_xml_from_cab w cab_path st)) = fs st
  /\ exists cmds,
       all_exec cmds = true
       /\ (log (fst (extract_xml_from_cab w cab_path st)) = log st ++ cmds
           \/ log (fst (extract_xml_from_cab w cab_path st))
              = log st ++ cmds ++ [OpenRead cab_path]).
Proof.
  rewrite extract_run. split; [reflexivity|]. simpl.
  unfold extraction_log.
  destruct (tool_result w cabextract (fs st !! cab_path)) as [[?|]|?];
    try (exists [Exec (argv1 w cab_path)];
         split; [reflexivity | left; reflexivity]).
  destruct (tool_result w tar (fs st !! cab_path)) as [[?|]|?];
    try (exists [Exec (argv1 w cab_path); Exec (argv2 cab_path)];
         split; [reflexivity | left; reflexivity]).
  destruct (tool_result w sevenzip (fs st !! cab_path)) as [[?|]|?];
    exists [Exec (argv1 w cab_path); Exec (argv2 cab_path);
            Exec (argv3 w cab_path)];
    (split; [reflexivity|]); [left | right | left]; reflexivity.
Qed.

End MoreExtraction.

(* ===================================================================== *)
(** * More about the raw byte scan *)
(* ===================================================================== *)

Section MoreRawScan.
Import Py Esd EsdSpec EsdRuns.

Lemma prefix_split (sub : string) :
  forall s, String.prefix sub s = true -> exists post, s = sub +:+ post.
Proof.
  induction sub as [|a sub IH]; intros s H.
  - exists s. reflexivity.
  - destruct s as [|b s]; [discriminate|]. cbn [String.prefix] in H.
    destruct (ascii_dec a b) as [<-|]; [|discriminate].
    destruct (IH s H) as [post ->]. exists post. reflexivity.
Qed.

(** A search that succeeds points at an occurrence. *)
Lemma find_here_sound (sub : string) :
  forall (s : string) (i : Z),
    find_here sub s i <> -1 -> 0 <= i ->
    exists pre post,
      s = pre +:+ sub +:+ post
      /\ find_here sub s i = i + Z.of_nat (String.length pre).
Proof.
  induction s as [|c s IH]; intros i Hne Hi; rewrite find_here_unfold in *.
  - destruct (String.prefix sub EmptyString) eqn:P; [|now destruct Hne].
    destruct (prefix_split _ _ P) as [post E].
    exists EmptyString, post. split; [exact E | simpl; lia].
  - destruct (String.prefix sub (String c s)) eqn:P.
    + destruct (prefix_split _ _ P) as [post E].
      exists EmptyString, post. split; [exact E | simpl; lia].
    + destruct (IH (i + 1) Hne ltac:(lia)) as (pre & post & E & F).
      exists (String c pre), post. split.
      * rewrite app_cons. now rewrite E.
      * rewrite F. simpl String.length. lia.
Qed.

Lemma find_here_none (sub : string) :
  forall (s : string) (i : Z), contains sub s = false -> find_here sub s i = -1.
Proof.
  induction s as [|c s IH]; intros i H; rewrite contains_unfold in H;
    rewrite find_here_unfold;
    destruct (String.prefix sub _); try discriminate; auto.
Qed.

Lemma contains_drop (sub : string) (n : nat) :
  forall s, contains sub s = false -> contains sub (drop_str n s) = false.
Proof.
  induction n as [|n IH]; intros s H; [exact H|].
  destruct s as [|c s]; [exact H|]. simpl. apply IH.
  rewrite contains_unfold in H.
  destruct (String.prefix sub (String c s)); [discriminate | exact H].
Qed.

Lemma raw_scan_none (buf : string) :
  contains START buf = false \/ contains END_ buf = false ->
  raw_scan buf = None.
Proof.
  intros H. unfold raw_scan, bytes_find.
  replace (Z.of_nat (String.length buf) <? 0) with false
    by (symmetry; apply Z.ltb_ge; lia).
  change (drop_str (Z.to_nat 0) buf) with buf.
  destruct (find_here START buf 0 =? -1) eqn:E1; [reflexivity|]. cbn [negb].
  destruct H as [H|H].
  - rewrite (find_here_none START buf 0 H) in E1. discriminate.
  - destruct (Z.of_nat (String.length buf) <? find_here START buf 0);
      [reflexivity|].
    rewrite (find_here_none END_ _ _ (contains_drop END_ _ buf H)).
    reflexivity.
Qed.

(** What the raw scan returns is always a piece of the archive that begins
    with the start marker, ends with the end marker and is well-formed
    UTF-8. *)
Theorem raw_scan_sound (buf text : string) :
  raw_scan buf = Some (Ok text) ->
  exists pre mid post,
    buf = pre +:+ START +:+ mid +:+ END_ +:+ post
    /\ text = START +:+ mid +:+ END_
    /\ utf8_valid text = true.
Proof.
  unfold raw_scan, bytes_find.
  replace (Z.of_nat (String.length buf) <? 0) with false
    by (symmetry; apply Z.ltb_ge; lia).
  change (drop_str (Z.to_nat 0) buf) with buf.
  destruct (find_here START buf 0 =? -1) eqn:E1; [discriminate|]. cbn [negb].
  apply Z.eqb_neq in E1.
  destruct (find_here_sound START buf 0 E1 ltac:(lia)) as (pre & rest & Eb & Ep).
  rewrite Ep. rewrite Z.add_0_l.
  replace (Z.of_nat (String.length buf) <? Z.of_nat (String.length pre))
    with false
    by (symmetry; apply Z.ltb_ge; rewrite Eb, length_app; lia).
  rewrite Nat2Z.id.
  assert (Hq : find_here END_ (drop_str (String.length pre) buf)
                 (Z.of_nat (String.length pre))
               = find_here END_ rest (Z.of_nat (String.length pre) + 5))
    by (rewrite Eb, drop_str_app; apply find_END_skips_START).
  rewrite Hq.
  destruct (find_here END_ rest (Z.of_nat (String.length pre) + 5) =? -1)
    eqn:E2; [discriminate|]. cbn [negb]. apply Z.eqb_neq in E2.
  destruct (find_here_sound END_ rest _ E2 ltac:(lia))
    as (mid & post & Er & Eq).
  rewrite Eq. subst rest. unfold slice, decode_utf8.
  replace (Z.to_nat (Z.of_nat (String.length pre) + 5
                     + Z.of_nat (String.length mid)
                     + Z.of_nat (String.length END_)
                     - Z.of_nat (String.length pre)))
    with (String.length (START +:+ mid +:+ END_))
    by (rewrite !length_app; simpl; lia).
  rewrite Nat2Z.id.
  replace buf with (pre +:+ (START +:+ mid +:+ END_) +:+ post)
    by (now rewrite Eb, !app_assoc_str).
  rewrite substring_app_mid.
  destruct (utf8_valid (START +:+ mid +:+ END_)) eqn:Hu; [|discriminate].
  intros [= <-]. exists pre, mid, post.
  split; [now rewrite !app_assoc_str | split; [reflexivity | exact Hu]].
Qed.

Lemma raw_scan_sound_witness :
  exists pre mid post,
    Samples.cab_pre +:+ START +:+ Samples.cab_mid +:+ END_
      +:+ Samples.cab_post
    = pre +:+ START +:+ mid +:+ END_ +:+ post
    /\ START +:+ Samples.cab_mid +:+ END_ = START +:+ mid +:+ END_
    /\ utf8_valid (START +:+ Samples.cab_mid +:+ END_) = true.
Proof.
  apply (raw_scan_sound
           (Samples.cab_pre +:+ START +:+ Samples.cab_mid +:+ END_
            +:+ Samples.cab_post)).
  vm_compute. reflexivity.
Defined.

(** On a host without any of the three tools, an archive that lacks the
    start marker or the end marker cannot be extracted: the function raises
    its [ValueError]. *)
Theorem no_markers_not_extractable (w : world) (cab_path : string)
    (st : state) (buf : string) :
  installed w cabextract = false ->
  installed w tar = false ->
  installed w sevenzip = false ->
  fs st !! cab_path = Some buf ->
  contains START buf = false \/ contains END_ buf = false ->
  snd (extract_xml_from_cab w cab_path st) = Raise (ValueError not_extractable).
Proof.
  intros H1 H2 H3 Hb Hm. rewrite extract_run. cbn [snd].
  unfold extraction_result, tool_result. rewrite H1, H2, H3.
  unfold raw_result. rewrite Hb, (raw_scan_none buf Hm). reflexivity.
Qed.

Lemma no_markers_not_extractable_witness :
  snd (extract_xml_from_cab MoreSamples.host_no_extractors "/tmp/c.cab"
         MoreSamples.state_with_packed_cab)
  = Raise (ValueError not_extractable).
Proof.
  apply (no_markers_not_extractable MoreSamples.host_no_extractors
           "/tmp/c.cab" MoreSamples.state_with_packed_cab
           "MSCF packed bytes </Products>");
    try reflexivity.
  left. vm_compute. reflexivity.
Defined.

End MoreRawScan.

(* ===================================================================== *)
(** * Whole runs of the catalog resolver *)
(* ===================================================================== *)

Section Runs.
Import Py Esd EsdSpec EsdRuns.

Lemma bind_assoc {S A B C} (m : M S A) (k : A -> M S B) (h : B -> M S C)
    (s : S) :
  bind (bind m k) h s = bind m (fun a => bind (k a) h) s.
Proof. unfold bind. destruct (m s) as [s' [a|e]]; reflexivity. Qed.

Lemma conversion_spec (w : world) (s : state) :
  (print (nl +:+ "Converting ESD to WIM...");;;
   print "Exporting images...";;;
   subprocess_run w wimlib_imagex
     ["wimlib-imagex"; "export"; "win.esd"; "all"; "win.wim"];;;
   esd <- (fun s => (s, Ok (fs s !! "win.esd")));;
   let result := wimlib_export w esd in
   match wim result with
   | Some b => write_file "win.wim" b
   | None => ret tt
   end;;;
   _ <- lift (decode_output w (stdout result));;
   result_stderr <- lift (decode_output w (stderr result));;
   if returncode result =? 0 then
     print "✓ Created win.wim";;;
     print (nl +:+ "⚠️  NOTE: This is NOT a bootable ISO!");;;
     print "To make it bootable you need Windows boot files.";;;
     print "See README.md for options."
   else print ("Error converting ESD: " +:+ result_stderr))%py s
  = conversion w s.
Proof.
  unfold conversion, subprocess_run, print, write_file, bind, emit, ret,
    raise, lift, logged.
  destruct (installed w wimlib_imagex); cbn [fs log];
    [|rewrite <- !app_assoc; reflexivity].
  destruct (wimlib_export w (fs s !! "win.esd")) as [rc out err [b|]];
    cbn [returncode stdout stderr wim fs log];
    destruct (decode_output w out); try (rewrite <- !app_assoc; reflexivity);
    destruct (decode_output w err); try (rewrite <- !app_assoc; reflexivity);
    destruct (rc =? 0); cbn [fs log]; rewrite <- !app_assoc; reflexivity.
Qed.

(** [main] from the parsed catalog on is the case analysis [after_parse]. *)
Lemma main_after_parse_spec (w : world) (root : element) (st : state) :
  main_after_parse w root st = after_parse w root st.
Proof.
  unfold main_after_parse, after_parse.
  erewrite bind_ok by reflexivity.
  unfold bind at 1, lift.
  destruct (find_edition w enterprise_n (findall_desc "File" root))
    as [[fd|]|e]; [| reflexivity | reflexivity].
  erewrite bind_ok by reflexivity.
  erewrite bind_ok by reflexivity.
  cbn [fs log]. destruct (fs st !! "win.esd") as [c|] eqn:E.
  - rewrite bool_decide_eq_true_2 by eauto.
    erewrite bind_ok by reflexivity.
    apply conversion_spec.
  - rewrite bool_decide_eq_false_2 by (intros [x Hx]; discriminate).
    rewrite bind_assoc. erewrite bind_ok by reflexivity.
    rewrite bind_assoc. unfold download_file.
    destruct (url fd) as [u|]; [|reflexivity].
    rewrite bind_assoc. erewrite bind_ok by reflexivity.
    destruct (http w u) as [|written|body].
    + reflexivity.
    + reflexivity.
    + erewrite bind_ok by reflexivity. erewrite bind_ok by reflexivity.
      apply conversion_spec.
Qed.

(** [unlink] of a file that is there. *)
Lemma unlink_present (path : string) (s : state) (b : string) :
  fs s !! path = Some b ->
  unlink path s
  = ({| fs := delete path (fs s); log := log s ++ [Unlink path] |}, Ok tt).
Proof.
  intros H. unfold unlink, bind, emit. cbn [fs log]. now rewrite H.
Qed.

(** From the start of [main] to the parsed catalog, on a host that passes
    [check_tools] and receives the archive. *)
Lemma main_to_parse (w : world) (st : state) (cab : string) :
  tools_present w = true ->
  http w cab_url = FetchOk cab ->
  main w st
  = match extraction_result w (Some cab) with
    | Raise e => (parsed_state w st cab, Raise e)
    | Ok xml =>
        match fromstring w xml with
        | None => (parsed_state w st cab, Raise ParseError)
        | Some root => main_after_parse w root (parsed_state w st cab)
        end
    end.
Proof.
  intros Ht Hget. unfold main.
  erewrite bind_ok by (apply check_tools_run_ok; exact Ht).
  erewrite bind_ok by reflexivity.
  erewrite bind_ok by reflexivity.
  erewrite bind_ok
    by (unfold download_file, bind, emit; rewrite Hget; reflexivity).
  pose (s4 := {| fs := <[cab_tmp_name w := cab]>
                         (<[cab_tmp_name w := EmptyString]> (fs st));
                 log := (log st ++ tools_found_log)
                        ++ [Print (nl +:+ "Fetching Microsoft catalog...");
                            HttpGet cab_url (cab_tmp_name w)] |}).
  match goal with
  | |- bind _ _ ?s = _ =>
      replace s with s4
        by (unfold s4, logged; cbn [fs log]; rewrite <- !app_assoc;
            reflexivity)
  end.
  assert (Hs4 : fs s4 !! cab_tmp_name w = Some cab)
    by apply lookup_insert_eq.
  assert (Hp : {| fs := delete (cab_tmp_name w) (fs s4);
                  log := (log s4
                          ++ extraction_log w (cab_tmp_name w) (Some cab))
                         ++ [Unlink (cab_tmp_name w)] |}
               = parsed_state w st cab).
  { unfold parsed_state, s4. cbn [fs log].
    rewrite !delete_insert_eq, <- !app_assoc. reflexivity. }
  unfold bind at 1, try_finally. unfold bind at 1.
  rewrite extract_run, Hs4.
  destruct (extraction_result w (Some cab)) as [xml|e]; cbn [fst snd].
  - destruct (fromstring w xml) as [root|]; unfold ret, raise;
      erewrite unlink_present by exact Hs4; cbn [fs log logged];
      rewrite Hp; reflexivity.
  - erewrite unlink_present by exact Hs4. cbn [fs log logged].
    rewrite Hp. reflexivity.
Qed.

Lemma main_from_parse (w : world) (st : state) (cab : string)
    (root : element) :
  reaches_parse w cab root ->
  main w st = after_parse w root (parsed_state w st cab).
Proof.
  intros (Ht & Hget & xml & Hx & Hp).
  rewrite (main_to_parse w st cab Ht Hget), Hx, Hp.
  apply main_after_parse_spec.
Qed.

Lemma find_edition_none (w : world) (q : query) (files : list element) :
  Forall (fun e => ~ exact_match q e) files ->
  find_edition w q files = Ok None.
Proof.
  intros H. rewrite <- (app_nil_r files).
  now rewrite (find_edition_skips w q files [] H).
Qed.

(** When no record of the catalog matches, and in particular when the
    catalog has no record at all, [main] reports it and exits with status 1;
    nothing has been downloaded or converted, and the only change to the
    file system is that the temporary archive is gone. *)
Theorem no_match_exits (w : world) (st : state) (cab : string)
    (root : element) :
  reaches_parse w cab root ->
  Forall (fun e => ~ exact_match enterprise_n e) (findall_desc "File" root) ->
  snd (main w st) = Raise (SystemExit 1)
  /\ fs (fst (main w st)) = delete (cab_tmp_name w) (fs st)
  /\ exists l, log (fst (main w st))
               = l ++ [Unlink (cab_tmp_name w);
                       Print "Finding Enterprise N edition...";
                       Print "Enterprise N not found in catalog"].
Proof.
  intros Hr Hn. rewrite (main_from_parse w st cab root Hr).
  unfold after_parse. rewrite (find_edition_none _ _ _ Hn).
  cbn [fst snd fs log logged parsed_state].
  split; [reflexivity | split; [reflexivity|]].
  exists (log st ++ tools_found_log
          ++ [Print (nl +:+ "Fetching Microsoft catalog...");
              HttpGet cab_url (cab_tmp_name w)]
          ++ extraction_log w (cab_tmp_name w) (Some cab)).
  rewrite <- !app_assoc. reflexivity.
Qed.

Lemma no_match_exits_witness :
  snd (main MoreSamples.host_no_match Samples.empty_state)
  = Raise (SystemExit 1)
  /\ fs (fst (main MoreSamples.host_no_match Samples.empty_state))
     = delete (cab_tmp_name MoreSamples.host_no_match)
         (fs Samples.empty_state)
  /\ exists l, log (fst (main MoreSamples.host_no_match Samples.empty_state))
               = l ++ [Unlink (cab_tmp_name MoreSamples.host_no_match);
                       Print "Finding Enterprise N edition...";
                       Print "Enterprise N not found in catalog"].
Proof.
  apply (no_match_exits MoreSamples.host_no_match Samples.empty_state "MSCF"
           (Samples.catalog [Samples.upper_case_file;
                             Samples.professional_file])).
  - split; [reflexivity | split; [reflexivity|]].
    exists (universal_newlines Samples.doc). split; reflexivity.
  - repeat constructor; apply matches_not_exact; vm_compute; reflexivity.
Defined.

(** A document that the parser rejects ends [main] with the parser's error;
    the temporary archive is gone and nothing else has changed. *)
Theorem parse_error_propagates (w : world) (st : state) (cab xml : string) :
  tools_present w = true ->
  http w cab_url = FetchOk cab ->
  extraction_result w (Some cab) = Ok xml ->
  fromstring w xml = None ->
  snd (main w st) = Raise ParseError
  /\ fs (fst (main w st)) = delete (cab_tmp_name w) (fs st).
Proof.
  intros Ht Hget Hx Hp.
  rewrite (main_to_parse w st cab Ht Hget), Hx, Hp.
  split; reflexivity.
Qed.

Lemma parse_error_propagates_witness :
  snd (main MoreSamples.host_empty_output Samples.empty_state)
  = Raise ParseError
  /\ fs (fst (main MoreSamples.host_empty_output Samples.empty_state))
     = delete (cab_tmp_name MoreSamples.host_empty_output)
         (fs Samples.empty_state).
Proof.
  apply (parse_error_propagates MoreSamples.host_empty_output
           Samples.empty_state "MSCF" EmptyString); reflexivity.
Defined.

Lemma parsed_state_esd (w : world) (st : state) (cab : string) :
  fs (parsed_state w st cab) !! "win.esd" = fs st !! "win.esd".
Proof.
  cbn [parsed_state fs]. apply lookup_delete_ne, cab_tmp_name_not_esd.
Qed.

(** A run that goes through from an empty working directory, the output of
    the converter being text in the encoding of the locale: the image the
    catalog names is stored as [win.esd], the converter's output as
    [win.wim], the temporary archive is gone, and no other file has
    changed. *)
Theorem successful_run_files (w : world) (st : state) (cab : string)
    (root : element) (fd : found) (u esd out err wim_data : string) :
  reaches_parse w cab root ->
  find_edition w enterprise_n (findall_desc "File" root) = Ok (Some fd) ->
  url fd = Some u ->
  fs st !! "win.esd" = None ->
  http w u = FetchOk esd ->
  wimlib_export w (Some esd)
  = {| returncode := 0; stdout := out; stderr := err;
       wim := Some wim_data |} ->
  is_Some (locale_decode w out) ->
  is_Some (locale_decode w err) ->
  snd (main w st) = Ok tt
  /\ fs (fst (main w st))
     = <["win.wim" := wim_data]>
         (<["win.esd" := esd]> (delete (cab_tmp_name w) (fs st))).
Proof.
  intros Hr Hf Hu He Hget Hw [o Ho] [e' He'].
  assert (Hi : installed w wimlib_imagex = true).
  { destruct Hr as (Ht & _). unfold tools_present in Ht.
    now apply andb_true_iff in Ht as [_ Ht]. }
  rewrite (main_from_parse w st cab root Hr).
  unfold after_parse. rewrite Hf, parsed_state_esd, He, Hu, Hget.
  unfold conversion. rewrite Hi. cbn [fs log logged].
  rewrite lookup_insert_eq, Hw. cbn [returncode stdout stderr wim].
  unfold decode_output. rewrite Ho, He'.
  cbn [fst snd fs logged parsed_state].
  split; reflexivity.
Qed.

Lemma successful_run_files_witness :
  snd (main Samples.host_full Samples.empty_state) = Ok tt
  /\ fs (fst (main Samples.host_full Samples.empty_state))
     = <["win.wim" := "wim"]>
         (<["win.esd" := "MSCF" +:+ Samples.doc]>
            (delete (cab_tmp_name Samples.host_full)
               (fs Samples.empty_state))).
Proof.
  apply (successful_run_files Samples.host_full Samples.empty_state
           ("MSCF" +:+ Samples.doc)
           (Samples.catalog [Samples.scenario_file])
           {| url := Some "https://example/x.esd"; size := float_of_int 4 |}
           "https://example/x.esd" ("MSCF" +:+ Samples.doc) "" "" "wim");
    try reflexivity; try (exists EmptyString; reflexivity).
  split; [reflexivity | split; [reflexivity|]].
  exists (universal_newlines Samples.doc). split; reflexivity.
Defined.

(** A converter that fails does not fail the program: when its output is
    text in the encoding of the locale, [main] prints the decoded diagnostic
    text, with its line ends translated, and returns normally. *)
Theorem conversion_failure_ends_normally (w : world) (st : state)
    (cab : string) (root : element) (fd : found) (c : string)
    (result : export) (out err : string) :
  reaches_parse w cab root ->
  find_edition w enterprise_n (findall_desc "File" root) = Ok (Some fd) ->
  fs st !! "win.esd" = Some c ->
  wimlib_export w (Some c) = result ->
  returncode result <> 0 ->
  locale_decode w (stdout result) = Some out ->
  locale_decode w (stderr result) = Some err ->
  snd (main w st) = Ok tt
  /\ exists l, log (fst (main w st))
               = l ++ [Print ("Error converting ESD: "
                              +:+ universal_newlines err)].
Proof.
  intros Hr Hf He Hw Hrc Ho He'.
  assert (Hi : installed w wimlib_imagex = true).
  { destruct Hr as (Ht & _). unfold tools_present in Ht.
    now apply andb_true_iff in Ht as [_ Ht]. }
  rewrite (main_from_parse w st cab root Hr).
  unfold after_parse. rewrite Hf, parsed_state_esd, He.
  unfold conversion. rewrite Hi. cbn [fs log logged].
  rewrite parsed_state_esd, He, Hw.
  unfold decode_output. rewrite Ho, He'.
  replace (returncode result =? 0) with false
    by (symmetry; now apply Z.eqb_neq).
  cbn [fst snd log logged]. split; [reflexivity|]. eexists. reflexivity.
Qed.

Lemma conversion_failure_ends_normally_witness :
  snd (main MoreSamples.host_bad_convert Samples.state_with_esd) = Ok tt
  /\ exists l, log (fst (main MoreSamples.host_bad_convert
                           Samples.state_with_esd))
               = l ++ [Print ("Error converting ESD: "
                              +:+ universal_newlines MoreSamples.diagnostic)].
Proof.
  apply (conversion_failure_ends_normally MoreSamples.host_bad_convert
           Samples.state_with_esd "MSCF"
           (Samples.catalog [Samples.scenario_file])
           {| url := Some "https://example/x.esd"; size := float_of_int 4 |}
           "left over from an earlier run"
           {| returncode := 2; stdout := EmptyString;
              stderr := MoreSamples.diagnostic; wim := None |}
           EmptyString MoreSamples.diagnostic);
    try reflexivity; try discriminate.
  split; [reflexivity | split; [reflexivity|]].
  exists (universal_newlines Samples.doc). split; reflexivity.
Defined.

(** A converter whose output is not text in the encoding of the locale ends
    [main] with [UnicodeDecodeError], whatever its return code: by then the
    converter has run, and what it wrote as [win.wim] is there. *)
Theorem undecodable_converter_output_raises (w : world) (st : state)
    (cab : string) (root : element) (fd : found) (c : string)
    (result : export) :
  reaches_parse w cab root ->
  find_edition w enterprise_n (findall_desc "File" root) = Ok (Some fd) ->
  fs st !! "win.esd" = Some c ->
  wimlib_export w (Some c) = result ->
  locale_decode w (stdout result) = None
  \/ locale_decode w (stderr result) = None ->
  snd (main w st) = Raise UnicodeDecodeError
  /\ fs (fst (main w st)) !! "win.wim"
     = match wim result with
       | Some b => Some b
       | None => fs st !! "win.wim"
       end.
Proof.
  intros Hr Hf He Hw Hd.
  assert (Hi : installed w wimlib_imagex = true).
  { destruct Hr as (Ht & _). unfold tools_present in Ht.
    now apply andb_true_iff in Ht as [_ Ht]. }
  assert (Hwim : fs (parsed_state w st cab) !! "win.wim" = fs st !! "win.wim")
    by (cbn [parsed_state fs]; apply lookup_delete_ne, cab_tmp_name_not_wim).
  rewrite (main_from_parse w st cab root Hr).
  unfold after_parse. rewrite Hf, parsed_state_esd, He.
  unfold conversion. rewrite Hi. cbn [fs log logged].
  rewrite parsed_state_esd, He, Hw.
  unfold decode_output.
  assert (Hfs : forall m : gmap string string,
            match wim result with
            | Some b => <["win.wim" := b]> m
            | None => m
            end !! "win.wim"
            = match wim result with
              | Some b => Some b
              | None => m !! "win.wim"
              end).
  { intros m. destruct (wim result); [apply lookup_insert_eq | reflexivity]. }
  destruct (locale_decode w (stdout result)) as [o|].
  - destruct Hd as [Hd|Hd]; [discriminate|]. rewrite Hd.
    cbn [fst snd fs]. split; [reflexivity|]. now rewrite Hfs, Hwim.
  - cbn [fst snd fs]. split; [reflexivity|]. now rewrite Hfs, Hwim.
Qed.

Lemma undecodable_converter_output_raises_witness :
  snd (main MoreSamples.host_garbled_convert Samples.state_with_esd)
  = Raise UnicodeDecodeError
  /\ fs (fst (main MoreSamples.host_garbled_convert Samples.state_with_esd))
       !! "win.wim"
     = Some "wim".
Proof.
  apply (undecodable_converter_output_raises MoreSamples.host_garbled_convert
           Samples.state_with_esd "MSCF"
           (Samples.catalog [Samples.scenario_file])
           {| url := Some "https://example/x.esd"; size := float_of_int 4 |}
           "left over from an earlier run"
           {| returncode := 0; stdout := EmptyString;
              stderr := "warning: " +:+ Samples.xFF; wim := Some "wim" |});
    try reflexivity.
  - split; [reflexivity | split; [reflexivity|]].
    exists (universal_newlines Samples.doc). split; reflexivity.
  - right. reflexivity.
Defined.

(** An image download that breaks off leaves what it had written as
    [win.esd] and ends [main] with the error; the next run, on any host,
    finds the file, requests nothing for it and leaves the partial bytes as
    they are. *)
Theorem partial_esd_is_reused (w w2 : world) (st : state) (cab : string)
    (root : element) (fd : found) (u written : string) :
  reaches_parse w cab root ->
  find_edition w enterprise_n (findall_desc "File" root) = Ok (Some fd) ->
  url fd = Some u ->
  fs st !! "win.esd" = None ->
  http w u = FetchBreaks written ->
  let st1 := fst (main w st) in
  snd (main w st) = Raise RequestException
  /\ fs st1 !! "win.esd" = Some written
  /\ fs (fst (main w2 st1)) !! "win.esd" = Some written
  /\ forall u', In (HttpGet u' "win.esd") (log (fst (main w2 st1))) ->
                 In (HttpGet u' "win.esd") (log st1).
Proof.
  intros Hr Hf Hu He Hget st1.
  assert (H1 : snd (main w st) = Raise RequestException
               /\ fs st1 !! "win.esd" = Some written).
  { subst st1. rewrite (main_from_parse w st cab root Hr).
    unfold after_parse. rewrite Hf, parsed_state_esd, He, Hu, Hget.
    cbn [fst snd fs]. split; [reflexivity | apply lookup_insert_eq]. }
  destruct H1 as [Hres Hesd]. split; [exact Hres | split; [exact Hesd|]].
  destruct (keeps_esd_main w2 st1) as [F L]; [rewrite Hesd; eauto|].
  split; [now rewrite F|].
  intros u' Hin. destruct (L _ _ Hin) as [H|H]; [exact H | now destruct H].
Qed.

Lemma partial_esd_is_reused_witness :
  let st1 := fst (main MoreSamples.host_broken_esd Samples.empty_state) in
  snd (main MoreSamples.host_broken_esd Samples.empty_state)
  = Raise RequestException
  /\ fs st1 !! "win.esd" = Some "first bytes"
  /\ fs (fst (main Samples.host_full st1)) !! "win.esd" = Some "first bytes"
  /\ forall u', In (HttpGet u' "win.esd") (log (fst (main Samples.host_full st1))) ->
                 In (HttpGet u' "win.esd") (log st1).
Proof.
  apply (partial_esd_is_reused MoreSamples.host_broken_esd Samples.host_full
           Samples.empty_state "MSCF"
           (Samples.catalog [Samples.scenario_file])
           {| url := Some "https://example/x.esd"; size := float_of_int 4 |}
           "https://example/x.esd" "first bytes");
    try reflexivity.
  split; [reflexivity | split; [reflexivity|]].
  exists (universal_newlines Samples.doc). split; reflexivity.
Defined.

(** A matching record whose size [int] does not read ends the search with
    the [ValueError] of [int], also when a complete record follows. *)
Theorem bad_size_raises (w : world) (q : query) (pre rest : list element)
    (f fp sz : element) (t msg : string) :
  Forall (fun e => ~ exact_match q e) pre ->
  exact_match q f ->
  find "FilePath" f = Some fp ->
  find "Size" f = Some sz ->
  text sz = Some t ->
  int_str w t = inr msg ->
  find_edition w q (pre ++ f :: rest) = Raise (ValueError msg).
Proof.
  intros Hpre Hf Hfp Hsz Ht Hn. rewrite (find_edition_skips w q pre _ Hpre).
  cbn [find_edition]. apply matches_exact in Hf. rewrite Hf.
  unfold make_found. rewrite Hfp, Hsz, Ht, Hn. reflexivity.
Qed.

Lemma bad_size_raises_witness :
  find_edition Samples.host_full enterprise_n
    ([Samples.professional_file]
     ++ MoreSamples.bad_size_file :: [Samples.scenario_file])
  = Raise (ValueError "invalid literal for int() with base 10: '4 GB'").
Proof.
  apply (bad_size_raises Samples.host_full enterprise_n
           [Samples.professional_file]
           [Samples.scenario_file] MoreSamples.bad_size_file
           (Samples.field "FilePath" "https://example/b.esd")
           (Samples.field "Size" "4 GB") "4 GB");
    try reflexivity.
  - repeat constructor; apply matches_not_exact; vm_compute; reflexivity.
  - apply matches_exact. vm_compute. reflexivity.
Defined.

End Runs.

(* ===================================================================== *)
(** * More about the heuristic resolver *)
(* ===================================================================== *)

Section MoreHeuristic.
Import Py Iso IsoSpec IsoRuns.

(** ** The first pattern *)

Lemma match_lit_sound (l : string) :
  forall s s', match_lit l s = Some s' -> s = l +:+ s'.
Proof.
  induction l as [|a l IH]; intros s s'; cbn [match_lit].
  - now intros [= ->].
  - destruct s as [|b s]; [discriminate|].
    destruct (Ascii.eqb a b) eqn:E; [|discriminate].
    apply Ascii.eqb_eq in E as <-. intros H. rewrite app_cons.
    now rewrite (IH _ _ H).
Qed.

Lemma star_not_quote_sound (k : string -> option (list string)) :
  forall s m segs,
    star not_quote k s = Some (m, segs) ->
    no_quote m = true /\ exists s', s = m +:+ s' /\ k s' = Some segs.
Proof.
  induction s as [|c s IH]; intros m segs; cbn [star].
  - destruct (k EmptyString) as [x|] eqn:K; [|discriminate].
    intros [= <- <-]. split; [reflexivity|]. exists EmptyString.
    split; [reflexivity | exact K].
  - destruct (not_quote c) eqn:Hc.
    + destruct (star not_quote k s) as [[m' segs']|] eqn:S.
      * intros [= <- <-]. destruct (IH _ _ eq_refl) as (Hq & s' & -> & K).
        split; [cbn [no_quote]; now rewrite Hc, Hq|].
        exists s'. split; [reflexivity | exact K].
      * destruct (k (String c s)) as [x|] eqn:K; [|discriminate].
        intros [= <- <-]. split; [reflexivity|].
        exists (String c s). split; [reflexivity | exact K].
    + destruct (k (String c s)) as [x|] eqn:K; [|discriminate].
      intros [= <- <-]. split; [reflexivity|].
      exists (String c s). split; [reflexivity | exact K].
Qed.

(** A match of the first pattern: the scheme, a non-empty run without a
    double quote, the extension; and it is the text at the place. *)
Lemma match_iso_sound (s : string) (segs : list string) :
  match_items iso_url_re s = Some segs ->
  direct_shape (whole segs) /\ exists rest, s = whole segs +:+ rest.
Proof.
  unfold iso_url_re. cbn [match_items].
  destruct (match_lit "https://" s) as [s1|] eqn:L1; [|discriminate].
  apply match_lit_sound in L1. subst s.
  destruct s1 as [|c s2]; [discriminate|].
  destruct (not_quote c) eqn:Hc; [|discriminate].
  destruct (star not_quote
              (fun s0 => match match_lit ".iso" s0 with
                         | Some s' => option_map (cons ".iso") (Some [])
                         | None => None
                         end) s2) as [[m segs']|] eqn:S; [|discriminate].
  destruct (star_not_quote_sound _ _ _ _ S) as (Hq & s3 & -> & K).
  destruct (match_lit ".iso" s3) as [s4|] eqn:L2; [|discriminate].
  apply match_lit_sound in L2. subst s3.
  unfold option_map in K. injection K as <-.
  unfold option_map. intros [= <-]. split.
  - exists (String c m). split; [reflexivity|]. split; [discriminate|].
    cbn [no_quote]. now rewrite Hc, Hq.
  - exists s4. unfold whole. cbn [String.concat].
    rewrite !app_nil_l, !app_assoc_str, !app_cons. reflexivity.
Qed.

Lemma contains_cons (u : string) (c : ascii) (s : string) :
  contains u s = true -> contains u (String c s) = true.
Proof.
  intros H. rewrite contains_unfold.
  destruct (String.prefix u (String c s)); [reflexivity | exact H].
Qed.

Lemma findall_iso_sound (s : string) :
  forall skip u,
    In u (findall_go iso_url_re whole s skip) ->
    direct_shape u /\ contains u s = true.
Proof.
  induction s as [|c s IH]; intros skip u; cbn [findall_go]; [intros []|].
  destruct skip as [|k].
  - destruct (match_items iso_url_re (String c s)) as [segs|] eqn:E.
    + intros [<-|Hin].
      * destruct (match_iso_sound _ _ E) as (Hs & rest & Er).
        split; [exact Hs|]. rewrite contains_unfold, Er, prefix_app.
        reflexivity.
      * destruct (IH _ _ Hin) as [Hs Hc].
        split; [exact Hs | now apply contains_cons].
    + intros Hin. destruct (IH _ _ Hin) as [Hs Hc].
      split; [exact Hs | now apply contains_cons].
  - intros Hin. destruct (IH _ _ Hin) as [Hs Hc].
    split; [exact Hs | now apply contains_cons].
Qed.

(** Every address the first pattern finds in a body begins with [https://],
    ends with [.iso], has a non-empty part without a double quote between the
    two, and is a piece of the body. *)
Theorem direct_urls_are_well_formed (body u : string) :
  In u (findall iso_url_re whole body) ->
  direct_shape u /\ contains u body = true.
Proof. apply findall_iso_sound. Qed.

Lemma direct_urls_are_well_formed_witness :
  direct_shape "https://cdn.example/eval/win.iso"
  /\ contains "https://cdn.example/eval/win.iso" MoreSamples.direct_body = true.
Proof.
  apply (direct_urls_are_well_formed MoreSamples.direct_body).
  vm_compute. left. reflexivity.
Defined.

(** ** The endpoints *)

(** An endpoint whose body is not UTF-8 is passed over like one that does
    not answer: the decoding error is caught inside the loop, which goes on
    with the next endpoint. *)
Theorem undecodable_body_is_skipped (n : net) (endpoint body : string)
    (rest : list string) (l : log) :
  get n endpoint = inr body ->
  utf8_valid body = false ->
  endpoint_loop n (endpoint :: rest) l
  = endpoint_loop n rest (l ++ [Get endpoint]).
Proof.
  intros Hg Hu. cbn [endpoint_loop]. unfold bind at 1.
  unfold probe_endpoint, try_except, urlopen_get.
  unfold bind at 1. unfold bind at 1. unfold bind at 1, emit, lift.
  unfold open_url. rewrite Hg.
  destruct (is_ascii endpoint); cbv beta iota; [|reflexivity].
  unfold bind at 1, decode_utf8. rewrite Hu. reflexivity.
Qed.

Lemma undecodable_body_is_skipped_witness :
  endpoint_loop MoreSamples.garbled_net
    ("https://www.microsoft.com/en-us/evalcenter/api/products/getproducts"
     :: skipn 1 api_endpoints) [searching]
  = endpoint_loop MoreSamples.garbled_net (skipn 1 api_endpoints)
      ([searching]
       ++ [Get "https://www.microsoft.com/en-us/evalcenter/api/products/getproducts"]).
Proof.
  apply (undecodable_body_is_skipped MoreSamples.garbled_net
           "https://www.microsoft.com/en-us/evalcenter/api/products/getproducts"
           Samples.xFF (skipn 1 api_endpoints) [searching]); reflexivity.
Defined.

Lemma probe_endpoint_yield (n : net) (endpoint : string) (l : log) :
  snd (probe_endpoint n endpoint l) = Ok (endpoint_yield n endpoint).
Proof.
  unfold probe_endpoint, try_except, urlopen_get, endpoint_yield.
  unfold bind at 1. unfold bind at 1. unfold bind at 1, emit, lift.
  destruct (open_url (get n) endpoint) as [body|e] eqn:Hr; cbv beta iota.
  - unfold bind at 1, decode_utf8.
    destruct (utf8_valid body); [|reflexivity].
    destruct (findall iso_url_re whole body) as [|u us].
    + rewrite linkid_loop_spec. reflexivity.
    + reflexivity.
  - rewrite (open_url_is_Exception _ _ _ Hr). reflexivity.
Qed.

Lemma endpoint_loop_yield (n : net) (endpoints : list string) :
  forall l, snd (endpoint_loop n endpoints l) = Ok (first_yield n endpoints).
Proof.
  induction endpoints as [|e es IH]; intros l; [reflexivity|].
  cbn [endpoint_loop first_yield]. unfold bind.
  pose proof (probe_endpoint_yield n e l) as H.
  destruct (probe_endpoint n e l) as [l' r]. cbn [snd] in H. subst r.
  destruct (endpoint_yield n e); [reflexivity | apply IH].
Qed.

(** The URL the resolver returns depends on the network only. *)
Lemma resolver_value (n : net) (l : log) :
  snd (get_windows_iso_url n l) = Ok (resolved n).
Proof.
  rewrite resolver_spec. unfold stage1, resolved, after_stage1.
  pose proof (endpoint_loop_yield n api_endpoints (l ++ [searching])) as H.
  destruct (endpoint_loop n api_endpoints (l ++ [searching])) as [l1 r].
  cbn [snd] in H. subst r.
  destruct (first_yield n api_endpoints); [reflexivity|].
  destruct (List.find (probe_ok n) (candidates base_urls iso_names));
    reflexivity.
Qed.

(** A direct address in the body of an endpoint is returned at once, the
    first one of the body: no link identifier of that body is looked at and
    the resolver issues no HEAD request at all. *)
Theorem direct_url_wins (n : net) (l : log) (pre post : list string)
    (endpoint body u : string) (us : list string) :
  api_endpoints = pre ++ endpoint :: post ->
  Forall (get_fails n) pre ->
  get n endpoint = inr body ->
  utf8_valid body = true ->
  findall iso_url_re whole body = u :: us ->
  get_windows_iso_url n l
  = (l ++ searching :: List.map Get pre
       ++ [Get endpoint; Print ("Found ISO URL in API: " +:+ u)],
     Ok u).
Proof.
  intros He Hpre Hg Hu Hf. rewrite resolver_spec. unfold stage1. rewrite He.
  rewrite (endpoint_loop_skips_failed n pre _ Hpre).
  cbn [endpoint_loop]. unfold bind at 1.
  assert (Hg' : open_url (get n) endpoint = Ok body).
  { rewrite open_url_ascii, Hg; [reflexivity|].
    apply api_endpoints_ascii. rewrite He. apply in_elt. }
  unfold probe_endpoint, try_except, urlopen_get.
  unfold bind at 1. unfold bind at 1. unfold bind at 1, emit, lift.
  rewrite Hg'. cbv beta iota. unfold bind at 1, decode_utf8.
  rewrite Hu, Hf. unfold bind, print, emit, ret. cbv beta iota.
  rewrite <- !app_assoc. reflexivity.
Qed.

Lemma direct_url_wins_witness :
  get_windows_iso_url MoreSamples.direct_net []
  = ([] ++ searching :: List.map Get []
       ++ [Get "https://www.microsoft.com/en-us/evalcenter/api/products/getproducts";
           Print ("Found ISO URL in API: "
                  +:+ "https://cdn.example/eval/win.iso")],
     Ok "https://cdn.example/eval/win.iso").
Proof.
  apply (direct_url_wins MoreSamples.direct_net [] [] (skipn 1 api_endpoints)
           "https://www.microsoft.com/en-us/evalcenter/api/products/getproducts"
           MoreSamples.direct_body "https://cdn.example/eval/win.iso" []);
    try (vm_compute; reflexivity).
  constructor.
Defined.

(** ** What can come out *)

Lemma endpoint_yield_kind (n : net) (endpoint u : string) :
  endpoint_yield n endpoint = Some u ->
  direct_shape u \/ exists linkid, all_digits linkid = true /\ u = fwlink linkid.
Proof.
  unfold endpoint_yield.
  destruct (open_url (get n) endpoint) as [body|e]; [|discriminate].
  destruct (utf8_valid body); [|discriminate].
  destruct (findall iso_url_re whole body) as [|u' us] eqn:F.
  - destruct (List.find (linkid_ok n)
                (findall (linkid_re (decimal n)) group1 body))
      as [linkid|] eqn:L; [|discriminate].
    intros [= <-]. right. exists linkid. split; [|reflexivity].
    apply find_some in L as [Hin Hok].
    apply (requested_linkid_digits (decimal n) body linkid Hin).
    unfold linkid_ok in Hok.
    destruct (open_url (head n) (fwlink linkid)) as [r|] eqn:Hr;
      [|discriminate].
    now apply open_url_Ok in Hr as [Hr _].
  - intros [= <-]. left.
    apply (findall_iso_sound body 0 u'). fold (findall iso_url_re whole body).
    rewrite F. now left.
Qed.

Lemma first_yield_kind (n : net) (endpoints : list string) (u : string) :
  first_yield n endpoints = Some u ->
  direct_shape u \/ exists linkid, all_digits linkid = true /\ u = fwlink linkid.
Proof.
  induction endpoints as [|e es IH]; [discriminate|]. cbn [first_yield].
  destruct (endpoint_yield n e) as [u'|] eqn:E; [|exact IH].
  intros [= <-]. exact (endpoint_yield_kind n e _ E).
Qed.

Lemma resolved_kind (n : net) : known_kind (resolved n).
Proof.
  unfold resolved, known_kind.
  destruct (first_yield n api_endpoints) as [u|] eqn:Y.
  - destruct (first_yield_kind n _ _ Y) as [H|H]; auto.
  - destruct (List.find (probe_ok n) (candidates base_urls iso_names))
      as [u|] eqn:F.
    + apply find_some in F as [Hin _]. auto.
    + auto.
Qed.

Lemma known_kind_https (u : string) :
  known_kind u -> String.prefix "https://" u = true.
Proof.
  intros [(mid & -> & _)|[(linkid & _ & ->)|[Hin| ->]]].
  - apply prefix_app.
  - reflexivity.
  - assert (A : forallb (String.prefix "https://")
                  (candidates base_urls iso_names) = true)
      by (vm_compute; reflexivity).
    rewrite forallb_forall in A. now apply A.
  - reflexivity.
Qed.

(** Whatever the network does, the URL the resolver returns is a direct
    address found in a body, the redirect URL of a numeric link identifier,
    one of the fifteen guessed paths or the fallback; in every case it
    begins with [https://]. *)
Theorem resolver_returns_known_kind (n : net) (l : log) :
  exists u,
    snd (get_windows_iso_url n l) = Ok u
    /\ known_kind u
    /\ String.prefix "https://" u = true.
Proof.
  exists (resolved n). split; [apply resolver_value|].
  split; [apply resolved_kind | apply known_kind_https, resolved_kind].
Qed.

End MoreHeuristic.

(* ===================================================================== *)
(** * The download script *)
(* ===================================================================== *)

Section Script.
Import Py Iso IsoSpec IsoRuns.

Lemma retrievals_app (a b : list IsoScript.event) :
  retrievals (a ++ b) = retrievals a ++ retrievals b.
Proof.
  induction a as [|ev a IH]; [reflexivity|].
  destruct ev; cbn [retrievals app]; rewrite ?IH; reflexivity.
Qed.

Lemma retrievals_resolver (l : list Iso.event) :
  retrievals (List.map IsoScript.Resolver l) = [].
Proof. induction l as [|ev l IH]; [reflexivity | exact IH]. Qed.

(** [download_iso] reports a failed retrieval and ends the program with
    status 1; it returns normally after a retrieval that succeeds. *)
Lemma download_iso_run (fetch : string -> option probe_error)
    (url filename : string) (s : list IsoScript.event) :
  IsoScript.download_iso fetch url filename s
  = match fetch url with
    | None =>
        (s ++ [IsoScript.Print ("Downloading " +:+ url);
               IsoScript.Print ("Saving as: " +:+ filename);
               IsoScript.Retrieve url filename;
               IsoScript.Print (IsoScript.nl +:+ "✓ Downloaded: " +:+ filename
                                +:+ " (bootable ISO ready for VMs)")],
         Ok tt)
    | Some e =>
        (s ++ [IsoScript.Print ("Downloading " +:+ url);
               IsoScript.Print ("Saving as: " +:+ filename);
               IsoScript.Retrieve url filename;
               IsoScript.PrintError (exn_of e)],
         Raise (SystemExit 1))
    end.
Proof.
  unfold IsoScript.download_iso, IsoScript.urlretrieve, IsoScript.print,
    IsoScript.emit, bind, ret, raise.
  destruct (fetch url) as [e|]; cbv beta iota.
  - rewrite exn_of_is_Exception. rewrite <- !app_assoc. reflexivity.
  - rewrite <- !app_assoc. reflexivity.
Qed.

(** The script makes exactly one retrieval: of the URL the resolver returns,
    into [win.iso].  It ends normally when the retrieval succeeds and with
    exit status 1 when it fails, and with no other exception, whatever the
    network does. *)
Theorem script_retrieves_resolved_url (n : net)
    (fetch : string -> option probe_error) (s : list IsoScript.event) :
  exists u,
    snd (get_windows_iso_url n []) = Ok u
    /\ retrievals (fst (IsoScript.script n fetch s))
       = retrievals s ++ [(u, "win.iso")]
    /\ snd (IsoScript.script n fetch s)
       = match fetch u with
         | None => Ok tt
         | Some _ => Raise (SystemExit 1)
         end.
Proof.
  exists (resolved n). pose proof (resolver_value n []) as Hv.
  split; [exact Hv|].
  unfold IsoScript.script, IsoScript.resolve, bind.
  destruct (get_windows_iso_url n []) as [l r]. cbn [snd] in Hv. subst r.
  rewrite download_iso_run.
  destruct (fetch (resolved n)); cbn [fst snd];
    rewrite !retrievals_app, retrievals_resolver, app_nil_r;
    cbn [retrievals]; split; reflexivity.
Qed.

End Script.

(* ===================================================================== *)
(** * What a run leaves alone *)
(* ===================================================================== *)

Section Frame.
Import Py Esd EsdSpec EsdRuns.

Ltac frame_step p :=
  lazymatch goal with
  | |- preserves _ (bind _ _) =>
      apply (preserves_bind _ (same_at_trans p)); [|intros ?]
  | |- preserves _ (ret _) => apply (preserves_ret _ (same_at_refl p))
  | |- preserves _ (raise _) => apply (preserves_raise _ (same_at_refl p))
  | |- preserves _ (try_finally _ _) =>
      apply (preserves_try_finally _ (same_at_trans p))
  | |- preserves _ (match ?x with _ => _ end) => destruct x
  end.

Lemma same_at_main (w : world) (p : string) :
  p <> cab_tmp_name w -> p <> "win.esd" -> p <> "win.wim" ->
  preserves (same_at p) (main w).
Proof.
  intros H1 H2 H3. unfold main, print.
  repeat (frame_step p);
    auto using same_at_write, same_at_emit, same_at_download, same_at_unlink,
      same_at_after_parse;
    apply (preserves_weaken quiet); try apply quiet_same_at;
    auto using quiet_check_tools, quiet_extract.
Qed.

(** [main] creates, changes or removes no file other than its temporary
    archive, [win.esd] and [win.wim], however the run ends. *)
Theorem main_touches_three_paths (w : world) (st : state) (p : string) :
  p <> cab_tmp_name w -> p <> "win.esd" -> p <> "win.wim" ->
  fs (fst (main w st)) !! p = fs st !! p.
Proof. intros H1 H2 H3. exact (same_at_main w p H1 H2 H3 st). Qed.

Lemma main_touches_three_paths_witness :
  fs (fst (main Samples.host_full MoreSamples.state_with_notes)) !! "notes.txt"
  = fs MoreSamples.state_with_notes !! "notes.txt".
Proof.
  apply (main_touches_three_paths Samples.host_full
           MoreSamples.state_with_notes "notes.txt");
    vm_compute; discriminate.
Defined.

Lemma broken_download_leaves_archive_witness :
  snd (main MoreSamples.host_broken_catalog Samples.empty_state)
  = Raise RequestException
  /\ fs (fst (main MoreSamples.host_broken_catalog Samples.empty_state))
       !! cab_tmp_name MoreSamples.host_broken_catalog = Some "MS".
Proof.
  apply (broken_download_leaves_archive MoreSamples.host_broken_catalog
           Samples.empty_state "MS"); reflexivity.
Defined.

End Frame.

Section Status.
Import Py Iso IsoSpec IsoRuns.

Lemma probe_log_no_hit (n : net) (urls : list string) :
  Forall (fun u => probe_ok n u = false) urls ->
  probe_log n urls = List.map Head urls
  /\ List.find (probe_ok n) urls = None.
Proof.
  induction 1 as [|u urls Hu _ [IH1 IH2]]; [split; reflexivity|].
  cbn [probe_log List.find List.map]. rewrite Hu, IH1, IH2.
  split; reflexivity.
Qed.

(** In stage 2 only status 200 counts: when no endpoint answers and every
    guessed path either fails or answers with some other status, all fifteen
    are probed and the fallback is returned. *)
Theorem only_status_200_counts (n : net) (l : log) :
  Forall (get_fails n) api_endpoints ->
  Forall (fun u => forall r, head n u = inr r -> status r <> 200)
         (candidates base_urls iso_names) ->
  get_windows_iso_url n l
  = (l ++ searching :: List.map Get api_endpoints
       ++ checking :: List.map Head (candidates base_urls iso_names)
       ++ [falling_back],
     Ok fallback_url).
Proof.
  intros Hg Hh. rewrite resolver_spec. unfold stage1.
  rewrite <- (app_nil_r api_endpoints) at 1.
  rewrite (endpoint_loop_skips_failed n api_endpoints [] Hg).
  cbn [endpoint_loop]. unfold ret.
  assert (Hno : Forall (fun u => probe_ok n u = false)
                  (candidates base_urls iso_names)).
  { eapply Forall_impl; [exact Hh|]. intros u Hu. cbv beta in Hu.
    now apply probe_ok_other_status. }
  destruct (probe_log_no_hit n _ Hno) as [Hlog Hfind].
  unfold after_stage1. rewrite Hfind, Hlog. cbn [fst snd].
  rewrite <- !app_assoc. reflexivity.
Qed.

Lemma only_status_200_counts_witness :
  get_windows_iso_url MoreSamples.no_content_net []
  = ([] ++ searching :: List.map Get api_endpoints
       ++ checking :: List.map Head (candidates base_urls iso_names)
       ++ [falling_back],
     Ok fallback_url).
Proof.
  apply (only_status_200_counts MoreSamples.no_content_net []).
  - repeat constructor; exists ProbeURLError; reflexivity.
  - repeat constructor; intros r [= <-]; discriminate.
Defined.

End Status.
